(** * PC Tool Manager: the hardware telemetry engine

  A shallow embedding of class [UniversalHardwareMonitor] of
  [pc_tool_manager_complete.py]: the metric cache, the sensor detection
  chain with its synthetic fallback, the telemetry refresh and the fan
  status model.

  - Python floats are an interface, [PyFloat], with two implementations:
    [binary64] (IEEE 754 doubles, what CPython computes with) and [exact]
    (rationals, no rounding).  The engine is written once over the
    interface.
  - Python dictionaries are objects of a heap and are passed by
    reference, so that sharing between the engine and its callers is
    visible.
  - The operating system ([psutil], [time], [random], the detectors) is an
    oracle that the engine queries; a query may raise.
  - Exceptions and mutation are a state-and-error monad, [M]. *)

From Stdlib Require Import ZArith QArith Qround Floats Bool List String Ascii.
From Stdlib Require Import DecimalString Lia Lqa.
Import ListNotations.

Set Implicit Arguments.

(** ** Floats *)

(** What the engine needs of Python's [float] and of its conversions from and
  to [int].  [fof_int] is [float(n)] ([None]: OverflowError), [fto_int] is
  [int(x)] ([None]: ValueError on nan, OverflowError on an infinity),
  [frem] is [x % y] for a divisor that is not zero. *)
Class PyFloat (F : Type) : Type := {
  flit : Q -> F;
  fof_int : Z -> option F;
  fto_int : F -> option Z;
  fadd : F -> F -> F;
  fsub : F -> F -> F;
  fmul : F -> F -> F;
  fdiv : F -> F -> F;
  frem : F -> F -> F;
  fzero : F -> bool;
  flt : F -> F -> bool;
  fle : F -> F -> bool;
  ffinite : F -> bool
}.

Module Binary64.

(** [float(z)]: the nearest double, ties to even; overflow is an error. *)
Definition of_Z (z : Z) : option float :=
  let x := SF2Prim (binary_normalize prec emax z 0 false) in
  if is_infinity x then None else Some x.

(** [int(x)]: truncation toward zero. *)
Definition to_Z (x : float) : option Z :=
  match Prim2SF x with
  | S754_zero _ => Some 0%Z
  | S754_finite s m e =>
      let a := if (0 <=? e)%Z then (Z.pos m * 2 ^ e)%Z
               else (Z.pos m / 2 ^ (- e))%Z in
      Some (if s then (- a)%Z else a)
  | S754_infinity _ | S754_nan => None
  end.

(** A decimal literal [n/d]: both are exact doubles for the literals of
    the source, and IEEE division rounds their quotient correctly, which is
    how a literal is read. *)
Definition of_Q (q : Q) : float :=
  match of_Z (Qnum q), of_Z (Z.pos (Qden q)) with
  | Some n, Some d => (n / d)%float
  | _, _ => nan
  end.

(** [x % y] as CPython's [float_rem]: C's exact [fmod], then the sign of
    the divisor. *)
Definition rem (x y : float) : float :=
  match Prim2SF x, Prim2SF y with
  | S754_nan, _ | _, S754_nan | S754_infinity _, _ | _, S754_zero _ => nan
  | S754_zero _, (S754_finite sy _ _ | S754_infinity sy) =>
      SF2Prim (S754_zero sy)
  | S754_finite sx _ _, S754_infinity sy =>
      if Bool.eqb sx sy then x else y
  | S754_finite sx mx ex, S754_finite sy my ey =>
      let e := Z.min ex ey in
      let r := ((Z.pos mx * 2 ^ (ex - e)) mod (Z.pos my * 2 ^ (ey - e)))%Z in
      if (r =? 0)%Z then SF2Prim (S754_zero sy)
      else
        let m := SF2Prim (binary_normalize prec emax
                            (if sx then (- r)%Z else r) e false) in
        if Bool.eqb sx sy then m else (m + y)%float
  end.

Definition finite (x : float) : bool :=
  match Prim2SF x with
  | S754_zero _ | S754_finite _ _ _ => true
  | S754_infinity _ | S754_nan => false
  end.

End Binary64.

#[export] Instance binary64 : PyFloat float := {|
  flit := Binary64.of_Q;
  fof_int := Binary64.of_Z;
  fto_int := Binary64.to_Z;
  fadd := PrimFloat.add;
  fsub := PrimFloat.sub;
  fmul := PrimFloat.mul;
  fdiv := PrimFloat.div;
  frem := Binary64.rem;
  fzero := PrimFloat.is_zero;
  flt := PrimFloat.ltb;
  fle := PrimFloat.leb;
  ffinite := Binary64.finite
|}.

Module Exact.

Definition to_Z (q : Q) : option Z := Some (Z.quot (Qnum q) (Z.pos (Qden q))).

Definition rem (x y : Q) : Q := Qred (x - y * inject_Z (Qfloor (x / y))).

End Exact.

#[export] Instance exact : PyFloat Q := {|
  flit := fun q => q;
  fof_int := fun z => Some (inject_Z z);
  fto_int := Exact.to_Z;
  fadd := fun x y => Qred (x + y);
  fsub := fun x y => Qred (x - y);
  fmul := fun x y => Qred (x * y);
  fdiv := fun x y => Qred (x / y);
  frem := Exact.rem;
  fzero := fun x => Qeq_bool x 0;
  flt := fun x y => negb (Qle_bool y x);
  fle := Qle_bool;
  ffinite := fun _ => true
|}.

Declare Scope py_scope.
Delimit Scope py_scope with py.
Notation "x + y" := (fadd x y) : py_scope.
Notation "x - y" := (fsub x y) : py_scope.
Notation "x * y" := (fmul x y) : py_scope.
Notation "x / y" := (fdiv x y) : py_scope.
Notation "x <? y" := (flt x y) : py_scope.
Notation "x <=? y" := (fle x y) : py_scope.
Notation "' q" := (flit q%Q) (at level 1, q at level 0, format "' q") : py_scope.

Section PyBuiltins.
Context {F : Type} `{PyFloat F}.
Local Open Scope py_scope.

(** [min(a, b)] and [max(a, b)]: the first argument unless the second is
    strictly better. *)
Definition py_min (a b : F) : F := if b <? a then b else a.
Definition py_max (a b : F) : F := if a <? b then b else a.

(** [max(lo, min(hi, x))], the clamp of every update formula. *)
Definition clamp (lo hi x : F) : F := py_max lo (py_min hi x).

(** Membership in a closed range, with Python's [<=]. *)
Definition in_range (lo hi x : F) : bool :=
  (lo <=? x) && (x <=? hi) && ffinite x.

End PyBuiltins.

(** ** Strings *)

Local Open Scope string_scope.

(** [needle in hay]. *)
Definition contains (needle hay : string) : bool :=
  match String.index 0 needle hay with Some _ => true | None => false end.

(** [s.split(sep)[-1]]: what follows the last separator. *)
Fixpoint last_field (sep : ascii) (s cur : string) : string :=
  match s with
  | EmptyString => cur
  | String c s' =>
      if Ascii.eqb c sep then last_field sep s' ""
      else last_field sep s' (cur ++ String c "")
  end.

(** [int(s)] on a string of decimal digits, the only strings the engine's
    own keys end in; anything else is a ValueError here. *)
Definition int_of_string (s : string) : option Z :=
  match s with
  | EmptyString => None
  | _ => option_map (fun d => Z.of_nat (Nat.of_uint d)) (NilEmpty.uint_of_string s)
  end.

(** [int(sensor_key.split('_')[-1])]. *)
Definition key_number (sensor_key : string) : option Z :=
  int_of_string (last_field "_" sensor_key "").

(** [f'{i}'] for a number that is not negative. *)
Definition str (i : nat) : string := NilEmpty.string_of_uint (Nat.to_uint i).

(** ** Dictionaries

    A [dict] keeps its keys in insertion order; assigning to a key that is
    there keeps its place. *)
Section Dict.
Variable V : Type.

Definition dict := list (string * V).

Fixpoint dict_get (k : string) (d : dict) : option V :=
    match d with
    | [] => None
    | (k', v) :: d' => if String.eqb k k' then Some v else dict_get k d'
    end.

Fixpoint dict_set (k : string) (v : V) (d : dict) : dict :=
    match d with
    | [] => [(k, v)]
    | (k', v') :: d' =>
        if String.eqb k k' then (k', v) :: d' else (k', v') :: dict_set k v d'
    end.

  (** [d.update(other)]. *)
Definition dict_update (d other : dict) : dict :=
    fold_left (fun acc kv => dict_set (fst kv) (snd kv) acc) other d.

Definition keys (d : dict) : list string := map fst d.

End Dict.

(** [s.lower()] on ASCII letters. *)
Definition lower_ascii (c : ascii) : ascii :=
  let n := nat_of_ascii c in
  if (65 <=? n)%nat && (n <=? 90)%nat then ascii_of_nat (n + 32) else c.

Fixpoint lower (s : string) : string :=
  match s with
  | EmptyString => EmptyString
  | String c s' => String (lower_ascii c) (lower s')
  end.

(** ** Objects, the heap and the engine's fields *)

Definition loc := nat.

Declare Scope monad_scope.
Delimit Scope monad_scope with monad.

Section Model.
Context {F : Type} {PF : PyFloat F}.
Local Open Scope py_scope.

(** A sensor record.  Every place of the source that builds one sets
    ['name'], ['type'], ['current'], ['method'] and ['unit'] (the defaults of
    the [.get] calls that read them are never used); [s_other] holds the
    keys only detectors add (['max'], ['size_gb'], ['memory_gb']). *)
Record Sensor : Type := {
  s_name : string;
  s_type : string;
  s_current : F;
  s_method : string;
  s_unit : string;
  s_other : list (string * F)
}.

(** A fan record, as [_initialize_fan_status] builds it. *)
Record Fan : Type := {
  current_rpm : Z;
  current_speed : Z;
  max_rpm : Z;
  status : string
}.

(** The objects callers and engine can share: dictionaries from keys to
    records, and the records. *)
Inductive Obj : Type :=
| OMap (items : dict loc)
| OSensor (s : Sensor)
| OFan (f : Fan).

(** The [psutil] queries the engine makes. *)
Inductive OsCall : Type :=
| CpuPercent | VirtualMemory | CpuFreq | CpuCount | DiskIoCounters | DiskPartitions.

Record St : Type := {
  heap : list Obj;
  sensors : loc;
  fan_status : loc;
  last_cpu_check : F;
  last_memory_check : F;
  cached_cpu_percent : F;
  cached_memory_percent : F;
  cache_duration : F;
  cursor : nat;
  os_calls : list OsCall
}.

Definition with_heap (h : list Obj) (s : St) : St :=
  {| heap := h; sensors := sensors s; fan_status := fan_status s;
     last_cpu_check := last_cpu_check s; last_memory_check := last_memory_check s;
     cached_cpu_percent := cached_cpu_percent s;
     cached_memory_percent := cached_memory_percent s;
     cache_duration := cache_duration s; cursor := cursor s; os_calls := os_calls s |}.

Definition with_sensors (l : loc) (s : St) : St :=
  {| heap := heap s; sensors := l; fan_status := fan_status s;
     last_cpu_check := last_cpu_check s; last_memory_check := last_memory_check s;
     cached_cpu_percent := cached_cpu_percent s;
     cached_memory_percent := cached_memory_percent s;
     cache_duration := cache_duration s; cursor := cursor s; os_calls := os_calls s |}.

Definition with_fan_status (l : loc) (s : St) : St :=
  {| heap := heap s; sensors := sensors s; fan_status := l;
     last_cpu_check := last_cpu_check s; last_memory_check := last_memory_check s;
     cached_cpu_percent := cached_cpu_percent s;
     cached_memory_percent := cached_memory_percent s;
     cache_duration := cache_duration s; cursor := cursor s; os_calls := os_calls s |}.

Definition with_last_cpu_check (t : F) (s : St) : St :=
  {| heap := heap s; sensors := sensors s; fan_status := fan_status s;
     last_cpu_check := t; last_memory_check := last_memory_check s;
     cached_cpu_percent := cached_cpu_percent s;
     cached_memory_percent := cached_memory_percent s;
     cache_duration := cache_duration s; cursor := cursor s; os_calls := os_calls s |}.

Definition with_last_memory_check (t : F) (s : St) : St :=
  {| heap := heap s; sensors := sensors s; fan_status := fan_status s;
     last_cpu_check := last_cpu_check s; last_memory_check := t;
     cached_cpu_percent := cached_cpu_percent s;
     cached_memory_percent := cached_memory_percent s;
     cache_duration := cache_duration s; cursor := cursor s; os_calls := os_calls s |}.

Definition with_cached_cpu_percent (v : F) (s : St) : St :=
  {| heap := heap s; sensors := sensors s; fan_status := fan_status s;
     last_cpu_check := last_cpu_check s; last_memory_check := last_memory_check s;
     cached_cpu_percent := v;
     cached_memory_percent := cached_memory_percent s;
     cache_duration := cache_duration s; cursor := cursor s; os_calls := os_calls s |}.

Definition with_cached_memory_percent (v : F) (s : St) : St :=
  {| heap := heap s; sensors := sensors s; fan_status := fan_status s;
     last_cpu_check := last_cpu_check s; last_memory_check := last_memory_check s;
     cached_cpu_percent := cached_cpu_percent s;
     cached_memory_percent := v;
     cache_duration := cache_duration s; cursor := cursor s; os_calls := os_calls s |}.

Definition with_cursor (n : nat) (s : St) : St :=
  {| heap := heap s; sensors := sensors s; fan_status := fan_status s;
     last_cpu_check := last_cpu_check s; last_memory_check := last_memory_check s;
     cached_cpu_percent := cached_cpu_percent s;
     cached_memory_percent := cached_memory_percent s;
     cache_duration := cache_duration s; cursor := n; os_calls := os_calls s |}.

Definition with_os_calls (c : list OsCall) (s : St) : St :=
  {| heap := heap s; sensors := sensors s; fan_status := fan_status s;
     last_cpu_check := last_cpu_check s; last_memory_check := last_memory_check s;
     cached_cpu_percent := cached_cpu_percent s;
     cached_memory_percent := cached_memory_percent s;
     cache_duration := cache_duration s; cursor := cursor s; os_calls := c |}.

(** ** The operating system

    Every answer is indexed by the number of queries made before it (the
    [cursor]), so that two queries of one kind can differ.  [None] is a query
    that raises. *)

Record svmem : Type := { vm_percent : F; vm_total : Z; vm_used : Z }.

Record sdiskio : Type := { read_bytes : Z; write_bytes : Z }.

(** The registered detection methods, in the order of [detection_methods]. *)
Inductive Detector : Type :=
| _detect_psutil_sensors
| _detect_windows_hardware_info
| _detect_thermal_sensors
| _detect_gpu_info
| _detect_cpu_specific.

Record Oracle : Type := {
  (** [time.time()] *)
  o_time : nat -> F;
  (** [random.random()], in [0, 1) *)
  o_random : nat -> F;
  (** whether [import psutil] succeeds *)
  o_psutil : bool;
  (** [psutil.cpu_percent(interval=...)] *)
  o_cpu_percent : nat -> option F;
  (** [psutil.virtual_memory()] *)
  o_virtual_memory : nat -> option svmem;
  (** [psutil.cpu_freq()]: [Some None] is the result [None], otherwise the
      [current] field of the result *)
  o_cpu_freq : nat -> option (option F);
  (** [psutil.cpu_count(logical=...)], which may return [None] *)
  o_cpu_count : nat -> option (option Z);
  (** [psutil.disk_io_counters()], which may return [None] *)
  o_disk_io_counters : nat -> option (option sdiskio);
  (** [psutil.disk_partitions()]: the [device] of each partition *)
  o_disk_partitions : nat -> option (list string);
  (** [platform.processor()] *)
  o_processor : nat -> option string;
  (** the name the video controller query prints, [None] when it fails or
      prints nothing *)
  o_gpu_name : nat -> option string;
  (** what a detection method returns: the records of its dictionary *)
  o_detect : Detector -> nat -> option (dict Sensor)
}.

(** ** The monad: state, and exceptions that keep the state *)

Inductive res (A : Type) : Type :=
| Ok (a : A)
| Raise.
Arguments Raise {A}.

Definition M (A : Type) : Type := Oracle -> St -> res A * St.

Definition ret {A} (a : A) : M A := fun _ s => (Ok a, s).

Definition bind {A B} (m : M A) (f : A -> M B) : M B :=
  fun o s => match m o s with
             | (Ok a, s') => f a o s'
             | (Raise, s') => (Raise, s')
             end.

Definition raise {A} : M A := fun _ s => (Raise, s).

(** [try: m except: h]. *)
Definition try_ {A} (m h : M A) : M A :=
  fun o s => match m o s with
             | (Ok a, s') => (Ok a, s')
             | (Raise, s') => h o s'
             end.

Definition gets {A} (f : St -> A) : M A := fun _ s => (Ok (f s), s).

Definition modify (f : St -> St) : M unit := fun _ s => (Ok tt, f s).

(** An answer of the oracle: the cursor moves on. *)
Definition ask {A} (f : Oracle -> nat -> A) : M A :=
  fun o s => (Ok (f o (cursor s)), with_cursor (S (cursor s)) s).

Definition lift {A} (x : option A) : M A :=
  match x with Some a => ret a | None => raise end.

Notation "x <- m ;; k" := (bind m (fun x => k))
  (at level 61, m at next level, right associativity) : monad_scope.
Notation "m ;; k" := (bind m (fun _ => k))
  (at level 61, right associativity) : monad_scope.
Local Open Scope monad_scope.

(** [for x in xs: body]. *)
Fixpoint forM_ {A} (xs : list A) (body : A -> M unit) : M unit :=
  match xs with
  | [] => ret tt
  | x :: xs' => body x ;; forM_ xs' body
  end.

(** *** The heap *)

Definition alloc (x : Obj) : M loc :=
  fun _ s => (Ok (List.length (heap s)), with_heap (heap s ++ [x])%list s).

Definition load (l : loc) : M Obj :=
  fun _ s => match nth_error (heap s) l with
             | Some x => (Ok x, s)
             | None => (Raise, s)
             end.

Fixpoint list_set {A} (i : nat) (x : A) (xs : list A) : list A :=
  match xs, i with
  | [], _ => []
  | _ :: xs', O => x :: xs'
  | y :: xs', S i' => y :: list_set i' x xs'
  end.

Definition store (l : loc) (x : Obj) : M unit :=
  modify (fun s => with_heap (list_set l x (heap s)) s).

Definition load_map (l : loc) : M (dict loc) :=
  x <- load l ;; match x with OMap m => ret m | _ => raise end.

Definition load_sensor (l : loc) : M Sensor :=
  x <- load l ;; match x with OSensor r => ret r | _ => raise end.

Definition load_fan (l : loc) : M Fan :=
  x <- load l ;; match x with OFan r => ret r | _ => raise end.

(** [d[k]] (KeyError when [k] is not a key) and [d[k] = l]. *)
Definition getitem (d : loc) (k : string) : M loc :=
  m <- load_map d ;; lift (dict_get k m).

Definition setitem (d : loc) (k : string) (l : loc) : M unit :=
  m <- load_map d ;; store d (OMap (dict_set k l m)).

(** *** Built-ins and libraries *)

(** [float(n)], [int(x)], [a / b] on two ints and on two floats. *)
Definition float_ (n : Z) : M F := lift (fof_int n).

Definition int_ (x : F) : M Z := lift (fto_int x).

Definition truediv_int (a b : Z) : M F :=
  if (b =? 0)%Z then raise
  else x <- float_ a ;; y <- float_ b ;; ret (x / y).

Definition truediv (x y : F) : M F :=
  if fzero y then raise else ret (x / y).

(** [random.uniform(a, b)], which is [a + (b - a) * random()]. *)
Definition uniform (a b : F) : M F :=
  r <- ask o_random ;; ret (a + (b - a) * r).

Definition import_psutil : M unit :=
  fun o s => if o_psutil o then (Ok tt, s) else (Raise, s).

(** A query of [psutil], recorded in [os_calls]. *)
Definition os_call {A} (c : OsCall) (f : Oracle -> nat -> option A) : M A :=
  modify (fun s => with_os_calls (c :: os_calls s) s) ;;
  x <- ask f ;;
  lift x.

(** ** The metric cache *)

Definition _get_cached_cpu_percent : M F :=
  current_time <- ask o_time ;;
  last <- gets last_cpu_check ;;
  duration <- gets cache_duration ;;
  (if duration <? current_time - last then
     try_ (import_psutil ;;
           v <- os_call CpuPercent o_cpu_percent ;;
           modify (with_cached_cpu_percent v) ;;
           modify (with_last_cpu_check current_time))
          (ret tt)
   else ret tt) ;;
  gets cached_cpu_percent.

Definition _get_cached_memory_percent : M F :=
  current_time <- ask o_time ;;
  last <- gets last_memory_check ;;
  duration <- gets cache_duration ;;
  (if duration <? current_time - last then
     try_ (import_psutil ;;
           vm <- os_call VirtualMemory o_virtual_memory ;;
           modify (with_cached_memory_percent (vm_percent vm)) ;;
           modify (with_last_memory_check current_time))
          (ret tt)
   else ret tt) ;;
  gets cached_memory_percent.

(** ** The fan status model *)

Definition with_current_rpm (v : Z) (f : Fan) : Fan :=
  {| current_rpm := v; current_speed := current_speed f;
     max_rpm := max_rpm f; status := status f |}.

Definition with_current_speed (v : Z) (f : Fan) : Fan :=
  {| current_rpm := current_rpm f; current_speed := v;
     max_rpm := max_rpm f; status := status f |}.

Definition with_status (v : string) (f : Fan) : Fan :=
  {| current_rpm := current_rpm f; current_speed := current_speed f;
     max_rpm := max_rpm f; status := v |}.

Definition _initialize_fan_status : M unit :=
  cpu_fan <- alloc (OFan {| current_rpm := 1200; current_speed := 60;
                            max_rpm := 3000; status := "Normal" |}) ;;
  gpu_fan <- alloc (OFan {| current_rpm := 1000; current_speed := 50;
                            max_rpm := 3500; status := "Normal" |}) ;;
  case_fan_1 <- alloc (OFan {| current_rpm := 800; current_speed := 40;
                               max_rpm := 2000; status := "Normal" |}) ;;
  case_fan_2 <- alloc (OFan {| current_rpm := 750; current_speed := 38;
                               max_rpm := 2000; status := "Normal" |}) ;;
  case_fan_3 <- alloc (OFan {| current_rpm := 700; current_speed := 35;
                               max_rpm := 2000; status := "Normal" |}) ;;
  d <- alloc (OMap [("cpu_fan", cpu_fan); ("gpu_fan", gpu_fan);
                    ("case_fan_1", case_fan_1); ("case_fan_2", case_fan_2);
                    ("case_fan_3", case_fan_3)]) ;;
  modify (with_fan_status d).

(** [self.fan_status[fan_id][field] = v], with [f] the change of the field. *)
Definition set_fan (fan_id : string) (f : Fan -> Fan) : M unit :=
  d <- gets fan_status ;;
  l <- getitem d fan_id ;;
  x <- load_fan l ;;
  store l (OFan (f x)).

(** One turn of the loop of [_update_fan_status_real_time]. *)
Definition update_fan (fan_id : string) (fan_info : loc) : M unit :=
  info <- load_fan fan_info ;;
  m <- float_ (max_rpm info) ;;
  let base_rpm := m * '0.4 in
  rs <- (if fan_id =? "cpu_fan" then
           load_variation <- uniform '0.3 '0.8 ;;
           rpm_variation <- uniform '(-100) '200 ;;
           current_rpm <- int_ (base_rpm * load_variation + rpm_variation) ;;
           q <- truediv_int current_rpm (max_rpm info) ;;
           current_speed <- int_ (q * '100) ;;
           ret (current_rpm, current_speed)
         else if fan_id =? "gpu_fan" then
           gpu_load <- uniform '0.2 '0.9 ;;
           v <- uniform '(-50) '150 ;;
           current_rpm <- int_ (base_rpm * gpu_load + v) ;;
           q <- truediv_int current_rpm (max_rpm info) ;;
           current_speed <- int_ (q * '100) ;;
           ret (current_rpm, current_speed)
         else
           case_variation <- uniform '0.8 '1.2 ;;
           v <- uniform '(-30) '50 ;;
           current_rpm <- int_ (base_rpm * case_variation + v) ;;
           q <- truediv_int current_rpm (max_rpm info) ;;
           current_speed <- int_ (q * '100) ;;
           ret (current_rpm, current_speed)) ;;
  let current_rpm := Z.max 200 (Z.min (max_rpm info) (fst rs)) in
  let current_speed := Z.max 10 (Z.min 100 (snd rs)) in
  set_fan fan_id (with_current_rpm current_rpm) ;;
  set_fan fan_id (with_current_speed current_speed) ;;
  (if (80 <? current_speed)%Z then set_fan fan_id (with_status "High")
   else if (60 <? current_speed)%Z then set_fan fan_id (with_status "Medium")
   else set_fan fan_id (with_status "Normal")).

Definition _update_fan_status_real_time : M unit :=
  try_ (current_time <- ask o_time ;;
        let time_factor := frem current_time '60 / '60 in
        d <- gets fan_status ;;
        items <- load_map d ;;
        forM_ items (fun kv => update_fan (fst kv) (snd kv)))
       (ret tt).

Definition get_fan_status : M loc :=
  d <- gets fan_status ;;
  m <- load_map d ;;
  (match m with [] => _initialize_fan_status | _ => ret tt end) ;;
  _update_fan_status_real_time ;;
  gets fan_status.

Definition set_fan_speed (fan_id : string) (speed_percent : Z) : M bool :=
  try_ (d <- gets fan_status ;;
        m <- load_map d ;;
        match dict_get fan_id m with
        | Some _ =>
            set_fan fan_id (with_current_speed speed_percent) ;;
            p <- float_ speed_percent ;;
            l <- getitem d fan_id ;;
            info <- load_fan l ;;
            mx <- float_ (max_rpm info) ;;
            rpm <- int_ ((p / '100) * mx) ;;
            set_fan fan_id (with_current_rpm rpm) ;;
            ret true
        | None => ret false
        end)
       (ret false).

(** The loop of [set_all_fans_speed]. *)
Fixpoint set_fans_speed (ids : list string) (speed_percent : Z)
    (results : dict bool) : M (dict bool) :=
  match ids with
  | [] => ret results
  | fan_id :: ids' =>
      r <- set_fan_speed fan_id speed_percent ;;
      set_fans_speed ids' speed_percent (dict_set fan_id r results)
  end.

Definition set_all_fans_speed (speed_percent : Z) : M (dict bool) :=
  d <- gets fan_status ;;
  m <- load_map d ;;
  set_fans_speed (keys m) speed_percent [].

(** ** The telemetry refresh *)

Definition with_current (v : F) (r : Sensor) : Sensor :=
  {| s_name := s_name r; s_type := s_type r; s_current := v;
     s_method := s_method r; s_unit := s_unit r; s_other := s_other r |}.

(** [gpu_activity] of the GPU branches. *)
Definition gpu_activity_of (memory_percent cpu_percent : F) : F :=
  (memory_percent * '0.3 + cpu_percent * '0.4) / '100.

(** The body of the [try] of [_update_simulated_sensor]. *)
Definition update_body (sensor_key : string) (sensor_info : Sensor)
    : M (option F) :=
  import_psutil ;;
  cpu_percent <- _get_cached_cpu_percent ;;
  memory_percent <- _get_cached_memory_percent ;;
  current_time <- ask o_time ;;
  let time_factor := frem current_time '10 / '10 in
  if negb (contains "Simulated" (s_method sensor_info)) then
    let current_temp := s_current sensor_info in
    variation <- uniform '(-0.5) '0.5 ;;
    ret (Some (clamp '20 '100 (current_temp + variation)))
  else if sensor_key =? "cpu_package" then
    cpu_freq <- os_call CpuFreq o_cpu_freq ;;
    let base_temp := '35 in
    let freq_factor :=
      match cpu_freq with Some c => (c / '3000) * '10 | None => '0 end in
    let load_factor := (cpu_percent / '100) * '20 in
    u <- uniform '(-0.8) '1.2 ;;
    let variation := u + time_factor * '0.5 in
    let new_temp := base_temp + freq_factor + load_factor + variation in
    ret (Some (clamp '30 '85 new_temp))
  else if contains "cpu_core_" sensor_key then
    core_num <- lift (key_number sensor_key) ;;
    let base_temp := '35 in
    cond <- os_call CpuFreq o_cpu_freq ;;
    freq_factor <-
      match cond with
      | Some _ => again <- os_call CpuFreq o_cpu_freq ;;
                  c <- lift again ;;
                  ret ((c / '3000) * '8)
      | None => ret '0
      end ;;
    let load_factor := (cpu_percent / '100) * '18 in
    u <- uniform '(-2) '4 ;;
    n <- float_ core_num ;;
    let core_variation := u + n * '0.5 in
    let new_temp := base_temp + freq_factor + load_factor + core_variation in
    ret (Some (clamp '28 '90 new_temp))
  else if contains "cpu_thread_" sensor_key then
    thread_num <- lift (key_number sensor_key) ;;
    let base_temp := '35 in
    let load_factor := (cpu_percent / '100) * '16 in
    u <- uniform '(-1) '3 ;;
    n <- float_ thread_num ;;
    let thread_variation := u + n * '0.3 in
    let new_temp := base_temp + load_factor + thread_variation in
    ret (Some (clamp '27 '88 new_temp))
  else if contains "ram_module_" sensor_key then
    module_num <- lift (key_number sensor_key) ;;
    memory <- os_call VirtualMemory o_virtual_memory ;;
    q <- truediv_int (vm_used memory) (vm_total memory) ;;
    let ram_usage := q * '15 in
    let base_temp := '25 in
    u <- uniform '(-1.5) '2.5 ;;
    n <- float_ module_num ;;
    let module_variation := u + n * '0.8 in
    let new_temp := base_temp + ram_usage + module_variation in
    ret (Some (clamp '20 '60 new_temp))
  else if sensor_key =? "ram_controller" then
    memory <- os_call VirtualMemory o_virtual_memory ;;
    q <- truediv_int (vm_used memory) (vm_total memory) ;;
    let ram_usage := q * '10 in
    let base_temp := '30 in
    variation <- uniform '(-1) '2 ;;
    let new_temp := base_temp + ram_usage + variation in
    ret (Some (clamp '25 '55 new_temp))
  else if contains "ram_dimm_" sensor_key then
    dimm_num <- lift (key_number sensor_key) ;;
    let base_temp := '28 in
    u <- uniform '(-1) '3 ;;
    n <- float_ dimm_num ;;
    let dimm_variation := u + n * '0.5 in
    let new_temp := base_temp + dimm_variation in
    ret (Some (clamp '22 '50 new_temp))
  else if sensor_key =? "gpu_core" then
    let gpu_activity := gpu_activity_of memory_percent cpu_percent in
    let base_temp := '30 in
    let activity_temp := gpu_activity * '25 in
    variation <- uniform '(-0.8) '1.5 ;;
    let new_temp := base_temp + activity_temp + variation in
    ret (Some (clamp '25 '80 new_temp))
  else if sensor_key =? "gpu_memory" then
    let gpu_activity := gpu_activity_of memory_percent cpu_percent in
    let base_temp := '28 in
    let activity_temp := gpu_activity * '20 in
    variation <- uniform '(-1.2) '2 ;;
    let new_temp := base_temp + activity_temp + variation in
    ret (Some (clamp '22 '75 new_temp))
  else if sensor_key =? "gpu_vrm" then
    let gpu_activity := gpu_activity_of memory_percent cpu_percent in
    let base_temp := '32 in
    let activity_temp := gpu_activity * '25 in
    variation <- uniform '(-1) '2.5 ;;
    let new_temp := base_temp + activity_temp + variation in
    ret (Some (clamp '25 '80 new_temp))
  else if sensor_key =? "gpu_hotspot" then
    let gpu_activity := gpu_activity_of memory_percent cpu_percent in
    let base_temp := '35 in
    let activity_temp := gpu_activity * '30 in
    variation <- uniform '(-0.8) '3 ;;
    let new_temp := base_temp + activity_temp + variation in
    ret (Some (clamp '30 '85 new_temp))
  else if sensor_key =? "gpu_fan" then
    let gpu_activity := gpu_activity_of memory_percent cpu_percent in
    let base_temp := '25 in
    let activity_temp := gpu_activity * '10 in
    variation <- uniform '(-1.5) '2 ;;
    let new_temp := base_temp + activity_temp + variation in
    ret (Some (clamp '20 '60 new_temp))
  else if sensor_key =? "motherboard" then
    let base_temp := s_current sensor_info in
    variation <- uniform '(-0.3) '0.8 ;;
    ret (Some (clamp '25 '40 (base_temp + variation)))
  else if sensor_key =? "chipset" then
    let base_temp := s_current sensor_info in
    variation <- uniform '(-0.5) '1 ;;
    ret (Some (clamp '30 '45 (base_temp + variation)))
  else if sensor_key =? "southbridge" then
    let base_temp := s_current sensor_info in
    variation <- uniform '(-0.4) '0.8 ;;
    ret (Some (clamp '28 '42 (base_temp + variation)))
  else if contains "pcie_slot_" sensor_key then
    slot_num <- lift (key_number sensor_key) ;;
    let base_temp := '30 in
    u <- uniform '(-0.5) '1.5 ;;
    n <- float_ slot_num ;;
    let slot_variation := u + n * '0.3 in
    ret (Some (clamp '25 '40 (base_temp + slot_variation)))
  else if sensor_key =? "vrm" then
    cpu_freq <- os_call CpuFreq o_cpu_freq ;;
    let base_temp := '40 in
    let freq_factor :=
      match cpu_freq with Some c => (c / '3000) * '12 | None => '0 end in
    let load_factor := (cpu_percent / '100) * '15 in
    variation <- uniform '(-1) '2 ;;
    let new_temp := base_temp + freq_factor + load_factor + variation in
    ret (Some (clamp '35 '95 new_temp))
  else if contains "storage_" sensor_key then
    try_
      (disk_io <- os_call DiskIoCounters o_disk_io_counters ;;
       activity_temp <-
         match disk_io with
         | Some io =>
             disk_activity <-
               truediv_int (read_bytes io + write_bytes io) (1024 ^ 3) ;;
             ret (py_min (disk_activity / '100) '15)
         | None => ret '0
         end ;;
       if contains "ssd" sensor_key then
         variation <- uniform '(-0.8) '1.2 ;;
         ret (Some (clamp '20 '45 ('28 + activity_temp + variation)))
       else if contains "hdd" sensor_key then
         variation <- uniform '(-1) '2 ;;
         ret (Some (clamp '30 '55 ('35 + activity_temp + variation)))
       else if contains "nvme" sensor_key then
         variation <- uniform '(-0.5) '1.5 ;;
         ret (Some (clamp '25 '50 ('32 + activity_temp + variation)))
       else
         let base_temp := s_current sensor_info in
         variation <- uniform '(-0.5) '1 ;;
         ret (Some (clamp '25 '55 (base_temp + variation))))
      (let base_temp := s_current sensor_info in
       variation <- uniform '(-0.5) '1 ;;
       ret (Some (clamp '25 '55 (base_temp + variation))))
  else if sensor_key =? "psu" then
    let system_load := (cpu_percent + memory_percent) / '2 in
    let base_temp := '35 in
    let load_temp := (system_load / '100) * '15 in
    variation <- uniform '(-0.8) '1.2 ;;
    let new_temp := base_temp + load_temp + variation in
    ret (Some (clamp '30 '65 new_temp))
  else
    let base_temp := s_current sensor_info in
    variation <- uniform '(-0.5) '1 ;;
    ret (Some (clamp '20 '80 (base_temp + variation))).

Definition _update_simulated_sensor (sensor_key : string) (sensor_info : Sensor)
    : M (option F) :=
  try_ (update_body sensor_key sensor_info)
       (ret (Some (s_current sensor_info))).

(** [sensor_info.copy()], then [['current'] = updated_temp] on the copy. *)
Definition copy_with_current (sensor_info : Sensor) (updated_temp : F) : M loc :=
  updated_sensor_info <- alloc (OSensor sensor_info) ;;
  store updated_sensor_info (OSensor (with_current updated_temp sensor_info)) ;;
  ret updated_sensor_info.

(** The small variation of the two fallback branches of
    [get_updated_sensors]. *)
Definition small_variation (sensor_info : Sensor) : M F :=
  let current_temp := s_current sensor_info in
  variation <- uniform '(-0.5) '0.5 ;;
  ret (clamp '20 '100 (current_temp + variation)).

(** One turn of the loop of [get_updated_sensors]. *)
Definition update_sensor (updated_sensors : loc) (sensor_key : string)
    (l : loc) : M unit :=
  sensor_info <- load_sensor l ;;
  try_
    (updated_temp <- _update_simulated_sensor sensor_key sensor_info ;;
     match updated_temp with
     | Some t =>
         c <- copy_with_current sensor_info t ;;
         setitem updated_sensors sensor_key c
     | None =>
         t <- small_variation sensor_info ;;
         c <- copy_with_current sensor_info t ;;
         setitem updated_sensors sensor_key c
     end)
    (t <- small_variation sensor_info ;;
     c <- copy_with_current sensor_info t ;;
     setitem updated_sensors sensor_key c).

Definition get_updated_sensors : M loc :=
  updated_sensors <- alloc (OMap []) ;;
  d <- gets sensors ;;
  items <- load_map d ;;
  forM_ items (fun kv => update_sensor updated_sensors (fst kv) (snd kv)) ;;
  ret updated_sensors.

(** ** The synthetic sensor generator *)

(** The record of a simulated sensor. *)
Definition simulated (name type : string) (current : F) (method : string) : Sensor :=
  {| s_name := name; s_type := type; s_current := current;
     s_method := method; s_unit := "°C"; s_other := [] |}.

(** [sensors[key] = {...}]. *)
Definition put (sensors : loc) (key : string) (r : Sensor) : M unit :=
  l <- alloc (OSensor r) ;;
  setitem sensors key l.

(** [range(a, b)]. *)
Definition range (a b : Z) : list Z :=
  map (fun k => (a + Z.of_nat k)%Z) (seq 0 (Z.to_nat (b - a))).

(** [f'{i}'] for an int. *)
Definition str_int (i : Z) : string :=
  if (i <? 0)%Z then "-" ++ str (Z.to_nat (- i)) else str (Z.to_nat i).

(** The flags [has_ssd] and [has_hdd] after the loop over the partitions. *)
Fixpoint storage_kinds (devices : list string) (has : bool * bool) : bool * bool :=
  match devices with
  | [] => has
  | device :: rest =>
      if negb (device =? "") && contains "ssd" (lower device) then
        storage_kinds rest (true, snd has)
      else if negb (device =? "")
              && (contains "hdd" (lower device) || contains "disk" (lower device)) then
        storage_kinds rest (fst has, true)
      else storage_kinds rest has
  end.

(** The storage block of [_create_simulated_sensors], its own [try]. *)
Definition create_storage (sensors : loc) (ram_total_gb : F) : M unit :=
  try_
    (disk_io <- os_call DiskIoCounters o_disk_io_counters ;;
     disk_partitions <- os_call DiskPartitions o_disk_partitions ;;
     let found := storage_kinds disk_partitions (false, false) in
     let has :=
       if negb (fst found) && negb (snd found) then
         if '16 <=? ram_total_gb then (true, false) else (true, true)
       else found in
     activity_factor <-
       match disk_io with
       | Some io =>
           disk_activity <-
             truediv_int (read_bytes io + write_bytes io) (1024 ^ 3) ;;
           ret (py_min (disk_activity / '100) '15)
       | None => ret '0
       end ;;
     (if fst has then
        let ssd_base := '28 in
        u <- uniform '(-1) '2 ;;
        let ssd_temp := clamp '20 '45 (ssd_base + activity_factor + u) in
        put sensors "storage_ssd"
          (simulated "Primary SSD" "Storage" ssd_temp "Simulated (SSD IO-based)") ;;
        u <- uniform '2 '6 ;;
        let ssd_controller_temp := clamp '25 '50 (ssd_temp + u) in
        put sensors "storage_ssd_controller"
          (simulated "SSD Controller" "Storage" ssd_controller_temp
             "Simulated (SSD Controller)")
      else ret tt) ;;
     (if snd has then
        let hdd_base := '35 in
        u <- uniform '(-2) '4 ;;
        let hdd_temp := clamp '30 '55 (hdd_base + activity_factor + u) in
        put sensors "storage_hdd"
          (simulated "Secondary HDD" "Storage" hdd_temp "Simulated (HDD IO-based)") ;;
        u <- uniform '3 '8 ;;
        let hdd_motor_temp := clamp '35 '60 (hdd_temp + u) in
        put sensors "storage_hdd_motor"
          (simulated "HDD Motor" "Storage" hdd_motor_temp "Simulated (HDD Motor)")
      else ret tt) ;;
     (if '32 <=? ram_total_gb then
        u <- uniform '(-1) '3 ;;
        let nvme_temp := clamp '25 '50 ('32 + activity_factor + u) in
        put sensors "storage_nvme"
          (simulated "NVMe SSD" "Storage" nvme_temp "Simulated (NVMe IO-based)")
      else ret tt))
    (u <- uniform '0 '5 ;;
     let storage_temp := '32 + u in
     put sensors "storage_primary"
       (simulated "Primary Storage" "Storage" storage_temp "Simulated (Default)")).

(** The body of the [try] of [_create_simulated_sensors]. *)
Definition create_sensors (sensors : loc) : M unit :=
  import_psutil ;;
  cpu_percent <- os_call CpuPercent o_cpu_percent ;;
  vm <- os_call VirtualMemory o_virtual_memory ;;
  let memory_percent := vm_percent vm in
  cpu_freq <- os_call CpuFreq o_cpu_freq ;;
  cpu_count <- os_call CpuCount o_cpu_count ;;
  cpu_count_logical <- os_call CpuCount o_cpu_count ;;
  let cpu_base := '35 in
  let freq_factor :=
    match cpu_freq with Some c => (c / '3000) * '10 | None => '0 end in
  let load_factor := (cpu_percent / '100) * '20 in
  u <- uniform '(-1) '2 ;;
  let cpu_temp := clamp '30 '85 (cpu_base + freq_factor + load_factor + u) in
  processor <- ask o_processor ;;
  let cpu_name :=
    match processor with Some p => p ++ " Package" | None => "CPU Package" end in
  put sensors "cpu_package"
    (simulated cpu_name "CPU" cpu_temp "Simulated (Load+Freq-based)") ;;
  cores <- lift cpu_count ;;
  forM_ (range 0 cores) (fun i =>
    u <- uniform '(-5) '10 ;;
    let core_load := cpu_percent + u in
    u <- uniform '(-2) '4 ;;
    let core_temp := cpu_temp + u in
    let core_temp :=
      match cpu_freq with
      | Some c => core_temp + (c / '3000) * '5
      | None => core_temp
      end in
    let core_temp := clamp '28 '90 core_temp in
    put sensors ("cpu_core_" ++ str_int i)
      (simulated ("CPU Core " ++ str_int (i + 1)) "CPU" core_temp
         "Simulated (Core-specific)")) ;;
  logical <- lift cpu_count_logical ;;
  (if (cores <? logical)%Z then
     forM_ (range cores logical) (fun i =>
       u <- uniform '(-1) '3 ;;
       let thread_temp := clamp '27 '88 (cpu_temp + u) in
       put sensors ("cpu_thread_" ++ str_int i)
         (simulated ("CPU Thread " ++ str_int (i + 1)) "CPU" thread_temp
            "Simulated (Thread-specific)"))
   else ret tt) ;;
  memory <- os_call VirtualMemory o_virtual_memory ;;
  ram_total_gb <- truediv_int (vm_total memory) (1024 ^ 3) ;;
  ram_used_gb <- truediv_int (vm_used memory) (1024 ^ 3) ;;
  banks <- int_ (ram_total_gb / '4) ;;
  let ram_banks := Z.max 2 (Z.min 8 banks) in
  forM_ (range 0 ram_banks) (fun i =>
    q <- truediv ram_used_gb ram_total_gb ;;
    let ram_usage_factor := q * '15 in
    u <- uniform '(-2) '3 ;;
    let ram_temp := clamp '20 '60 ('25 + ram_usage_factor + u) in
    put sensors ("ram_module_" ++ str_int i)
      (simulated ("RAM Module " ++ str_int (i + 1)) "Memory" ram_temp
         "Simulated (Usage-based)")) ;;
  q <- truediv ram_used_gb ram_total_gb ;;
  u <- uniform '(-1) '2 ;;
  let ram_controller_temp := clamp '25 '55 ('30 + q * '10 + u) in
  put sensors "ram_controller"
    (simulated "RAM Controller" "Memory" ram_controller_temp "Simulated (Controller)") ;;
  forM_ (range 0 4) (fun i =>
    u <- uniform '(-1) '3 ;;
    let dimm_temp := clamp '22 '50 ('28 + u) in
    put sensors ("ram_dimm_" ++ str_int i)
      (simulated ("DIMM Slot " ++ str_int (i + 1)) "Memory" dimm_temp
         "Simulated (DIMM)")) ;;
  let gpu_base := '30 in
  let gpu_activity := (memory_percent * '0.3 + cpu_percent * '0.4) / '100 in
  u <- uniform '(-1) '3 ;;
  let gpu_temp := clamp '25 '80 (gpu_base + gpu_activity * '25 + u) in
  queried <- ask o_gpu_name ;;
  let gpu_name := match queried with Some n => n | None => "Graphics Card" end in
  put sensors "gpu_core"
    (simulated (gpu_name ++ " Core") "GPU" gpu_temp "Simulated (Activity-based)") ;;
  u <- uniform '(-3) '5 ;;
  let gpu_memory_temp := clamp '22 '75 (gpu_temp + u) in
  put sensors "gpu_memory"
    (simulated (gpu_name ++ " Memory") "GPU" gpu_memory_temp "Simulated (GPU-based)") ;;
  u <- uniform '2 '8 ;;
  let gpu_vrm_temp := clamp '25 '80 (gpu_temp + u) in
  put sensors "gpu_vrm"
    (simulated (gpu_name ++ " VRM") "GPU" gpu_vrm_temp "Simulated (GPU VRM)") ;;
  u <- uniform '5 '12 ;;
  let gpu_hotspot_temp := clamp '30 '85 (gpu_temp + u) in
  put sensors "gpu_hotspot"
    (simulated (gpu_name ++ " Hot Spot") "GPU" gpu_hotspot_temp
       "Simulated (GPU Hot Spot)") ;;
  u <- uniform '5 '15 ;;
  let gpu_fan_temp := clamp '20 '60 (gpu_temp - u) in
  put sensors "gpu_fan"
    (simulated (gpu_name ++ " Fan") "GPU" gpu_fan_temp "Simulated (GPU Fan)") ;;
  u <- uniform '0 '8 ;;
  put sensors "motherboard"
    (simulated "Motherboard" "System" ('28 + u) "Simulated (Ambient)") ;;
  u <- uniform '(-2) '5 ;;
  put sensors "chipset"
    (simulated "Chipset" "System" ('35 + u) "Simulated (Chipset)") ;;
  u <- uniform '(-1) '4 ;;
  put sensors "southbridge"
    (simulated "South Bridge" "System" ('32 + u) "Simulated (South Bridge)") ;;
  forM_ (range 0 3) (fun i =>
    u <- uniform '(-1) '3 ;;
    put sensors ("pcie_slot_" ++ str_int i)
      (simulated ("PCIe Slot " ++ str_int (i + 1)) "System" ('30 + u)
         "Simulated (PCIe)")) ;;
  u <- uniform '5 '15 ;;
  let vrm_temp := clamp '35 '95 (cpu_temp + u) in
  put sensors "vrm"
    (simulated "VRM (CPU Power)" "System" vrm_temp "Simulated (CPU-based)") ;;
  create_storage sensors ram_total_gb ;;
  let system_load := (cpu_percent + memory_percent) / '2 in
  u <- uniform '(-2) '3 ;;
  let psu_temp := clamp '30 '65 ('35 + (system_load / '100) * '15 + u) in
  put sensors "psu"
    (simulated "Power Supply" "System" psu_temp "Simulated (System Load)").

Definition _create_simulated_sensors : M loc :=
  sensors <- alloc (OMap []) ;;
  try_ (create_sensors sensors) (ret tt) ;;
  ret sensors.

(** ** The detection chain *)

Definition detection_methods : list Detector :=
  [_detect_psutil_sensors; _detect_windows_hardware_info;
   _detect_thermal_sensors; _detect_gpu_info; _detect_cpu_specific].

(** A call of a detection method: the dictionary it returns is a new object,
    and so are its records. *)
Definition call (method : Detector) : M loc :=
  r <- ask (fun o => o_detect o method) ;;
  records <- lift r ;;
  sensors <- alloc (OMap []) ;;
  forM_ records (fun kv => put sensors (fst kv) (snd kv)) ;;
  ret sensors.

(** [d.update(other)]. *)
Definition update (d other : loc) : M unit :=
  m <- load_map other ;;
  forM_ m (fun kv => setitem d (fst kv) (snd kv)).

Definition detect_all_sensors : M loc :=
  all_sensors <- alloc (OMap []) ;;
  forM_ detection_methods (fun method =>
    try_ (sensors <- call method ;;
          m <- load_map sensors ;;
          match m with [] => ret tt | _ => update all_sensors sensors end)
         (ret tt)) ;;
  m <- load_map all_sensors ;;
  (if (List.length m <? 5)%nat then
     simulated_sensors <- _create_simulated_sensors ;;
     update all_sensors simulated_sensors
   else ret tt) ;;
  modify (with_sensors all_sensors) ;;
  ret all_sensors.

(** [UniversalHardwareMonitor()]: the fields, then the first detection and
    the fans. *)
Definition __init__ : M unit :=
  sensors0 <- alloc (OMap []) ;;
  fan_status0 <- alloc (OMap []) ;;
  modify (fun s =>
    {| heap := heap s; sensors := sensors0; fan_status := fan_status0;
       last_cpu_check := '0; last_memory_check := '0;
       cached_cpu_percent := '0; cached_memory_percent := '0;
       cache_duration := '2; cursor := cursor s; os_calls := os_calls s |}) ;;
  detect_all_sensors ;;
  _initialize_fan_status.

End Model.

Arguments Sensor : clear implicits.
Arguments Obj : clear implicits.
Arguments St : clear implicits.
Arguments svmem : clear implicits.
Arguments Oracle : clear implicits.
Arguments M : clear implicits.
Arguments Raise {A}.

(** ** Reading a state *)

Section Views.
Context {F : Type} {PF : PyFloat F}.

(** The dictionary and the records at a location. *)
Definition map_at (s : St F) (l : loc) : option (dict loc) :=
  match nth_error (heap s) l with Some (OMap m) => Some m | _ => None end.

Definition sensor_at (s : St F) (l : loc) : option (Sensor F) :=
  match nth_error (heap s) l with Some (OSensor r) => Some r | _ => None end.

Definition fan_at (s : St F) (l : loc) : option Fan :=
  match nth_error (heap s) l with Some (OFan f) => Some f | _ => None end.

(** [d[k]] as a record, for a dictionary of sensors and one of fans. *)
Definition sensor_of (s : St F) (d : loc) (k : string) : option (Sensor F) :=
  match map_at s d with
  | Some m => match dict_get k m with Some l => sensor_at s l | None => None end
  | None => None
  end.

Definition fan_of (s : St F) (d : loc) (k : string) : option Fan :=
  match map_at s d with
  | Some m => match dict_get k m with Some l => fan_at s l | None => None end
  | None => None
  end.

(** The engine holds a dictionary of sensor records. *)
Definition sensors_ok (s : St F) : bool :=
  match map_at s (sensors s) with
  | Some m =>
      forallb (fun kv => match sensor_at s (snd kv) with
                         | Some _ => true
                         | None => false
                         end) m
  | None => false
  end.

(** The age of a cache entry at the next reading of the clock exceeds the
    time to live. *)
Definition cpu_expired (o : Oracle F) (s : St F) : bool :=
  flt (cache_duration s) (fsub (o_time o (cursor s)) (last_cpu_check s)).

Definition memory_expired (o : Oracle F) (s : St F) : bool :=
  flt (cache_duration s) (fsub (o_time o (cursor s)) (last_memory_check s)).

(** What the refresh of a sensor value leaves as it is: every object, the
    two dictionaries the engine holds and the time to live. *)
Definition same_objects (s s' : St F) : Prop :=
  heap s' = heap s /\ sensors s' = sensors s /\ fan_status s' = fan_status s
  /\ cache_duration s' = cache_duration s.

(** A call of [_get_cached_cpu_percent] from [s] to [s']: the entry is kept
    (in its window, or past it with no answer) or replaced by an answer. *)
Definition cpu_step (o : Oracle F) (s s' : St F) : Prop :=
  same_objects s s'
  /\ cached_memory_percent s' = cached_memory_percent s
  /\ last_memory_check s' = last_memory_check s
  /\ ((cached_cpu_percent s' = cached_cpu_percent s
       /\ last_cpu_check s' = last_cpu_check s
       /\ (cpu_expired o s = true ->
           o_psutil o = false \/ o_cpu_percent o (S (cursor s)) = None))
      \/ (cpu_expired o s = true
          /\ o_cpu_percent o (S (cursor s)) = Some (cached_cpu_percent s')
          /\ last_cpu_check s' = o_time o (cursor s))).

Definition memory_step (o : Oracle F) (s s' : St F) : Prop :=
  same_objects s s'
  /\ cached_cpu_percent s' = cached_cpu_percent s
  /\ last_cpu_check s' = last_cpu_check s
  /\ ((cached_memory_percent s' = cached_memory_percent s
       /\ last_memory_check s' = last_memory_check s
       /\ (memory_expired o s = true ->
           o_psutil o = false \/ o_virtual_memory o (S (cursor s)) = None))
      \/ (memory_expired o s = true
          /\ (exists vm, o_virtual_memory o (S (cursor s)) = Some vm
                         /\ vm_percent vm = cached_memory_percent s')
          /\ last_memory_check s' = o_time o (cursor s))).


















(** [l] holds a sensor record. *)
Definition is_sensor (s : St F) (l : loc) : Prop :=
  exists r, sensor_at s l = Some r.

(** What the detection keeps of the heap, from the location [b] on: the
    heap is not shorter than [b], every dictionary from [b] on maps its keys
    to sensor records, and [d] holds a dictionary with at least the keys
    [K]. *)
Definition dict_inv (b : nat) (d : loc) (K : string -> Prop) (s : St F)
    : Prop :=
  (b <= List.length (heap s))%nat
  /\ (forall d' m k l,
        (b <= d')%nat -> map_at s d' = Some m -> In (k, l) m -> is_sensor s l)
  /\ exists m, map_at s d = Some m /\ forall k, K k -> In k (keys m).

(** [psutil] is there, and the queries that open the synthetic generator
    answer: none raises. *)
Definition answers (o : Oracle F) : Prop :=
  o_psutil o = true
  /\ (forall c, o_cpu_percent o c <> None)
  /\ (forall c, o_virtual_memory o c <> None)
  /\ (forall c, o_cpu_freq o c <> None)
  /\ (forall c, o_cpu_count o c <> None).

(** [n] calls of [get_updated_sensors], one after the other. *)
Fixpoint refresh_n (n : nat) : M F unit :=
  match n with
  | O => ret tt
  | S n' => bind get_updated_sensors (fun _ => refresh_n n')
  end.

(** The state of the loop of [get_updated_sensors], entered in [s0] with
    the sensors [m], when the sensors [done] are refreshed: [J] holds, and
    the new dictionary holds a new record for each of them, with a value
    that satisfies [P]. *)
Definition tick_inv (J : St F -> Prop) (P : string -> Sensor F -> F -> Prop)
    (s0 : St F) (m done : dict loc) (s : St F) : Prop :=
  J s /\ sensors s = sensors s0 /\ fan_status s = fan_status s0
  /\ cache_duration s = cache_duration s0
  /\ exists acc recs,
       heap s = (heap s0 ++ OMap acc :: recs)%list
       /\ (forall k, In k (keys acc) <-> In k (keys done))
       /\ (forall k l', In (k, l') acc ->
             exists j l r t,
               l' = (List.length (heap s0) + 1 + j)%nat
               /\ nth_error recs j = Some (OSensor (with_current t r))
               /\ In (k, l) m /\ sensor_at s0 l = Some r /\ P k r t).

End Views.


(** The status that goes with a speed, by the thresholds of the fan model:
    above 80 ['High'], above 60 ['Medium'], otherwise ['Normal']. *)
Definition status_of_speed (speed : Z) : string :=
  if (80 <? speed)%Z then "High"
  else if (60 <? speed)%Z then "Medium"
  else "Normal".

(** [round(percent / 100 * max_rpm)], in exact arithmetic and to the nearest
    integer, ties to even as Python's [round]. *)
Definition round_half_even (q : Q) : Z :=
  let f := Qfloor q in
  let d := (q - inject_Z f)%Q in
  if Qle_bool d (1 # 2) && negb (Qeq_bool d (1 # 2)) then f
  else if Qeq_bool d (1 # 2) then (if Z.even f then f else f + 1)%Z
  else (f + 1)%Z.

Definition rounded_rpm (percent max_rpm : Z) : Z :=
  round_half_even (inject_Z percent / 100 * inject_Z max_rpm)%Q.

(** ** Scenarios *)

Section Scenarios.
Context {F : Type} {PF : PyFloat F}.
Local Open Scope py_scope.

(** An engine before its constructor has run. *)
Definition blank : St F :=
  {| heap := []; sensors := O; fan_status := O;
     last_cpu_check := '0; last_memory_check := '0;
     cached_cpu_percent := '0; cached_memory_percent := '0;
     cache_duration := '0; cursor := O; os_calls := [] |}.

(** A machine on which every query answers, always the same: 37% of CPU at
    3 GHz, 2 cores and 4 threads, half of 16 GiB of memory in use, no disk
    counters; no detection method finds a sensor. *)
Definition steady : Oracle F :=
  {| o_time := fun _ => '1700000003.25;
     o_random := fun _ => '0.5;
     o_psutil := true;
     o_cpu_percent := fun _ => Some '37;
     o_virtual_memory := fun _ =>
       Some {| vm_percent := '50; vm_total := 17179869184;
               vm_used := 8589934592 |};
     o_cpu_freq := fun _ => Some (Some '3000);
     o_cpu_count := fun n => Some (Some (if Nat.even n then 2 else 4)%Z);
     o_disk_io_counters := fun _ => Some None;
     o_disk_partitions := fun _ => Some [];
     o_processor := fun _ => Some "Intel64 Family 6";
     o_gpu_name := fun _ => None;
     o_detect := fun _ _ => None |}.

(** A machine without [psutil], on which no detection method finds a
    sensor. *)
Definition bare : Oracle F :=
  {| o_time := fun _ => '1700000003.25;
     o_random := fun _ => '0.5;
     o_psutil := false;
     o_cpu_percent := fun _ => None;
     o_virtual_memory := fun _ => None;
     o_cpu_freq := fun _ => None;
     o_cpu_count := fun _ => None;
     o_disk_io_counters := fun _ => None;
     o_disk_partitions := fun _ => None;
     o_processor := fun _ => None;
     o_gpu_name := fun _ => None;
     o_detect := fun _ _ => None |}.

(** A record as [_parse_thermal_output] builds it. *)
Definition thermal_zone (name : string) (temp_value : F) : Sensor F :=
  {| s_name := "Thermal Sensor " ++ name; s_type := "Other";
     s_current := temp_value; s_method := "Windows Thermal Sensor";
     s_unit := "°C"; s_other := [] |}.



(** A caller that empties a dictionary it was given: [d.clear()]. *)
Definition clear (d : loc) : M F unit := store d (OMap []).

(** The engine that the constructor builds. *)
Definition started (o : Oracle F) : St F := snd (__init__ o blank).

End Scenarios.

(** The [steady] machine and the engine that the constructor builds on it,
    with doubles. *)
Definition steady64 : Oracle float := steady.

Definition engine64 : St float := started steady64.





(** The [steady] machine and its engine, in exact arithmetic. *)
Definition steadyQ : Oracle Q := steady.

Definition engineQ : St Q := started steadyQ.

(** The [bare] machine and an engine before its constructor, with
    doubles. *)
Definition bare64 : Oracle float := bare.

Definition blank64 : St float := blank.

(** ** What a run keeps *)

Section Frames.
Context {F : Type} {PF : PyFloat F}.

(** The engine holds a dictionary of fan records. *)
Definition fans_ok (s : St F) : bool :=
  match map_at s (fan_status s) with
  | Some m =>
      forallb (fun kv => match fan_at s (snd kv) with
                         | Some _ => true
                         | None => false
                         end) m
  | None => false
  end.

(** [s] has every object of [s0], as it was, at its place; its fan
    dictionary and its cache are those of [s0]. *)
Definition frame_inv (s0 s : St F) : Prop :=
  (forall l x, nth_error (heap s0) l = Some x -> nth_error (heap s) l = Some x)
  /\ (List.length (heap s0) <= List.length (heap s))%nat
  /\ fan_status s = fan_status s0
  /\ last_cpu_check s = last_cpu_check s0
  /\ last_memory_check s = last_memory_check s0
  /\ cached_cpu_percent s = cached_cpu_percent s0
  /\ cached_memory_percent s = cached_memory_percent s0
  /\ cache_duration s = cache_duration s0.

(** A record as the synthetic generator tags it. *)
Definition tagged (r : Sensor F) : Prop :=
  contains "Simulated" (s_method r) = true /\ s_unit r = "°C"
  /\ s_other r = [].

(** From the location [b] on, every dictionary maps its keys to records
    from [b] on, tagged as the generator tags them. *)
Definition tag_inv (b : nat) (s : St F) : Prop :=
  (b <= List.length (heap s))%nat
  /\ forall d m k l,
       (b <= d)%nat -> map_at s d = Some m -> In (k, l) m ->
       (b <= l)%nat /\ exists r, sensor_at s l = Some r /\ tagged r.

(** The five fans of [_initialize_fan_status]. *)
Definition default_fans : list (string * Fan) :=
  [("cpu_fan", {| current_rpm := 1200; current_speed := 60;
                  max_rpm := 3000; status := "Normal" |});
   ("gpu_fan", {| current_rpm := 1000; current_speed := 50;
                  max_rpm := 3500; status := "Normal" |});
   ("case_fan_1", {| current_rpm := 800; current_speed := 40;
                     max_rpm := 2000; status := "Normal" |});
   ("case_fan_2", {| current_rpm := 750; current_speed := 38;
                     max_rpm := 2000; status := "Normal" |});
   ("case_fan_3", {| current_rpm := 700; current_speed := 35;
                     max_rpm := 2000; status := "Normal" |})].

(** The fan dictionary, as the list of its items. *)
Definition fan_items (s : St F) : option (list (string * option Fan)) :=
  option_map (map (fun kv => (fst kv, fan_at s (snd kv))))
             (map_at s (fan_status s)).

End Frames.

(** ** The fans *)

(** A fan as a refresh leaves it: the speed within 10 and 100, the RPM from
    200 up to the maximum (or at 200, under a smaller maximum), and the
    status that the thresholds give for the speed. *)
Definition fan_consistent (f : Fan) : bool :=
  (10 <=? current_speed f)%Z && (current_speed f <=? 100)%Z
  && (200 <=? current_rpm f)%Z
  && (current_rpm f <=? Z.max 200 (max_rpm f))%Z
  && (status f =? status_of_speed (current_speed f)).

(** The fan dictionary of [engine64], and an engine whose fan dictionary is
    empty. *)
Definition steady_fan_map : dict loc :=
  [("cpu_fan", 33%nat); ("gpu_fan", 34%nat); ("case_fan_1", 35%nat);
   ("case_fan_2", 36%nat); ("case_fan_3", 37%nat)].

Definition fanless64 : St float := with_heap [OMap []] blank64.

Section FanSpeed.
Context {F : Type} {PF : PyFloat F}.

(** [int((speed_percent / 100.0) * max_rpm)]; [None] when a conversion
    raises. *)
Definition speed_rpm (speed_percent mx : Z) : option Z :=
  match fof_int speed_percent with
  | Some p =>
      match fof_int mx with
      | Some m => fto_int (fmul (fdiv p (flit 100)) m)
      | None => None
      end
  | None => None
  end.

(** A fan after [set_fan_speed], and what the call returns for it: the
    speed is stored first, the RPM only when it could be computed. *)
Definition set_speed (speed_percent : Z) (f : Fan) : Fan * bool :=
  match speed_rpm speed_percent (max_rpm f) with
  | Some rpm =>
      ({| current_rpm := rpm; current_speed := speed_percent;
          max_rpm := max_rpm f; status := status f |}, true)
  | None => (with_current_speed speed_percent f, false)
  end.

End FanSpeed.

(** A percentage too large for a float. *)
Definition huge_percent : Z := 10 ^ 400.

(** A machine as [steady], but whose [psutil.cpu_percent] raises until the
    48th question and answers 42% from then on. *)
Definition flaky64 : Oracle float :=
  {| o_time := o_time steady64; o_random := o_random steady64;
     o_psutil := true;
     o_cpu_percent := fun c => if (c <? 48)%nat then None else Some (flit 42);
     o_virtual_memory := o_virtual_memory steady64;
     o_cpu_freq := o_cpu_freq steady64; o_cpu_count := o_cpu_count steady64;
     o_disk_io_counters := o_disk_io_counters steady64;
     o_disk_partitions := o_disk_partitions steady64;
     o_processor := o_processor steady64; o_gpu_name := o_gpu_name steady64;
     o_detect := o_detect steady64 |}.


Section Warm.
Context {F : Type} {PF : PyFloat F}.
Local Open Scope py_scope.

(** A machine as [steady] whose thermal zones report one sensor, at 45.5
    degrees. *)
Definition warm : Oracle F :=
  {| o_time := o_time steady; o_random := o_random steady;
     o_psutil := true;
     o_cpu_percent := o_cpu_percent steady;
     o_virtual_memory := o_virtual_memory steady;
     o_cpu_freq := o_cpu_freq steady; o_cpu_count := o_cpu_count steady;
     o_disk_io_counters := o_disk_io_counters steady;
     o_disk_partitions := o_disk_partitions steady;
     o_processor := o_processor steady; o_gpu_name := o_gpu_name steady;
     o_detect := fun method _ =>
       match method with
       | _detect_thermal_sensors =>
           Some [("thermal_2_CurrentTemperature",
                  thermal_zone "CurrentTemperature" '45.5)]
       | _ => None
       end |}.

End Warm.

(** The [warm] machine and its engine, in exact arithmetic. *)
Definition warmQ : Oracle Q := warm.

Definition warm_engineQ : St Q := started warmQ.


(** ** Reading the output of a thermal query *)

(** [c.isspace()], [c] an ASCII character. *)
Definition is_space (c : ascii) : bool :=
  let n := nat_of_ascii c in
  ((9 <=? n)%nat && (n <=? 13)%nat) || ((28 <=? n)%nat && (n <=? 32)%nat).

(** [s.lstrip()], [s.rstrip()] and [s.strip()]. *)
Fixpoint lstrip (s : string) : string :=
  match s with
  | EmptyString => EmptyString
  | String c s' => if is_space c then lstrip s' else s
  end.

Fixpoint rstrip (s : string) : string :=
  match s with
  | EmptyString => EmptyString
  | String c s' =>
      match rstrip s' with
      | EmptyString => if is_space c then EmptyString else String c EmptyString
      | t => String c t
      end
  end.

Definition strip (s : string) : string := rstrip (lstrip s).

(** [s.split(sep)], for a separator of one character. *)
Fixpoint split (sep : ascii) (s : string) : list string :=
  match s with
  | EmptyString => [EmptyString]
  | String c s' =>
      if Ascii.eqb c sep then EmptyString :: split sep s'
      else match split sep s' with
           | h :: t => String c h :: t
           | [] => [String c EmptyString]
           end
  end.

(** [s.split(sep, 1)]: what is before the first [sep] and what is after
    it; [None] when [sep] is not in [s], where Python gives the list of
    [s] alone. *)
Fixpoint split1 (sep : ascii) (s : string) : option (string * string) :=
  match s with
  | EmptyString => None
  | String c s' =>
      if Ascii.eqb c sep then Some (EmptyString, s')
      else option_map (fun p => (String c (fst p), snd p)) (split1 sep s')
  end.

(** [s.replace(a, b)], for strings of one character. *)
Fixpoint replace (a b : ascii) (s : string) : string :=
  match s with
  | EmptyString => EmptyString
  | String c s' => String (if Ascii.eqb c a then b else c) (replace a b s')
  end.

(** The class [[0-9]] of a regular expression. *)
Definition is_digit (c : ascii) : bool :=
  let n := nat_of_ascii c in (48 <=? n)%nat && (n <=? 57)%nat.

(** The longest prefix of digits, and what follows it. *)
Fixpoint digits_of (s : string) : string * string :=
  match s with
  | EmptyString => (EmptyString, EmptyString)
  | String c s' =>
      if is_digit c then
        let (d, r) := digits_of s' in (String c d, r)
      else (EmptyString, s)
  end.

(** [re.search(r'([0-9]+(?:\.[0-9]+)?)', s)]: the first digit of [s]
    starts the match, which takes every digit that follows and then, when a
    point and a digit follow, the point and every digit after it.  The
    result is the digits before the point and the digits after it (none
    when the match has no point). *)
Fixpoint search_number (s : string) : option (string * string) :=
  match s with
  | EmptyString => None
  | String c s' =>
      if is_digit c then
        let (ip, r) := digits_of s in
        Some (ip, match r with
                  | String "."%char r' => fst (digits_of r')
                  | _ => EmptyString
                  end)
      else search_number s'
  end.

(** The number a string of digits writes. *)
Fixpoint digits_value (acc : Z) (s : string) : Z :=
  match s with
  | EmptyString => acc
  | String c s' =>
      digits_value (10 * acc + Z.of_nat (nat_of_ascii c - 48))%Z s'
  end.

(** [float(s)] for [s] a decimal number without sign or exponent: the
    number is [n / 10 ^ k]. *)
Class PyDecimal (F : Type) : Type := {
  fof_decimal : Z -> nat -> F
}.

(** The double nearest to [n / 10 ^ k], ties to even, as [float] reads a
    string of any length; an infinity when it is too large. *)
Definition float_of_decimal (n : Z) (k : nat) : float :=
  if (n =? 0)%Z then 0%float
  else
    let '(q, e, l) := SFdiv_core_binary prec emax n 0 (10 ^ Z.of_nat k) 0 in
    SF2Prim (binary_round_aux prec emax false q e l).

#[export] Instance binary64_decimal : PyDecimal float := {|
  fof_decimal := float_of_decimal
|}.

#[export] Instance exact_decimal : PyDecimal Q := {|
  fof_decimal := fun n k => Qred (n # Z.to_pos (10 ^ Z.of_nat k))
|}.

(** [any(keyword in s for keyword in keywords)]. *)
Definition any_in (keywords : list string) (s : string) : bool :=
  existsb (fun keyword => contains keyword s) keywords.

Definition _classify_sensor_type (sensor_name label : string) : string :=
  let name_lower := lower (sensor_name ++ " " ++ label) in
  if any_in ["cpu"; "processor"; "core"; "package"] name_lower then "CPU"
  else if any_in ["gpu"; "graphics"; "video"; "radeon"; "nvidia"; "geforce"]
                 name_lower then "GPU"
  else if any_in ["memory"; "ram"; "dimm"] name_lower then "Memory"
  else if any_in ["storage"; "disk"; "ssd"; "hdd"; "nvme"] name_lower
  then "Storage"
  else if any_in ["system"; "motherboard"; "board"; "ambient"] name_lower
  then "System"
  else "Other".

Section Thermal.
Context {F : Type} {PF : PyFloat F} {PD : PyDecimal F}.
Local Open Scope py_scope.

(** [float(temp_match.group(1))], from the digits of the match. *)
Definition float_of_match (ip fp : string) : F :=
  fof_decimal (digits_value 0 (ip ++ fp)) (String.length fp).

(** A reading above 1000 is taken for tenths of a kelvin, one above 200 for
    kelvins. *)
Definition to_celsius (temp_value : F) : F :=
  if '1000 <? temp_value then temp_value / '10 - '273.15
  else if '200 <? temp_value then temp_value - '273.15
  else temp_value.

(** The body of the loop of [_parse_thermal_output], for one line.  Nothing
    in it raises: the match of the regular expression is a string that
    [float] reads. *)
Definition parse_thermal_line (method_id line : string)
    (sensors : dict (Sensor F)) : dict (Sensor F) :=
  if contains ":" line then
    match split1 ":" line with
    | Some (part0, part1) =>
        let name := strip part0 in
        let value_str := strip part1 in
        match search_number value_str with
        | Some (ip, fp) =>
            let temp_value := to_celsius (float_of_match ip fp) in
            if ('0 <? temp_value) && (temp_value <? '150) then
              dict_set (replace " " "_" (method_id ++ "_" ++ name))
                {| s_name := "Thermal Sensor " ++ name;
                   s_type := _classify_sensor_type name "";
                   s_current := temp_value;
                   s_method := "Windows Thermal Sensor";
                   s_unit := "°C"; s_other := [] |}
                sensors
            else sensors
        | None => sensors
        end
    | None => sensors
    end
  else sensors.

Definition _parse_thermal_output (output method_id : string)
    : dict (Sensor F) :=
  fold_left (fun sensors line => parse_thermal_line method_id line sensors)
            (split "010" (strip output)) [].

End Thermal.

(** What [subprocess.run] returns, as far as the engine reads it. *)
Record CompletedProcess : Type := {
  returncode : Z;
  stdout : string
}.

Module Thermal.
Section Detect.
Context {F : Type} {PF : PyFloat F} {PD : PyDecimal F}.

(** The detection of thermal zones.  [system] is [platform.system()];
    [run i] is what [subprocess.run] gives for the command [i] of the three,
    [None] when it raises (no PowerShell, or the limit of 8 seconds). *)
Definition _detect_thermal_sensors (system : string)
    (run : nat -> option CompletedProcess) : dict (Sensor F) :=
  if negb (system =? "Windows") then []
  else
    fold_left
      (fun sensors i =>
         match run i with
         | Some result =>
             if (returncode result =? 0)%Z
                && negb (strip (stdout result) =? "")
             then dict_update sensors
                    (_parse_thermal_output (stdout result)
                                           ("thermal_" ++ str i))
             else sensors
         | None => sensors
         end)
      [0; 1; 2]%nat [].

End Detect.
End Thermal.

(** Three thermal commands: the first runs out of time, the second fails,
    and the third prints one zone, in tenths of a kelvin. *)
Definition zone_commands (i : nat) : option CompletedProcess :=
  match i with
  | 0%nat => None
  | 1%nat => Some {| returncode := 1; stdout := "" |}
  | _ => Some {| returncode := 0; stdout := "CurrentTemperature : 3186" |}
  end.

(** ** The detection with psutil *)

Module Psutil.
Section Detect.
Context {F : Type} {PF : PyFloat F}.
Local Open Scope py_scope.
Local Open Scope monad_scope.

Notation "x <- m ;; k" := (bind m (fun x => k))
  (at level 61, m at next level, right associativity) : monad_scope.
Notation "m ;; k" := (bind m (fun _ => k))
  (at level 61, right associativity) : monad_scope.

(** An entry of [psutil.sensors_temperatures()], as far as the detection
    reads it; [high] may be [None]. *)
Record shwtemp : Type := {
  label : string;
  current : F;
  high : option F
}.

(** What the detection asks of [psutil] beyond the queries of the engine:
    whether [psutil] has [sensors_temperatures] (it has not on Windows), the
    items of the dictionary this returns, and the load of every CPU. *)
Record Probes : Type := {
  has_sensors_temperatures : bool;
  sensors_temperatures : nat -> option (list (string * list shwtemp));
  cpu_percent_percpu : nat -> option (list F)
}.

Variable p : Probes.

(** [enumerate(xs)]. *)
Definition enumerate {A} (xs : list A) : list (nat * A) :=
  combine (seq 0 (List.length xs)) xs.

(** The record of an entry of [sensors_temperatures]; [x or y] is [y] when
    [x] is an empty string, [None] or a zero. *)
Definition temperature_record (name : string) (i : nat) (entry : shwtemp)
    : Sensor F :=
  {| s_name := name ++ " "
               ++ (if label entry =? "" then "Sensor " ++ str (i + 1)
                   else label entry);
     s_type := _classify_sensor_type name (label entry);
     s_current := current entry;
     s_method := "psutil.sensors_temperatures";
     s_unit := "°C";
     s_other := [("max", match high entry with
                         | Some h => if fzero h then '80 else h
                         | None => '80
                         end)] |}.

(** The record of a sensor that the detection estimates. *)
Definition estimated (name type : string) (current max : F)
    (method : string) : Sensor F :=
  {| s_name := name; s_type := type; s_current := current;
     s_method := method; s_unit := "°C"; s_other := [("max", max)] |}.

(** The block of [sensors_temperatures]. *)
Definition detect_temperatures (sensors : loc) : M F unit :=
  if has_sensors_temperatures p then
    t <- ask (fun _ => sensors_temperatures p) ;;
    temps <- lift t ;;
    match temps with
    | [] => ret tt
    | _ =>
        forM_ temps (fun item =>
          let name := fst item in
          forM_ (enumerate (snd item)) (fun ie =>
            let i := fst ie in
            let entry := snd ie in
            if '0 <? current entry then
              put sensors ("psutil_" ++ name ++ "_" ++ str i)
                  (temperature_record name i entry)
            else ret tt))
    end
  else ret tt.

(** The block of the CPU package; it gives [cpu_temp], which is not bound
    when [cpu_freq()] is [None]. *)
Definition detect_package (sensors : loc) (cpu_percent : F)
    (cpu_freq : option F) : M F (option F) :=
  match cpu_freq with
  | Some freq =>
      let base_temp := '35 in
      let freq_factor := (freq / '3000) * '12 in
      let load_factor := (cpu_percent / '100) * '25 in
      let cpu_temp := base_temp + freq_factor + load_factor in
      let cpu_temp := clamp '30 '85 cpu_temp in
      put sensors "cpu_package_real"
          (estimated "CPU Package (Real)" "CPU" cpu_temp '85
                     "psutil (Load+Freq-based)") ;;
      ret (Some cpu_temp)
  | None => ret None
  end.

(** The loop of the cores: [range(None)] raises. *)
Definition detect_cores (sensors : loc) (cpu_percent : F)
    (cpu_temp : option F) (cpu_count : option Z) : M F unit :=
  cores <- lift cpu_count ;;
  forM_ (range 0 cores) (fun i =>
    loads <- os_call CpuPercent (fun _ => cpu_percent_percpu p) ;;
    core_load <-
      (if (i <? Z.of_nat (List.length loads))%Z then
         loads' <- os_call CpuPercent (fun _ => cpu_percent_percpu p) ;;
         lift (nth_error loads' (Z.to_nat i))
       else ret cpu_percent) ;;
    m <- load_map sensors ;;
    core_temp <-
      match dict_get "cpu_package_real" m with
      | Some _ =>
          t <- lift cpu_temp ;;
          u <- uniform '(-2) '4 ;;
          ret (t + u)
      | None => ret ('40 + (core_load / '100) * '20)
      end ;;
    let core_temp := clamp '28 '90 core_temp in
    put sensors ("cpu_core_" ++ str_int i ++ "_real")
        (estimated ("CPU Core " ++ str_int (i + 1) ++ " (Real)") "CPU"
                   core_temp '90 "psutil (Core-specific)")).

(** The block of the memory. *)
Definition detect_memory (sensors : loc) : M F unit :=
  memory <- os_call VirtualMemory o_virtual_memory ;;
  let ram_usage_percent := vm_percent memory in
  let ram_temp := '25 + (ram_usage_percent / '100) * '15 in
  let ram_temp := clamp '20 '60 ram_temp in
  put sensors "ram_real"
      (estimated "RAM (Real)" "Memory" ram_temp '60 "psutil (Usage-based)").

(** The block of the disk, its own [try]. *)
Definition detect_disk (sensors : loc) : M F unit :=
  try_
    (disk_io <- os_call DiskIoCounters o_disk_io_counters ;;
     match disk_io with
     | Some io =>
         io_gb <- truediv_int (read_bytes io + write_bytes io) (1024 ^ 3) ;;
         let base_disk_temp := '30 in
         let io_factor := py_min (io_gb / '100) '20 in
         let disk_temp := base_disk_temp + io_factor in
         let disk_temp := clamp '25 '55 disk_temp in
         put sensors "disk_real"
             (estimated "Primary Disk (Real)" "Storage" disk_temp '55
                        "psutil (IO-based)")
     | None => ret tt
     end)
    (ret tt).

(** The body of the [try] of [_detect_psutil_sensors]. *)
Definition detect_sensors (sensors : loc) : M F unit :=
  import_psutil ;;
  detect_temperatures sensors ;;
  cpu_percent <- os_call CpuPercent o_cpu_percent ;;
  cpu_freq <- os_call CpuFreq o_cpu_freq ;;
  cpu_count <- os_call CpuCount o_cpu_count ;;
  cpu_temp <- detect_package sensors cpu_percent cpu_freq ;;
  detect_cores sensors cpu_percent cpu_temp cpu_count ;;
  detect_memory sensors ;;
  detect_disk sensors.

Definition _detect_psutil_sensors : M F loc :=
  sensors <- alloc (OMap []) ;;
  try_ (detect_sensors sensors) (ret tt) ;;
  ret sensors.

End Detect.

Arguments shwtemp : clear implicits.
Arguments Probes : clear implicits.

End Psutil.

Section PsutilRecords.
Context {F : Type} {PF : PyFloat F}.
Local Open Scope py_scope.

(** The range of an estimate, by its method. *)
Definition estimate_range (method : string) : option (F * F) :=
  if method =? "psutil (Load+Freq-based)" then Some ('30, '85)
  else if method =? "psutil (Core-specific)" then Some ('28, '90)
  else if method =? "psutil (Usage-based)" then Some ('20, '60)
  else if method =? "psutil (IO-based)" then Some ('25, '55)
  else None.

(** A record of [_detect_psutil_sensors]: an estimate, within the range of
    its method and with the upper bound as its ['max']; or a temperature
    that [psutil] read, above 0 and with a ['max'] that is not 0. *)
Definition psutil_record (r : Sensor F) : Prop :=
  contains "Simulated" (s_method r) = false
  /\ s_unit r = "°C"
  /\ match estimate_range (s_method r) with
     | Some (lo, hi) =>
         in_range lo hi (s_current r) = true /\ s_other r = [("max", hi)]
     | None =>
         s_method r = "psutil.sensors_temperatures"
         /\ ('0 <? s_current r) = true
         /\ exists mx, s_other r = [("max", mx)] /\ fzero mx = false
     end.

(** The keys of the records built before the loop of the cores. *)
Definition early_key (k : string) : bool :=
  (k =? "cpu_package_real") || prefix "psutil_" k.

End PsutilRecords.

(** A Linux machine as [steady], with two thermal zones and a load for each
    of its two cores; and the same machine when the number of its cores is
    not known. *)
Definition linux_probes : Psutil.Probes float :=
  {| Psutil.has_sensors_temperatures := true;
     Psutil.sensors_temperatures := fun _ =>
       Some [("coretemp",
              [{| Psutil.label := "Package id 0"; Psutil.current := flit 48;
                  Psutil.high := Some (flit 100) |};
               {| Psutil.label := ""; Psutil.current := flit 0;
                  Psutil.high := None |};
               {| Psutil.label := ""; Psutil.current := flit 41;
                  Psutil.high := Some (flit 0) |}]);
             ("nvme",
              [{| Psutil.label := "Composite"; Psutil.current := flit 36.85;
                  Psutil.high := None |}])];
     Psutil.cpu_percent_percpu := fun _ => Some [flit 30; flit 44] |}.

Definition coreless64 : Oracle float :=
  {| o_time := o_time steady64; o_random := o_random steady64;
     o_psutil := true;
     o_cpu_percent := o_cpu_percent steady64;
     o_virtual_memory := o_virtual_memory steady64;
     o_cpu_freq := o_cpu_freq steady64;
     o_cpu_count := fun _ => Some None;
     o_disk_io_counters := o_disk_io_counters steady64;
     o_disk_partitions := o_disk_partitions steady64;
     o_processor := o_processor steady64; o_gpu_name := o_gpu_name steady64;
     o_detect := o_detect steady64 |}.

Section Records.
Context {F : Type} {PF : PyFloat F}.

(** From the location [b] on, every dictionary maps a key [k] to a record
    [r] from [b] on with [C k r]; and [d] holds a dictionary. *)
Definition records_inv (C : string -> Sensor F -> Prop) (b : nat) (d : loc)
    (s : St F) : Prop :=
  (b <= List.length (heap s))%nat
  /\ (forall d' m k l,
        (b <= d')%nat -> map_at s d' = Some m -> In (k, l) m ->
        (b <= l)%nat /\ exists r, sensor_at s l = Some r /\ C k r)
  /\ exists m, map_at s d = Some m.

End Records.

(** ** The monitor page *)

Section Session.
Context {F : Type} {PF : PyFloat F}.

(** The [try] of [_schedule_hardware_update], on the monitor page, as far
    as the engine goes: the sensors, the labels, then the fans.  The labels
    and the bars only read what the engine returned; [labels] tells whether
    [_update_sensor_labels] returned: when it raises, the handler skips the
    fans.  The handler schedules the next run as the [try] does. *)
Definition _schedule_hardware_update (labels : bool) : M F unit :=
  try_ (bind get_updated_sensors (fun sensors =>
        bind (if labels then ret tt else raise) (fun _ =>
        bind get_fan_status (fun fan_status => ret tt))))
       (ret tt).

(** The runs that follow each other, every run scheduling the next. *)
Fixpoint hardware_updates (gui : list bool) : M F unit :=
  match gui with
  | [] => ret tt
  | labels :: rest =>
      bind (_schedule_hardware_update labels) (fun _ => hardware_updates rest)
  end.

(** [start_hardware_updates] on an application that has no monitor yet: the
    constructor, a detection more, and the runs. *)
Definition start_hardware_updates (gui : list bool) : M F unit :=
  bind __init__ (fun _ =>
  bind detect_all_sensors (fun detected_sensors =>
  hardware_updates gui)).

(** The fans are the five of the model, each with the maximum of the model
    and consistent. *)
Definition model_fans (s : St F) : Prop :=
  exists m,
    map_at s (fan_status s) = Some m
    /\ keys m = keys default_fans
    /\ forall k l, In (k, l) m ->
         exists f0 f, In (k, f0) default_fans /\ fan_at s l = Some f
                      /\ max_rpm f = max_rpm f0
                      /\ fan_consistent f = true.

End Session.

(** ** A turn of the refresh of the fans *)

Section FanTurn.
Context {F : Type} {PF : PyFloat F}.
Local Open Scope py_scope.
Local Open Scope monad_scope.

Notation "x <- m ;; k" := (bind m (fun x => k))
  (at level 61, m at next level, right associativity) : monad_scope.

(** What a turn of [update_fan] computes before it stores: the RPM and the
    speed, from the maximum of the fan and the draws. *)
Definition fan_turn (fan_id : string) (mx : Z) : M F (Z * Z) :=
  m <- float_ mx ;;
  let base_rpm := m * '0.4 in
  if fan_id =? "cpu_fan" then
    load_variation <- uniform '0.3 '0.8 ;;
    rpm_variation <- uniform '(-100) '200 ;;
    current_rpm <- int_ (base_rpm * load_variation + rpm_variation) ;;
    q <- truediv_int current_rpm mx ;;
    current_speed <- int_ (q * '100) ;;
    ret (current_rpm, current_speed)
  else if fan_id =? "gpu_fan" then
    gpu_load <- uniform '0.2 '0.9 ;;
    v <- uniform '(-50) '150 ;;
    current_rpm <- int_ (base_rpm * gpu_load + v) ;;
    q <- truediv_int current_rpm mx ;;
    current_speed <- int_ (q * '100) ;;
    ret (current_rpm, current_speed)
  else
    case_variation <- uniform '0.8 '1.2 ;;
    v <- uniform '(-30) '50 ;;
    current_rpm <- int_ (base_rpm * case_variation + v) ;;
    q <- truediv_int current_rpm mx ;;
    current_speed <- int_ (q * '100) ;;
    ret (current_rpm, current_speed).

(** The fan that the turn stores. *)
Definition refreshed_fan (mx : Z) (rs : Z * Z) : Fan :=
  {| current_rpm := Z.max 200 (Z.min mx (fst rs));
     current_speed := Z.max 10 (Z.min 100 (snd rs));
     max_rpm := mx;
     status := status_of_speed (Z.max 10 (Z.min 100 (snd rs))) |}.

End FanTurn.

(** ** The detection with cpuinfo *)

(** [s.upper()] on ASCII letters. *)
Definition upper_ascii (c : ascii) : ascii :=
  let n := nat_of_ascii c in
  if (97 <=? n)%nat && (n <=? 122)%nat then ascii_of_nat (n - 32) else c.

Fixpoint upper (s : string) : string :=
  match s with
  | EmptyString => EmptyString
  | String c s' => String (upper_ascii c) (upper s')
  end.

Module CpuInfo.
Section Detect.
Context {F : Type} {PF : PyFloat F}.
Local Open Scope py_scope.
Local Open Scope monad_scope.

Notation "x <- m ;; k" := (bind m (fun x => k))
  (at level 61, m at next level, right associativity) : monad_scope.
Notation "m ;; k" := (bind m (fun _ => k))
  (at level 61, right associativity) : monad_scope.

(** The base temperature, by the maker of the CPU. *)
Definition base_temp_of (cpu_brand : string) : F :=
  if contains "AMD" (upper cpu_brand) then
    if contains "Ryzen" cpu_brand then '42 else '40
  else if contains "Intel" (upper cpu_brand) then '38
  else '40.

(** [has_cpuinfo] tells whether [import cpuinfo] succeeds; [cpu_info] is
    what [cpuinfo.get_cpu_info()] gives: [None] when it raises, otherwise
    the value of ['brand_raw'], when the key is there. *)
Variable has_cpuinfo : bool.
Variable cpu_info : option (option string).

(** The body of the inner [try] of [_detect_cpu_specific]. *)
Definition detect_cpu (sensors : loc) : M F unit :=
  (if has_cpuinfo then ret tt else raise) ;;
  import_psutil ;;
  info <- lift cpu_info ;;
  match info with
  | Some cpu_brand =>
      let base_temp := base_temp_of cpu_brand in
      cpu_percent <- os_call CpuPercent o_cpu_percent ;;
      let estimated_temp := base_temp + (cpu_percent / '100) * '25 in
      put sensors "cpuinfo_temp"
          {| s_name := cpu_brand ++ " Temperature";
             s_type := "CPU";
             s_current := py_min estimated_temp '80;
             s_method := "CPU Info + Load Estimation";
             s_unit := "°C";
             s_other := [] |}
  | None => ret tt
  end.

Definition _detect_cpu_specific : M F loc :=
  sensors <- alloc (OMap []) ;;
  try_ (try_ (detect_cpu sensors) (ret tt)) (ret tt) ;;
  ret sensors.

End Detect.
End CpuInfo.

Section CpuInfoRecords.
Context {F : Type} {PF : PyFloat F}.
Local Open Scope py_scope.

(** The record of [_detect_cpu_specific] for the CPU [cpu_brand]: 40
    degrees, or 42 for a Ryzen of AMD, and a quarter of a degree for each
    percent of load, up to 80. *)
Definition cpuinfo_record (cpu_brand : string) (r : Sensor F) : Prop :=
  s_name r = cpu_brand ++ " Temperature" /\ s_type r = "CPU"
  /\ s_method r = "CPU Info + Load Estimation"
  /\ s_unit r = "°C" /\ s_other r = []
  /\ exists cpu_percent,
       s_current r
       = py_min ((if contains "AMD" (upper cpu_brand)
                     && contains "Ryzen" cpu_brand
                  then '42 else '40)
                 + (cpu_percent / '100) * '25) '80.

End CpuInfoRecords.

(** * Properties *)

Unset Implicit Arguments.

(** ** Floats: the clamp *)

Module Binary64Facts.

Lemma ltb_leb (x y : float) : PrimFloat.ltb x y = true -> PrimFloat.leb x y = true.
Proof.
  rewrite ltb_spec, leb_spec. unfold SFltb, SFleb.
  destruct (SFcompare (Prim2SF x) (Prim2SF y)) as [[]|]; congruence.
Qed.

Lemma SFcompare_refl (x : spec_float) :
  x <> S754_nan -> SFcompare x x = Some Eq.
Proof.
  destruct x as [s|s| |s m e]; simpl; try congruence; intros _.
  - destruct s; reflexivity.
  - destruct s; rewrite Z.compare_refl;
      change (Pos.compare_cont Eq m m) with (Pos.compare m m);
      rewrite Pos.compare_refl; reflexivity.
Qed.

Lemma leb_refl (x : float) : Binary64.finite x = true -> PrimFloat.leb x x = true.
Proof.
  unfold Binary64.finite. rewrite leb_spec. unfold SFleb. intros H.
  rewrite SFcompare_refl; [reflexivity|].
  destruct (Prim2SF x); congruence.
Qed.

Lemma finite_between (lo hi x : float) :
  Binary64.finite lo = true -> Binary64.finite hi = true ->
  PrimFloat.ltb lo x = true -> PrimFloat.ltb x hi = true ->
  Binary64.finite x = true.
Proof.
  unfold Binary64.finite. rewrite !ltb_spec. unfold SFltb.
  destruct (Prim2SF lo) as [?|?| |? ? ?], (Prim2SF hi) as [?|?| |? ? ?],
    (Prim2SF x) as [?|[]| |? ? ?]; simpl; congruence.
Qed.

(** Whatever float the formula produced, nan and the infinities included,
    the clamp is a finite float of the range. *)
Lemma clamp_in_range (lo hi x : float) :
  fle lo hi = true -> ffinite lo = true -> ffinite hi = true ->
  in_range lo hi (clamp lo hi x) = true.
Proof.
  simpl. intros Hle Hlo Hhi.
  unfold in_range, clamp, py_max, py_min. simpl.
  destruct (PrimFloat.ltb x hi) eqn:Hx.
  - destruct (PrimFloat.ltb lo x) eqn:Hl.
    + rewrite (ltb_leb _ _ Hl), (ltb_leb _ _ Hx).
      rewrite (finite_between lo hi x); auto.
    + rewrite (leb_refl _ Hlo), Hle, Hlo. reflexivity.
  - destruct (PrimFloat.ltb lo hi) eqn:Hl.
    + rewrite Hle, (leb_refl _ Hhi), Hhi. reflexivity.
    + rewrite (leb_refl _ Hlo), Hle, Hlo. reflexivity.
Qed.

End Binary64Facts.

Module ExactFacts.

Local Open Scope Q_scope.




End ExactFacts.

(** ** Weakest preconditions

    [wp o m Q E s]: run from [s] with the oracle [o], [m] ends in a state
    and with a result that satisfy [Q], or raises in a state that
    satisfies [E]. *)

Section WP.
Context {F : Type} {PF : PyFloat F}.
Variable o : Oracle F.

Definition wp {A} (m : M F A) (Q : A -> St F -> Prop) (E : St F -> Prop)
    (s : St F) : Prop :=
  match m o s with
  | (Ok a, s') => Q a s'
  | (Raise, s') => E s'
  end.

Lemma wp_ret {A} (a : A) Q E s : Q a s -> wp (ret a) Q E s.
Proof. exact (fun H => H). Qed.

Lemma wp_raise {A} (Q : A -> St F -> Prop) E s : E s -> wp raise Q E s.
Proof. exact (fun H => H). Qed.

Lemma wp_bind {A B} (m : M F A) (f : A -> M F B) Q E s :
  wp m (fun a s' => wp (f a) Q E s') E s -> wp (bind m f) Q E s.
Proof.
  unfold wp, bind. destruct (m o s) as [[a|] s']; exact (fun H => H).
Qed.

Lemma wp_try {A} (m h : M F A) Q E s :
  wp m Q (fun s' => wp h Q E s') s -> wp (try_ m h) Q E s.
Proof.
  unfold wp, try_. destruct (m o s) as [[a|] s']; exact (fun H => H).
Qed.

Lemma wp_gets {A} (f : St F -> A) Q E s : Q (f s) s -> wp (gets f) Q E s.
Proof. exact (fun H => H). Qed.

Lemma wp_modify (f : St F -> St F) Q E s : Q tt (f s) -> wp (modify f) Q E s.
Proof. exact (fun H => H). Qed.

Lemma wp_ask {A} (f : Oracle F -> nat -> A) Q E s :
  Q (f o (cursor s)) (with_cursor (S (cursor s)) s) -> wp (ask f) Q E s.
Proof. exact (fun H => H). Qed.

Lemma wp_lift {A} (x : option A) Q E s :
  match x with Some a => Q a s | None => E s end -> wp (lift x) Q E s.
Proof. destruct x; exact (fun H => H). Qed.

Lemma wp_import_psutil Q E s :
  (if o_psutil o then Q tt s else E s) -> wp import_psutil Q E s.
Proof.
  unfold wp, import_psutil. destruct (o_psutil o); exact (fun H => H).
Qed.

Lemma wp_alloc (x : Obj F) Q E s :
  Q (List.length (heap s)) (with_heap (heap s ++ [x]) s) -> wp (alloc x) Q E s.
Proof. exact (fun H => H). Qed.

Lemma wp_load (l : loc) Q E s :
  match nth_error (heap s) l with Some x => Q x s | None => E s end ->
  wp (load l) Q E s.
Proof.
  unfold wp, load. destruct (nth_error (heap s) l); exact (fun H => H).
Qed.

(** Consequence, and the use of a result that is proved already. *)
Lemma wp_mono {A} (m : M F A) (Q Q' : A -> St F -> Prop) (E E' : St F -> Prop) s :
  wp m Q E s ->
  (forall a s', Q a s' -> Q' a s') -> (forall s', E s' -> E' s') ->
  wp m Q' E' s.
Proof.
  unfold wp. destruct (m o s) as [[a|] s']; auto.
Qed.

(** A loop keeps what each of its turns keeps. *)
Lemma wp_forM_ {A} (xs : list A) (body : A -> M F unit) (I E : St F -> Prop) :
  (forall x s, In x xs -> I s -> wp (body x) (fun _ => I) E s) ->
  forall s, I s -> wp (forM_ xs body) (fun _ => I) E s.
Proof.
  induction xs as [|x xs IH]; intros Hbody s Hs.
  - exact Hs.
  - simpl. apply wp_bind.
    eapply wp_mono; [apply Hbody; [left; reflexivity|exact Hs]| |auto].
    intros a s' Hs'. apply IH; [|exact Hs'].
    intros y s0 Hy. apply Hbody. right. exact Hy.
Qed.

(** What [wp] says of a run. *)
Lemma wp_run {A} (m : M F A) Q E s :
  wp m Q E s ->
  (exists a s', m o s = (Ok a, s') /\ Q a s') \/
  (exists s', m o s = (Raise, s') /\ E s').
Proof.
  unfold wp. destruct (m o s) as [[a|] s']; eauto.
Qed.

Lemma wp_ok {A} (m : M F A) Q s :
  wp m Q (fun _ => False) s -> exists a s', m o s = (Ok a, s') /\ Q a s'.
Proof.
  intros H. destruct (wp_run _ _ _ _ H) as [?|(s' & _ & [])]. assumption.
Qed.

Lemma wp_of_run {A} (m : M F A) (Q : A -> St F -> Prop) E s a s' :
  m o s = (Ok a, s') -> Q a s' -> wp m Q E s.
Proof. unfold wp. intros ->. exact (fun H => H). Qed.

End WP.

(** The fields of a state after a change of one of them. *)
Ltac st_simpl :=
  cbn [heap sensors fan_status last_cpu_check last_memory_check
       cached_cpu_percent cached_memory_percent cache_duration cursor os_calls
       with_heap with_sensors with_fan_status with_last_cpu_check
       with_last_memory_check with_cached_cpu_percent
       with_cached_memory_percent with_cursor with_os_calls] in *.

(** One step of a program. *)
Ltac wp_prim :=
  lazymatch goal with
  | |- wp _ (bind _ _) _ _ _ => apply wp_bind
  | |- wp _ (ret _) _ _ _ => apply wp_ret
  | |- wp _ raise _ _ _ => apply wp_raise
  | |- wp _ (try_ _ _) _ _ _ => apply wp_try
  | |- wp _ (gets _) _ _ _ => apply wp_gets
  | |- wp _ (modify _) _ _ _ => apply wp_modify
  | |- wp _ (ask _) _ _ _ => apply wp_ask
  | |- wp _ import_psutil _ _ _ => apply wp_import_psutil
  | |- wp _ (alloc _) _ _ _ => apply wp_alloc
  | |- wp _ (uniform _ _) _ _ _ => unfold uniform
  | |- wp _ (os_call _ _) _ _ _ => unfold os_call
  | |- wp _ (float_ _) _ _ _ => unfold float_
  | |- wp _ (int_ _) _ _ _ => unfold int_
  | |- wp _ (truediv_int _ _) _ _ _ => unfold truediv_int
  | |- wp _ (truediv _ _) _ _ _ => unfold truediv
  | |- wp _ (store _ _) _ _ _ => unfold store
  end; cbv beta; st_simpl.

(** The primitives of the monad, run. *)
Ltac run_prims :=
  cbv [bind ask gets try_ import_psutil os_call modify lift ret raise];
  st_simpl.

(** ** The metric cache *)

Section Cache.
Context {F : Type} {PF : PyFloat F}.
Variable o : Oracle F.

(** Within the time to live: the cached value, and the state is as it was
    but for the clock that was read: nothing is queried, nothing stored. *)
Lemma cached_cpu_fresh (s : St F) :
  cpu_expired o s = false ->
  _get_cached_cpu_percent o s
  = (Ok (cached_cpu_percent s), with_cursor (S (cursor s)) s).
Proof.
  unfold cpu_expired, _get_cached_cpu_percent. run_prims.
  intros ->. reflexivity.
Qed.

(** Past it, with a query that answers: the answer is stored with the time
    that was read, and returned. *)
Lemma cached_cpu_stale (s : St F) (v : F) :
  cpu_expired o s = true -> o_psutil o = true ->
  o_cpu_percent o (S (cursor s)) = Some v ->
  _get_cached_cpu_percent o s
  = (Ok v,
     with_last_cpu_check (o_time o (cursor s))
       (with_cached_cpu_percent v
          (with_cursor (S (S (cursor s)))
             (with_os_calls (CpuPercent :: os_calls s)
                (with_cursor (S (cursor s)) s))))).
Proof.
  unfold cpu_expired, _get_cached_cpu_percent. run_prims.
  intros -> -> HV. st_simpl. rewrite HV. reflexivity.
Qed.

(** Past it, with no answer: the last value, and nothing is stored. *)
Lemma cached_cpu_failed (s : St F) :
  cpu_expired o s = true ->
  o_psutil o = false \/ o_cpu_percent o (S (cursor s)) = None ->
  exists s', _get_cached_cpu_percent o s = (Ok (cached_cpu_percent s), s')
             /\ cached_cpu_percent s' = cached_cpu_percent s
             /\ last_cpu_check s' = last_cpu_check s.
Proof.
  unfold cpu_expired, _get_cached_cpu_percent. run_prims.
  intros -> [HP|HV].
  - rewrite HP. eexists. split; [reflexivity|]. split; reflexivity.
  - destruct (o_psutil o); st_simpl; [rewrite HV|];
      (eexists; split; [reflexivity|]; split; reflexivity).
Qed.

(** The accessor returns what the cache holds when it ends. *)
Lemma cached_cpu_returns (s : St F) :
  exists s', _get_cached_cpu_percent o s = (Ok (cached_cpu_percent s'), s').
Proof.
  exists (snd (_get_cached_cpu_percent o s)).
  destruct (cpu_expired o s) eqn:He.
  - destruct (o_psutil o) eqn:HP.
    + destruct (o_cpu_percent o (S (cursor s))) as [v|] eqn:HV.
      * rewrite (cached_cpu_stale s v He HP HV). reflexivity.
      * destruct (cached_cpu_failed s He (or_intror HV)) as (s' & -> & <- & _).
        reflexivity.
    + destruct (cached_cpu_failed s He (or_introl HP)) as (s' & -> & <- & _).
      reflexivity.
  - rewrite (cached_cpu_fresh s He). reflexivity.
Qed.

(** C8.  The cached CPU percentage.  While the age of the entry does not
    exceed the time to live (2 seconds), a call returns the cached value,
    queries nothing ([os_calls] is as it was) and stores nothing; a second
    call in that window returns the very value of the first.  Once the age
    exceeds it, a call whose query answers [v] records the query, stores [v]
    with the time it read, and returns [v]. *)
Theorem cached_cpu_percent_ttl (s : St F) :
  (cpu_expired o s = false ->
   exists s', _get_cached_cpu_percent o s = (Ok (cached_cpu_percent s), s')
     /\ os_calls s' = os_calls s
     /\ cached_cpu_percent s' = cached_cpu_percent s
     /\ last_cpu_check s' = last_cpu_check s)
  /\ (forall r1 s1 r2 s2,
        _get_cached_cpu_percent o s = (r1, s1) ->
        cpu_expired o s1 = false ->
        _get_cached_cpu_percent o s1 = (r2, s2) ->
        r2 = r1 /\ os_calls s2 = os_calls s1)
  /\ (forall v,
        cpu_expired o s = true -> o_psutil o = true ->
        o_cpu_percent o (S (cursor s)) = Some v ->
        exists s', _get_cached_cpu_percent o s = (Ok v, s')
          /\ os_calls s' = CpuPercent :: os_calls s
          /\ cached_cpu_percent s' = v
          /\ last_cpu_check s' = o_time o (cursor s)).
Proof.
  split; [|split].
  - intros He. eexists. rewrite (cached_cpu_fresh s He).
    repeat split; reflexivity.
  - intros r1 s1 r2 s2 H1 He H2.
    destruct (cached_cpu_returns s) as (s' & Hs').
    rewrite Hs' in H1. injection H1 as <- <-.
    rewrite (cached_cpu_fresh s' He) in H2. injection H2 as <- <-.
    split; reflexivity.
  - intros v He HP HV. eexists. rewrite (cached_cpu_stale s v He HP HV).
    repeat split; reflexivity.
Qed.

Lemma same_objects_refl (s : St F) : same_objects s s.
Proof. repeat split. Qed.

Lemma same_objects_trans (s1 s2 s3 : St F) :
  same_objects s1 s2 -> same_objects s2 s3 -> same_objects s1 s3.
Proof.
  unfold same_objects. intros (A1 & B1 & C1 & D1) (A2 & B2 & C2 & D2).
  repeat split; congruence.
Qed.

(** The accessors never raise, and change the cache only. *)
Lemma wp_cached_cpu Q E (s : St F) :
  (forall s', cpu_step o s s' -> Q (cached_cpu_percent s') s') ->
  wp o _get_cached_cpu_percent Q E s.
Proof.
  intros H. unfold wp.
  destruct (cpu_expired o s) eqn:He.
  - destruct (o_psutil o) eqn:HP.
    + destruct (o_cpu_percent o (S (cursor s))) as [v|] eqn:HV.
      * rewrite (cached_cpu_stale s v He HP HV). match goal with |- _ _ ?st => apply (H st) end.
        unfold cpu_step, same_objects. st_simpl.
        repeat split; try reflexivity. right. repeat split; assumption.
      * revert He. unfold cpu_expired, _get_cached_cpu_percent. run_prims.
        intros He. rewrite He, HP. st_simpl. rewrite HV.
        match goal with |- _ _ ?st => apply (H st) end.
      unfold cpu_step, same_objects, cpu_expired. st_simpl.
        repeat split; try reflexivity. left. repeat split; auto.
    + revert He. unfold cpu_expired, _get_cached_cpu_percent. run_prims.
      intros He. rewrite He, HP.
      match goal with |- _ _ ?st => apply (H st) end.
      unfold cpu_step, same_objects, cpu_expired. st_simpl.
      repeat split; try reflexivity. left. repeat split; auto.
  - rewrite (cached_cpu_fresh s He). match goal with |- _ _ ?st => apply (H st) end.
    unfold cpu_step, same_objects. st_simpl.
    repeat split; try reflexivity. left. repeat split. congruence.
Qed.

Lemma wp_cached_memory Q E (s : St F) :
  (forall s', memory_step o s s' -> Q (cached_memory_percent s') s') ->
  wp o _get_cached_memory_percent Q E s.
Proof.
  intros H. unfold wp.
  pose proof (eq_refl (memory_expired o s)) as He. revert He.
  unfold memory_expired at 1, _get_cached_memory_percent. run_prims.
  destruct (flt (cache_duration s) (fsub (o_time o (cursor s)) (last_memory_check s)))
    eqn:Hc; intros He.
  - destruct (o_psutil o) eqn:HP; st_simpl.
    + destruct (o_virtual_memory o (S (cursor s))) as [vm|] eqn:HV.
      * match goal with |- _ _ ?st => apply (H st) end.
      unfold memory_step, same_objects. st_simpl.
        repeat split; try reflexivity. right.
        repeat split; [congruence|exists vm; split; [assumption|reflexivity]].
      * match goal with |- _ _ ?st => apply (H st) end.
      unfold memory_step, same_objects. st_simpl.
        repeat split; try reflexivity. left. repeat split; auto.
    + match goal with |- _ _ ?st => apply (H st) end.
      unfold memory_step, same_objects. st_simpl.
      repeat split; try reflexivity. left. repeat split; auto.
  - match goal with |- _ _ ?st => apply (H st) end.
      unfold memory_step, same_objects. st_simpl.
    repeat split; try reflexivity. left. repeat split. congruence.
Qed.

End Cache.

(** A program, step by step, through every branch. *)
Ltac wp_go :=
  repeat first
    [ wp_prim
    | lazymatch goal with
      | |- wp _ _get_cached_cpu_percent _ _ _ => apply wp_cached_cpu; intros
      | |- wp _ _get_cached_memory_percent _ _ _ =>
          apply wp_cached_memory; intros
      | |- wp _ (lift ?x) _ _ _ => apply wp_lift; destruct x eqn:?
      | |- wp _ (if ?c then _ else _) _ _ _ => destruct c eqn:?
      | |- wp _ (match ?x with _ => _ end) _ _ _ => destruct x eqn:?
      | |- wp _ (let _ := _ in _) _ _ _ => cbv zeta
      | |- if ?c then _ else _ => destruct c eqn:?
      end ].

(** The objects are the same along the steps of the cache and the changes
    of cursor and log. *)
Ltac same_objects_tac :=
  repeat match goal with
         | H : cpu_step _ _ _ |- _ => destruct H as (H & _)
         | H : memory_step _ _ _ |- _ => destruct H as (H & _)
         end;
  unfold same_objects in *; st_simpl; intuition congruence.

(** ** The refresh of one sensor *)

Section UpdateSensor.
Context {F : Type} {PF : PyFloat F}.
Variable o : Oracle F.

(** [_update_simulated_sensor] never raises and never returns [None]; it
    changes no object. *)
Lemma update_simulated_sensor_total (k : string) (r : Sensor F) (s : St F) :
  wp o (_update_simulated_sensor k r)
     (fun a s' => (exists t, a = Some t) /\ same_objects s s')
     (fun _ => False) s.
Proof.
  unfold _update_simulated_sensor, update_body.
  wp_go; (split; [eexists; reflexivity|same_objects_tac]).
Qed.

End UpdateSensor.

(** ** Lists and dictionaries *)

Local Open Scope list_scope.

Section ListFacts.
Context {A : Type}.

Lemma list_set_app_r (xs ys : list A) (i : nat) (x : A) :
  list_set (List.length xs + i) x (xs ++ ys) = (xs ++ list_set i x ys)%list.
Proof.
  induction xs as [|y xs IH]; simpl.
  - destruct ys; reflexivity.
  - rewrite IH. reflexivity.
Qed.

Lemma list_set_last (xs : list A) (x y : A) :
  list_set (List.length xs) x (xs ++ [y]) = (xs ++ [x])%list.
Proof.
  rewrite <- (Nat.add_0_r (List.length xs)), list_set_app_r. reflexivity.
Qed.

Lemma nth_error_prefix (xs ys : list A) (i : nat) (x : A) :
  nth_error xs i = Some x -> nth_error (xs ++ ys) i = Some x.
Proof.
  intros H. rewrite nth_error_app1; [exact H|].
  apply nth_error_Some. congruence.
Qed.

End ListFacts.

Section DictFacts.
Context {V : Type}.

Lemma dict_set_In (k : string) (v : V) (d : dict V) (k' : string) (v' : V) :
  In (k', v') (dict_set k v d) -> (k' = k /\ v' = v) \/ In (k', v') d.
Proof.
  induction d as [|[k0 v0] d IH]; simpl.
  - intros [H|[]]. injection H as <- <-. left. split; reflexivity.
  - destruct (String.eqb k k0) eqn:E; simpl.
    + apply String.eqb_eq in E. subst k0.
      intros [H|H]; [injection H as <- <-; left; split; reflexivity|].
      right. right. exact H.
    + intros [H|H]; [right; left; exact H|].
      destruct (IH H) as [?|?]; [left; assumption|right; right; assumption].
Qed.

Lemma keys_dict_set (k : string) (v : V) (d : dict V) (k' : string) :
  In k' (keys (dict_set k v d)) <-> k' = k \/ In k' (keys d).
Proof.
  unfold keys. induction d as [|[k0 v0] d IH]; simpl.
  - intuition congruence.
  - destruct (String.eqb k k0) eqn:E; simpl.
    + apply String.eqb_eq in E. subst k0. intuition congruence.
    + rewrite IH. intuition congruence.
Qed.

Lemma dict_get_In (k : string) (d : dict V) (v : V) :
  dict_get k d = Some v -> In (k, v) d.
Proof.
  induction d as [|[k0 v0] d IH]; simpl; [discriminate|].
  destruct (String.eqb k k0) eqn:E.
  - apply String.eqb_eq in E. subst k0. intros H. injection H as <-.
    left. reflexivity.
  - intros H. right. apply IH, H.
Qed.

Lemma In_keys (k : string) (v : V) (d : dict V) : In (k, v) d -> In k (keys d).
Proof. intros H. apply (in_map fst) in H. exact H. Qed.

End DictFacts.

(** ** A refresh tick

    The loop of [get_updated_sensors], for an invariant [J] of the fields
    that are no objects and a property [P] of the values that the refresh of
    a sensor produces. *)

Section Tick.
Context {F : Type} {PF : PyFloat F}.
Variable o : Oracle F.
Variable J : St F -> Prop.
Variable P : string -> Sensor F -> F -> Prop.
Variable held : string -> Sensor F -> Prop.

Hypothesis J_heap : forall s h, J s -> J (with_heap h s).

Hypothesis update_spec : forall k r s,
  held k r -> J s ->
  wp o (_update_simulated_sensor k r)
     (fun a s' => exists t, a = Some t /\ P k r t /\ J s' /\ same_objects s s')
     (fun _ => False) s.

Variable s0 : St F.
Variable m : dict loc.

Hypothesis m_held : forall k l,
  In (k, l) m -> exists r, sensor_at s0 l = Some r /\ held k r.

Lemma update_sensor_step (k : string) (l : loc) (done : dict loc) (s : St F) :
  In (k, l) m -> tick_inv J P s0 m done s ->
  wp o (update_sensor (List.length (heap s0)) k l)
     (fun _ s' => tick_inv J P s0 m (done ++ [(k, l)]) s') (fun _ => False) s.
Proof.
  intros Hin (HJ & Hs & Hf & Hd & acc & recs & Hheap & Hkeys & Hrecs).
  destruct (m_held _ _ Hin) as (r & Hr & Hheld).
  assert (Hl : nth_error (heap s) l = Some (OSensor r)).
  { rewrite Hheap. apply nth_error_prefix.
    unfold sensor_at in Hr. destruct (nth_error (heap s0) l) as [[| |]|]; congruence. }
  destruct (wp_ok _ _ _ _ (update_spec k r s Hheld HJ))
    as (a & s1 & Hrun & t & -> & HP & HJ1 & Hh1 & Hs1 & Hf1 & Hd1).
  unfold wp, update_sensor.
  cbv [bind load_sensor load try_ copy_with_current alloc store modify
       setitem load_map ret raise].
  rewrite Hl, Hrun. st_simpl.
  rewrite Hh1, Hheap, list_set_last.
  assert (Hu : nth_error ((heap s0 ++ OMap acc :: recs) ++ [OSensor (with_current t r)])
                 (List.length (heap s0)) = Some (OMap acc)).
  { rewrite <- app_assoc. rewrite nth_error_app2 by lia.
    rewrite Nat.sub_diag. reflexivity. }
  rewrite Hu. st_simpl.
  assert (Hset : forall x,
             list_set (List.length (heap s0)) x
               ((heap s0 ++ OMap acc :: recs) ++ [OSensor (with_current t r)])
             = heap s0 ++ x :: (recs ++ [OSensor (with_current t r)])).
  { intros x. rewrite <- app_assoc.
    rewrite <- (Nat.add_0_r (List.length (heap s0))), list_set_app_r.
    reflexivity. }
  rewrite Hset.
  unfold tick_inv. st_simpl.
  split; [repeat apply J_heap; exact HJ1|].
  split; [congruence|]. split; [congruence|]. split; [congruence|].
  eexists _, _. split; [reflexivity|]. split.
  - intros k'. rewrite keys_dict_set. unfold keys. rewrite map_app, in_app_iff.
    simpl. specialize (Hkeys k'). unfold keys in Hkeys. intuition.
  - intros k' l' Hk'. apply dict_set_In in Hk'. destruct Hk' as [[-> ->]|Hk'].
    + exists (List.length recs), l, r, t. split.
      { rewrite length_app. simpl. lia. }
      split; [|auto].
      rewrite nth_error_app2 by lia. rewrite Nat.sub_diag. reflexivity.
    + destruct (Hrecs _ _ Hk') as (j & l0 & r0 & t0 & -> & Hj & Hm & Hs0 & HP0).
      exists j, l0, r0, t0. split; [reflexivity|]. split; [|auto].
      apply nth_error_prefix. exact Hj.
Qed.

(** The loop, from the sensors [done] to all of them. *)
Lemma update_sensors_loop (todo : dict loc) :
  forall (done : dict loc) (s : St F),
    (forall kv, In kv todo -> In kv m) ->
    tick_inv J P s0 m done s ->
    wp o (forM_ todo (fun kv => update_sensor (List.length (heap s0)) (fst kv) (snd kv)))
       (fun _ s' => tick_inv J P s0 m (done ++ todo) s') (fun _ => False) s.
Proof.
  induction todo as [|[k l] todo IH]; intros done s Hsub Hinv.
  - simpl. rewrite app_nil_r. exact Hinv.
  - simpl. apply wp_bind.
    eapply wp_mono;
      [apply (update_sensor_step k l done s); [apply Hsub; left; reflexivity|exact Hinv]
      | |auto].
    intros a s' Hs'. cbv beta.
    replace (done ++ (k, l) :: todo) with ((done ++ [(k, l)]) ++ todo)
      by (rewrite <- app_assoc; reflexivity).
    apply IH; [|exact Hs'].
    intros kv Hkv. apply Hsub. right. exact Hkv.
Qed.

(** A tick: a new dictionary at the first free location, with a new record
    for each key of the engine's dictionary, and nothing else changed. *)
Lemma get_updated_sensors_spec :
  J s0 -> map_at s0 (sensors s0) = Some m ->
  exists s' m',
    get_updated_sensors o s0 = (Ok (List.length (heap s0)), s')
    /\ J s' /\ sensors s' = sensors s0 /\ fan_status s' = fan_status s0
    /\ (forall l x, nth_error (heap s0) l = Some x -> nth_error (heap s') l = Some x)
    /\ map_at s' (List.length (heap s0)) = Some m'
    /\ (forall k, In k (keys m') <-> In k (keys m))
    /\ (forall k l', In (k, l') m' ->
          (List.length (heap s0) < l')%nat
          /\ exists l r t, In (k, l) m /\ sensor_at s0 l = Some r
                           /\ sensor_at s' l' = Some (with_current t r)
                           /\ P k r t).
Proof.
  intros HJ Hm.
  assert (Hinv : tick_inv J P s0 m [] (with_heap (heap s0 ++ [OMap []]) s0)).
  { unfold tick_inv. st_simpl. split; [apply J_heap, HJ|].
    repeat split; try reflexivity.
    exists [], []. split; [reflexivity|]. split; [reflexivity|].
    intros k l' []. }
  pose proof (update_sensors_loop m [] _ (fun kv H => H) Hinv) as Hloop.
  apply wp_ok in Hloop. destruct Hloop as ([] & s' & Hrun & Hinv').
  simpl in Hinv'.
  destruct Hinv' as (HJ' & Hs & Hf & Hd & acc & recs & Hheap & Hkeys & Hrecs).
  exists s', acc.
  assert (Hmap : nth_error (heap s0 ++ [OMap []]) (sensors s0) = Some (OMap m)).
  { apply nth_error_prefix. unfold map_at in Hm.
    destruct (nth_error (heap s0) (sensors s0)) as [[| |]|]; congruence. }
  split.
  { unfold get_updated_sensors.
    cbv [bind alloc gets load_map load ret raise]. st_simpl.
    rewrite Hmap, Hrun. reflexivity. }
  split; [exact HJ'|]. split; [exact Hs|]. split; [exact Hf|].
  split.
  { intros l x Hl. rewrite Hheap. apply nth_error_prefix. exact Hl. }
  split.
  { unfold map_at. rewrite Hheap, nth_error_app2 by lia.
    rewrite Nat.sub_diag. reflexivity. }
  split; [exact Hkeys|].
  intros k l' Hk.
  destruct (Hrecs _ _ Hk) as (j & l & r & t & -> & Hj & Hin & Hr & HP).
  split; [lia|]. exists l, r, t. split; [exact Hin|]. split; [exact Hr|].
  split; [|exact HP].
  unfold sensor_at. rewrite Hheap, nth_error_app2 by lia.
  replace (List.length (heap s0) + 1 + j - List.length (heap s0))%nat with (S j) by lia.
  simpl. rewrite Hj. reflexivity.
Qed.

End Tick.

(** ** The refresh of all sensors *)

Section Refresh.
Context {F : Type} {PF : PyFloat F}.
Variable o : Oracle F.

Lemma sensors_ok_spec (s : St F) :
  sensors_ok s = true <->
  exists m, map_at s (sensors s) = Some m
            /\ forall k l, In (k, l) m -> exists r, sensor_at s l = Some r.
Proof.
  unfold sensors_ok. split.
  - destruct (map_at s (sensors s)) as [m|]; [|discriminate].
    intros H. exists m. split; [reflexivity|]. intros k l Hin.
    rewrite forallb_forall in H. specialize (H _ Hin). simpl in H.
    destruct (sensor_at s l) as [r|]; [exists r; reflexivity|discriminate].
  - intros (m & -> & H). apply forallb_forall. intros [k l] Hin.
    simpl. destruct (H _ _ Hin) as (r & ->). reflexivity.
Qed.

(** A tick of an engine that holds a dictionary of sensors returns a new
    dictionary of new records, one for each key, and changes no object. *)
Lemma get_updated_sensors_new (s : St F) :
  sensors_ok s = true ->
  exists m s' m',
    map_at s (sensors s) = Some m
    /\ get_updated_sensors o s = (Ok (List.length (heap s)), s')
    /\ sensors s' = sensors s /\ fan_status s' = fan_status s
    /\ (forall l x, nth_error (heap s) l = Some x -> nth_error (heap s') l = Some x)
    /\ map_at s' (List.length (heap s)) = Some m'
    /\ (forall k, In k (keys m') <-> In k (keys m))
    /\ (forall k l', In (k, l') m' ->
          (List.length (heap s) < l')%nat
          /\ exists l r t, In (k, l) m /\ sensor_at s l = Some r
                           /\ sensor_at s' l' = Some (with_current t r)).
Proof.
  intros Hok. apply sensors_ok_spec in Hok. destruct Hok as (m & Hm & Hrec).
  destruct (get_updated_sensors_spec o (fun _ => True) (fun _ _ _ => True)
              (fun _ _ => True) (fun _ _ _ => I)) with (s0 := s) (m := m)
    as (s' & m' & Hrun & _ & Hs & Hf & Hpre & Hm' & Hkeys & Hnew); auto.
  - intros k r s1 _ _.
    eapply wp_mono; [apply update_simulated_sensor_total| |auto].
    intros a s2 ((t & ->) & Hsame). exists t. auto.
  - intros k l Hin. destruct (Hrec _ _ Hin) as (r & Hr). exists r. auto.
  - exists m, s', m'. repeat (split; [assumption|]).
    intros k l' Hin. destruct (Hnew _ _ Hin) as (Hlt & l & r & t & H1 & H2 & H3 & _).
    split; [exact Hlt|]. exists l, r, t. auto.
Qed.

Lemma sensors_ok_kept (s s' : St F) :
  sensors_ok s = true -> sensors s' = sensors s ->
  (forall l x, nth_error (heap s) l = Some x -> nth_error (heap s') l = Some x) ->
  sensors_ok s' = true
  /\ forall k, sensor_of s' (sensors s') k = sensor_of s (sensors s) k.
Proof.
  intros Hok Hs Hpre. apply sensors_ok_spec in Hok.
  destruct Hok as (m & Hm & Hrec).
  assert (Hm' : map_at s' (sensors s') = Some m).
  { rewrite Hs. unfold map_at in *.
    destruct (nth_error (heap s) (sensors s)) as [x|] eqn:E; [|discriminate].
    rewrite (Hpre _ _ E). exact Hm. }
  assert (Hrec' : forall k l, In (k, l) m -> sensor_at s' l = sensor_at s l).
  { intros k l Hin. destruct (Hrec _ _ Hin) as (r & Hr).
    unfold sensor_at in *.
    destruct (nth_error (heap s) l) as [x|] eqn:E; [|discriminate].
    rewrite (Hpre _ _ E). reflexivity. }
  split.
  - apply sensors_ok_spec. exists m. split; [exact Hm'|].
    intros k l Hin. rewrite (Hrec' _ _ Hin). eauto.
  - intros k. unfold sensor_of. rewrite Hm', Hm.
    destruct (dict_get k m) as [l|] eqn:E; [|reflexivity].
    apply (Hrec' k). apply dict_get_In. exact E.
Qed.

(** C10.  The refresh never writes to the sensors the engine holds.  After
    any number of calls of [get_updated_sensors] on an engine that holds a
    dictionary of sensors, the calls have returned, [self.sensors] is the
    same dictionary, every object that was in the heap is as it was, and
    each key gives the record it gave, with the ['current'] it had: a tick
    starts from the values the detection stored, not from those of the tick
    before. *)
Theorem refresh_keeps_stored_sensors (n : nat) (s : St F) :
  sensors_ok s = true ->
  exists s',
    refresh_n n o s = (Ok tt, s')
    /\ sensors s' = sensors s
    /\ (forall l x, nth_error (heap s) l = Some x -> nth_error (heap s') l = Some x)
    /\ (forall k, sensor_of s' (sensors s') k = sensor_of s (sensors s) k).
Proof.
  revert s. induction n as [|n IH]; intros s Hok.
  - exists s. repeat split; auto.
  - destruct (get_updated_sensors_new s Hok)
      as (m & s1 & m' & Hm & Hrun & Hs & Hf & Hpre & _).
    destruct (sensors_ok_kept s s1 Hok Hs Hpre) as (Hok1 & Hview1).
    destruct (IH s1 Hok1) as (s' & Hrun' & Hs' & Hpre' & Hview').
    exists s'. split.
    { simpl. unfold bind. rewrite Hrun. exact Hrun'. }
    split; [congruence|]. split; [auto|].
    intros k. rewrite Hview', Hview1. reflexivity.
Qed.

(** C5.  A refresh changes no key.  On an engine that holds a dictionary of
    sensors, [get_updated_sensors] returns a dictionary whose keys are the
    keys of [self.sensors], and [self.sensors] is the same dictionary with
    the same entries after the call. *)
Theorem refresh_keeps_keys (s : St F) :
  sensors_ok s = true ->
  exists m r s' m',
    map_at s (sensors s) = Some m
    /\ get_updated_sensors o s = (Ok r, s')
    /\ map_at s' r = Some m'
    /\ (forall k, In k (keys m') <-> In k (keys m))
    /\ sensors s' = sensors s
    /\ map_at s' (sensors s') = Some m.
Proof.
  intros Hok.
  destruct (get_updated_sensors_new s Hok)
    as (m & s' & m' & Hm & Hrun & Hs & Hf & Hpre & Hm' & Hkeys & _).
  exists m, (List.length (heap s)), s', m'.
  repeat (split; [assumption|]).
  rewrite Hs. unfold map_at in *.
  destruct (nth_error (heap s) (sensors s)) as [x|] eqn:E; [|discriminate].
  rewrite (Hpre _ _ E). exact Hm.
Qed.

End Refresh.


(** ** The fan status model *)

Section ListSet.
Context {A : Type}.

Lemma nth_error_list_set_eq (xs : list A) (i : nat) (x y : A) :
  nth_error xs i = Some y -> nth_error (list_set i x xs) i = Some x.
Proof.
  revert i. induction xs as [|z xs IH]; intros [|i]; simpl; try discriminate.
  - reflexivity.
  - apply IH.
Qed.

Lemma nth_error_list_set_neq (xs : list A) (i j : nat) (x : A) :
  i <> j -> nth_error (list_set i x xs) j = nth_error xs j.
Proof.
  revert i j. induction xs as [|z xs IH]; intros [|i] [|j] H; simpl;
    try reflexivity; try congruence.
  apply IH. congruence.
Qed.

Lemma list_set_twice (xs : list A) (i : nat) (x y : A) :
  list_set i y (list_set i x xs) = list_set i y xs.
Proof.
  revert i. induction xs as [|z xs IH]; intros [|i]; simpl; try reflexivity.
  rewrite IH. reflexivity.
Qed.

End ListSet.

Section Fans.
Context {F : Type} {PF : PyFloat F}.
Variable o : Oracle F.

(** [self.fan_status[fan_id][field] = v] on a fan that is there. *)
Lemma set_fan_run (fan_id : string) (g : Fan -> Fan) (s : St F)
    (m : dict loc) (l : loc) (f : Fan) :
  map_at s (fan_status s) = Some m -> dict_get fan_id m = Some l ->
  fan_at s l = Some f ->
  set_fan fan_id g o s = (Ok tt, with_heap (list_set l (OFan (g f)) (heap s)) s).
Proof.
  unfold map_at, fan_at, set_fan. intros Hm Hk Hf.
  cbv [bind gets getitem load_map load_fan load lift store modify ret raise].
  destruct (nth_error (heap s) (fan_status s)) as [[m0| |]|]; try discriminate.
  injection Hm as ->. rewrite Hk.
  destruct (nth_error (heap s) l) as [[| |f0]|]; try discriminate.
  injection Hf as ->. reflexivity.
Qed.

(** After it the dictionary is the same and the fan is the changed one. *)
Lemma set_fan_kept (s : St F) (m : dict loc) (l : loc) (f f' : Fan) :
  map_at s (fan_status s) = Some m -> fan_at s l = Some f ->
  let s' := with_heap (list_set l (OFan f') (heap s)) s in
  map_at s' (fan_status s') = Some m /\ fan_at s' l = Some f'.
Proof.
  unfold map_at, fan_at. intros Hm Hf. st_simpl. split.
  - rewrite nth_error_list_set_neq; [exact Hm|].
    intros ->. destruct (nth_error (heap s) (fan_status s)) as [[| |]|]; discriminate.
  - destruct (nth_error (heap s) l) as [x|] eqn:E; [|discriminate].
    rewrite (nth_error_list_set_eq _ _ _ x E). reflexivity.
Qed.

(** C3, as the code has it.  On an engine that holds a dictionary of fans:
    for an id that is not a key, [set_fan_speed] returns false and the
    state is as it was; for a fan that is there, and a percentage whose
    conversion to float and whose RPM do not overflow, it returns true and
    changes that one record: [current_speed] is the percentage and
    [current_rpm] is [int((percent / 100.0) * max_rpm)], the float product
    cut toward zero (not rounded); [max_rpm] and [status] are as they
    were. *)
Theorem set_fan_speed_spec (fan_id : string) (percent : Z) (s : St F)
    (m : dict loc) :
  map_at s (fan_status s) = Some m ->
  match dict_get fan_id m with
  | None => set_fan_speed fan_id percent o s = (Ok false, s)
  | Some l =>
      forall f p mx rpm,
        fan_at s l = Some f ->
        fof_int percent = Some p -> fof_int (max_rpm f) = Some mx ->
        fto_int (fmul (fdiv p (flit 100)) mx) = Some rpm ->
        set_fan_speed fan_id percent o s
        = (Ok true,
           with_heap
             (list_set l
                (OFan {| current_rpm := rpm; current_speed := percent;
                         max_rpm := max_rpm f; status := status f |})
                (heap s)) s)
  end.
Proof.
  intros Hm. destruct (dict_get fan_id m) as [l|] eqn:Hk.
  - intros f p mx rpm Hf Hp Hmx Hrpm.
    destruct (set_fan_kept s m l f (with_current_speed percent f) Hm Hf)
      as (Hm1 & Hf1).
    unfold set_fan_speed, try_. unfold bind at 1. unfold gets at 1.
    unfold bind at 1.
    assert (Hload : load_map (fan_status s) o s = (Ok m, s)).
    { unfold load_map, load, bind. unfold map_at in Hm.
      destruct (nth_error (heap s) (fan_status s)) as [[| |]|]; try discriminate.
      injection Hm as ->. reflexivity. }
    rewrite Hload, Hk.
    unfold bind at 1.
    rewrite (set_fan_run fan_id _ s m l f Hm Hk Hf).
    unfold bind at 1. unfold float_ at 1. rewrite Hp. cbv [lift ret].
    unfold bind at 1. unfold getitem, bind at 1.
    assert (Hload1 : forall s1, map_at s1 (fan_status s) = Some m ->
                                load_map (fan_status s) o s1 = (Ok m, s1)).
    { intros s1 H1. unfold load_map, load, bind. unfold map_at in H1.
      destruct (nth_error (heap s1) (fan_status s)) as [[| |]|]; try discriminate.
      injection H1 as ->. reflexivity. }
    rewrite (Hload1 _ Hm1), Hk. cbv [lift ret].
    unfold bind at 1.
    assert (Hfan : forall s1 l1 f1, fan_at s1 l1 = Some f1 ->
                                    load_fan l1 o s1 = (Ok f1, s1)).
    { intros s1 l1 f1 H1. unfold load_fan, load, bind. unfold fan_at in H1.
      destruct (nth_error (heap s1) l1) as [[| |]|]; try discriminate.
      injection H1 as ->. reflexivity. }
    rewrite (Hfan _ _ _ Hf1).
    unfold bind at 1. unfold float_ at 1. cbn [max_rpm with_current_speed].
    rewrite Hmx. cbv [lift ret].
    unfold bind at 1. unfold int_. rewrite Hrpm. cbv [lift ret].
    unfold bind at 1.
    rewrite (set_fan_run fan_id _ _ m l _ Hm1 Hk Hf1).
    cbv [ret]. st_simpl. rewrite list_set_twice. reflexivity.
  - unfold set_fan_speed, try_, bind, gets.
    assert (Hload : load_map (fan_status s) o s = (Ok m, s)).
    { unfold load_map, load, bind. unfold map_at in Hm.
      destruct (nth_error (heap s) (fan_status s)) as [[| |]|]; try discriminate.
      injection Hm as ->. reflexivity. }
    rewrite Hload, Hk. reflexivity.
Qed.

(** Whatever [get_fan_status] did, what it returns is the reference the
    engine holds. *)
Lemma get_fan_status_returns_own (s : St F) (r : loc) (s' : St F) :
  get_fan_status o s = (Ok r, s') -> r = fan_status s'.
Proof.
  unfold get_fan_status, bind, gets.
  destruct (load_map (fan_status s) o s) as [[m|] s1]; [|discriminate].
  destruct (match m with [] => _initialize_fan_status | _ => ret tt end o s1)
    as [[[]|] s2]; [|discriminate].
  destruct (_update_fan_status_real_time o s2) as [[[]|] s3]; [|discriminate].
  intros H. injection H as <- <-. reflexivity.
Qed.

End Fans.

(** ** The fan model, run

    On [engine64]. *)

Example steady_fans :
  fan_of engine64 (fan_status engine64) "cpu_fan"
  = Some {| current_rpm := 1200; current_speed := 60; max_rpm := 3000;
            status := "Normal" |} :> option Fan.
Proof. vm_compute. reflexivity. Qed.

(** C3 fails as stated: [set_fan_speed("cpu_fan", 29)] leaves 869 RPM where
    [round(0.29 * 3000)] is 870, since the double [29 / 100.0 * 3000] is
    869.9999999999999 and [int] cuts it. *)
Lemma set_fan_speed_cuts_rpm :
  exists s' f,
    set_fan_speed "cpu_fan" 29 steady64 engine64
    = (Ok true, s')
    /\ fan_of s' (fan_status s') "cpu_fan" = Some f
    /\ current_speed f = 29%Z
    /\ current_rpm f = 869%Z
    /\ rounded_rpm 29 (max_rpm f) = 870%Z.
Proof.
  eexists _, _. split; [vm_compute; reflexivity|].
  split; [vm_compute; reflexivity|].
  repeat split.
Qed.

(** The witness of [set_fan_speed_spec]: 75% of the CPU fan is 2250 RPM;
    no fan is called "nonexistent". *)
Lemma set_fan_speed_spec_witness :
  (exists l,
     set_fan_speed "cpu_fan" 75 steady64 engine64
     = (Ok true,
        with_heap
          (list_set l
             (OFan {| current_rpm := 2250; current_speed := 75;
                      max_rpm := 3000; status := "Normal" |})
             (heap engine64)) engine64))
  /\ set_fan_speed "nonexistent" 50 steady64 engine64
     = (Ok false, engine64).
Proof.
  destruct (map_at engine64
              (fan_status engine64)) as [m|] eqn:Hm;
    [|vm_compute in Hm; discriminate].
  pose proof (set_fan_speed_spec steady64 "cpu_fan" 75 _ _ Hm) as H1.
  pose proof (set_fan_speed_spec steady64 "nonexistent" 50 _ _ Hm) as H2.
  vm_compute in Hm. injection Hm as <-.
  cbn [dict_get String.eqb Ascii.eqb Bool.eqb] in H1, H2.
  split; [|exact H2].
  eexists.
  refine (H1 {| current_rpm := 1200; current_speed := 60; max_rpm := 3000;
                status := "Normal" |} (flit 75) (flit 3000) 2250%Z _ _ _ _);
    vm_compute; reflexivity.
Defined.

(** C4 fails after [set_fan_speed]: at 90% the status is still
    ['Normal'], where the thresholds give ['High']. *)
Lemma set_fan_speed_stale_status :
  exists s' f,
    set_fan_speed "cpu_fan" 90 steady64 engine64
    = (Ok true, s')
    /\ fan_of s' (fan_status s') "cpu_fan" = Some f
    /\ current_speed f = 90%Z
    /\ status f = "Normal"
    /\ status_of_speed (current_speed f) = "High".
Proof.
  eexists _, _. split; [vm_compute; reflexivity|].
  split; [vm_compute; reflexivity|].
  repeat split.
Qed.

(** C7 fails after [set_fan_speed]: at 150% the CPU fan is at 4500 RPM, and
    its maximum is 3000. *)
Lemma set_fan_speed_over_max :
  exists s' f,
    set_fan_speed "cpu_fan" 150 steady64 engine64
    = (Ok true, s')
    /\ fan_of s' (fan_status s') "cpu_fan" = Some f
    /\ current_rpm f = 4500%Z
    /\ max_rpm f = 3000%Z
    /\ ~ (0 <= current_rpm f <= max_rpm f)%Z.
Proof.
  eexists _, _. split; [vm_compute; reflexivity|].
  split; [vm_compute; reflexivity|].
  repeat split. simpl. lia.
Qed.

(** C9 fails for the fans: what [get_fan_status] returns is the dictionary
    the engine holds.  A caller that empties it has emptied the engine's:
    the CPU fan, that could be set, is unknown after that. *)
Lemma get_fan_status_returns_original :
  exists d s',
    get_fan_status steady64 engine64 = (Ok d, s')
    /\ d = fan_status s'
    /\ fst (set_fan_speed "cpu_fan" 50 steady64 s') = Ok true
    /\ fst (set_fan_speed "cpu_fan" 50 steady (snd (clear d steady64 s')))
       = Ok false.
Proof.
  eexists _, _. split; [vm_compute; reflexivity|].
  split; [reflexivity|]. split; vm_compute; reflexivity.
Qed.

(** ** What the two getters return *)

Section Returned.
Context {F : Type} {PF : PyFloat F}.
Variable o : Oracle F.

(** C9, as the code has it.  [get_updated_sensors] returns a copy: a
    dictionary and records that were no objects of the heap before the call,
    so that whatever a caller assigns through them, every object the engine
    had is as it was.  [get_fan_status] returns no copy: its result is the
    reference [self.fan_status] itself. *)
Theorem returned_dictionaries (s : St F) :
  (sensors_ok s = true ->
   exists r s' m',
     get_updated_sensors o s = (Ok r, s')
     /\ map_at s' r = Some m'
     /\ nth_error (heap s) r = None
     /\ (forall k l', In (k, l') m' ->
           nth_error (heap s) l' = None /\ sensor_at s' l' <> None)
     /\ (forall l' y,
           l' = r \/ (exists k, In (k, l') m') ->
           forall l x, nth_error (heap s) l = Some x ->
                       nth_error (list_set l' y (heap s')) l = Some x))
  /\ (forall r s', get_fan_status o s = (Ok r, s') -> r = fan_status s').
Proof.
  split; [|apply get_fan_status_returns_own].
  intros Hok.
  destruct (get_updated_sensors_new o s Hok)
    as (m & s' & m' & Hm & Hrun & Hs & Hf & Hpre & Hm' & Hkeys & Hnew).
  exists (List.length (heap s)), s', m'.
  split; [exact Hrun|]. split; [exact Hm'|].
  split; [apply nth_error_None; lia|].
  split.
  - intros k l' Hin.
    destruct (Hnew _ _ Hin) as (Hlt & l & r & t & _ & _ & Hr).
    split; [apply nth_error_None; lia|]. rewrite Hr. discriminate.
  - intros l' y Hl' l x Hl.
    assert (Hlt : (l < List.length (heap s))%nat).
    { apply nth_error_Some. congruence. }
    rewrite nth_error_list_set_neq; [apply Hpre, Hl|].
    destruct Hl' as [->|(k & Hin)]; [lia|].
    destruct (Hnew _ _ Hin) as (Hlt' & _). lia.
Qed.

End Returned.

(** The witnesses, on [engine64]. *)

Lemma steady_sensors_ok : sensors_ok engine64 = true.
Proof. vm_compute. reflexivity. Qed.

Lemma returned_dictionaries_witness :
  exists r s' m',
    get_updated_sensors steady64 engine64 = (Ok r, s')
    /\ map_at s' r = Some m'
    /\ nth_error (heap engine64) r = None
    /\ (forall k l', In (k, l') m' ->
          nth_error (heap engine64) l' = None /\ sensor_at s' l' <> None)
    /\ (forall l' y,
          l' = r \/ (exists k, In (k, l') m') ->
          forall l x, nth_error (heap engine64) l = Some x ->
                      nth_error (list_set l' y (heap s')) l = Some x).
Proof.
  exact (proj1 (returned_dictionaries steady64 engine64) steady_sensors_ok).
Defined.

Lemma refresh_keeps_stored_sensors_witness :
  exists s',
    refresh_n 3 steady64 engine64 = (Ok tt, s')
    /\ sensors s' = sensors engine64
    /\ (forall l x, nth_error (heap engine64) l = Some x ->
                    nth_error (heap s') l = Some x)
    /\ (forall k, sensor_of s' (sensors s') k
                  = sensor_of engine64 (sensors engine64) k).
Proof.
  exact (refresh_keeps_stored_sensors steady64 3 engine64 steady_sensors_ok).
Defined.

Lemma refresh_keeps_keys_witness :
  exists m r s' m',
    map_at engine64 (sensors engine64) = Some m
    /\ get_updated_sensors steady64 engine64 = (Ok r, s')
    /\ map_at s' r = Some m'
    /\ (forall k, In k (keys m') <-> In k (keys m))
    /\ sensors s' = sensors engine64
    /\ map_at s' (sensors s') = Some m.
Proof.
  exact (refresh_keeps_keys steady64 engine64 steady_sensors_ok).
Defined.

(** The cache on that engine: the first call finds the entry of the
    constructor older than 2 seconds, queries, and stores 37 with the time it
    read; the second call is in the window and returns 37 with no query. *)
Lemma cached_cpu_percent_ttl_witness :
  (exists s1,
     _get_cached_cpu_percent steady64 engine64
     = (Ok (flit 37), s1)
     /\ os_calls s1 = CpuPercent :: os_calls engine64
     /\ cached_cpu_percent s1 = flit 37
     /\ last_cpu_check s1 = flit 1700000003.25)
  /\ (forall s1 r2 s2,
        _get_cached_cpu_percent steady64 engine64
        = (Ok (flit 37), s1) ->
        cpu_expired steady64 s1 = false ->
        _get_cached_cpu_percent steady64 s1 = (r2, s2) ->
        r2 = Ok (flit 37) /\ os_calls s2 = os_calls s1).
Proof.
  pose proof (cached_cpu_percent_ttl steady64 engine64)
    as (_ & Htwo & Hstale).
  split.
  - apply (Hstale (flit 37)); vm_compute; reflexivity.
  - intros s1 r2 s2. apply Htwo.
Defined.

(** ** The range of the refreshed values *)

Section Ranges.
Variable o : Oracle float.




End Ranges.

Section RefreshedRange.
Variable o : Oracle float.



End RefreshedRange.



(** ** The order of the GPU sensors *)


Section GpuOrder.
Variable o : Oracle Q.
Variable s0 : St Q.
Variables cpu mem : Q.

Hypothesis psutil_there : o_psutil o = true.
Hypothesis draws : forall c, (0 <= o_random o c <= 1)%Q.










Hypothesis cpu_pos : (0 <= cpu)%Q.
Hypothesis memory_pos : (0 <= mem)%Q.



End GpuOrder.


(** The engine of the [steady] machine, in exact arithmetic, holds the
    simulated GPU records. *)
Lemma steady_gpu_sensors :
  exists core hot fan,
    sensor_of engineQ (sensors engineQ) "gpu_core" = Some core
    /\ sensor_of engineQ (sensors engineQ) "gpu_hotspot" = Some hot
    /\ sensor_of engineQ (sensors engineQ) "gpu_fan" = Some fan
    /\ contains "Simulated" (s_method core) = true
    /\ contains "Simulated" (s_method hot) = true
    /\ contains "Simulated" (s_method fan) = true.
Proof.
  eexists _, _, _. split; [vm_compute; reflexivity|].
  split; [vm_compute; reflexivity|].
  split; [vm_compute; reflexivity|].
  repeat split.
Qed.


(** With doubles, on the [steady] machine, the first tick returns the GPU
    records in that order. *)
Lemma steady_gpu_order :
  exists d s' core hot fan,
    get_updated_sensors steady64 engine64 = (Ok d, s')
    /\ sensor_of s' d "gpu_core" = Some core
    /\ sensor_of s' d "gpu_hotspot" = Some hot
    /\ sensor_of s' d "gpu_fan" = Some fan
    /\ fle (s_current core) (s_current hot) = true
    /\ fle (s_current fan) (s_current core) = true.
Proof.
  eexists _, _, _, _, _. split; [vm_compute; reflexivity|].
  split; [vm_compute; reflexivity|].
  split; [vm_compute; reflexivity|].
  split; [vm_compute; reflexivity|].
  split; reflexivity.
Qed.

(** ** The detection *)

(** With no [psutil] and no detection method that finds a sensor, C2 fails:
    the synthetic generator raises at its [import], its handler returns the
    dictionary as it is, and [detect_all_sensors] returns an empty
    dictionary and stores it. *)
Lemma detect_all_sensors_empty :
  exists r s',
    detect_all_sensors bare64 blank64 = (Ok r, s')
    /\ sensors s' = r
    /\ map_at s' r = Some []
    /\ os_calls s' = [].
Proof.
  eexists _, _. split; [vm_compute; reflexivity|]. repeat split.
Qed.

Section HeapFacts.
Context {A : Type}.

Lemma length_list_set (xs : list A) (i : nat) (x : A) :
  List.length (list_set i x xs) = List.length xs.
Proof.
  revert i. induction xs as [|y xs IH]; intros [|i]; simpl; auto.
Qed.

End HeapFacts.

Section Detect.
Context {F : Type} {PF : PyFloat F}.
Variable o : Oracle F.
Variable b : nat.

(** [m] keeps the invariant of the dictionary [d], whether it returns or
    raises. *)
Definition keeps (d : loc) (K : string -> Prop) {A} (m : M F A) : Prop :=
  forall s, dict_inv b d K s ->
            wp o m (fun _ => dict_inv b d K) (dict_inv b d K) s.

Lemma wp_conj {A} (m : M F A) Q1 Q2 E1 E2 s :
  wp o m Q1 E1 s -> wp o m Q2 E2 s ->
  wp o m (fun a s' => Q1 a s' /\ Q2 a s') (fun s' => E1 s' /\ E2 s') s.
Proof.
  unfold wp. destruct (m o s) as [[a|] s']; auto.
Qed.

Lemma dict_inv_env (d : loc) (K : string -> Prop) (s s' : St F) :
  heap s' = heap s -> dict_inv b d K s -> dict_inv b d K s'.
Proof.
  unfold dict_inv, is_sensor, map_at, sensor_at. intros ->. auto.
Qed.

Lemma dict_inv_weaken (d : loc) (K K' : string -> Prop) (s : St F) :
  (forall k, K' k -> K k) -> dict_inv b d K s -> dict_inv b d K' s.
Proof.
  intros HK (Hlen & Hwf & m & Hm & Hkeys).
  split; [exact Hlen|]. split; [exact Hwf|].
  exists m. split; [exact Hm|]. auto.
Qed.

(** A new object at the end of the heap, a record or an empty
    dictionary. *)
Lemma dict_inv_alloc (d : loc) (K : string -> Prop) (x : Obj F) (s : St F) :
  (forall m, x = OMap m -> m = []) ->
  dict_inv b d K s -> dict_inv b d K (with_heap (heap s ++ [x]) s).
Proof.
  intros Hx (Hlen & Hwf & m & Hm & Hkeys).
  assert (Hpre : forall l y, nth_error (heap s) l = Some y ->
                             nth_error (heap s ++ [x]) l = Some y).
  { intros l y. apply nth_error_prefix. }
  assert (Hsen : forall l, is_sensor s l ->
                           is_sensor (with_heap (heap s ++ [x]) s) l).
  { intros l (r & Hr). exists r. unfold sensor_at in *. st_simpl.
    destruct (nth_error (heap s) l) as [y|] eqn:E; [|discriminate].
    rewrite (Hpre _ _ E). exact Hr. }
  unfold dict_inv. st_simpl. split.
  { rewrite length_app. lia. }
  split.
  - intros d' m' k l Hb Hm' Hin. unfold map_at in Hm'. st_simpl.
    destruct (Nat.lt_ge_cases d' (List.length (heap s))) as [Hlt|Hge].
    + rewrite nth_error_app1 in Hm' by exact Hlt.
      apply Hsen. apply (Hwf d' m' k l Hb); [|exact Hin].
      unfold map_at. exact Hm'.
    + rewrite nth_error_app2 in Hm' by exact Hge.
      destruct (d' - List.length (heap s))%nat as [|n]; simpl in Hm'.
      * destruct x as [m0| |]; try discriminate.
        injection Hm' as <-. rewrite (Hx m0 eq_refl) in Hin. destruct Hin.
      * destruct n; discriminate.
  - exists m. split; [|exact Hkeys]. unfold map_at in *. st_simpl.
    destruct (nth_error (heap s) d) as [y|] eqn:E; [|discriminate].
    rewrite (Hpre _ _ E). exact Hm.
Qed.

(** The records stay where they are when an entry of a dictionary is
    set. *)
Lemma is_sensor_setitem (d : loc) (x : Obj F) (m : dict loc) (s : St F)
    (l : loc) :
  map_at s d = Some m -> is_sensor s l ->
  is_sensor (with_heap (list_set d x (heap s)) s) l.
Proof.
  intros Hm (r & Hr). exists r. unfold sensor_at, map_at in *. st_simpl.
  rewrite nth_error_list_set_neq; [exact Hr|].
  intros <-. destruct (nth_error (heap s) d) as [[| |]|]; discriminate.
Qed.

(** [d[k] = l] for a record [l]: the invariant of [d'] is kept, and [d]
    has the key. *)
Lemma dict_inv_setitem (d' : loc) (K : string -> Prop) (d : loc) (k : string)
    (l : loc) (m : dict loc) (s : St F) :
  dict_inv b d' K s -> map_at s d = Some m -> is_sensor s l ->
  dict_inv b d' (fun k' => K k' \/ (d = d' /\ k' = k))
    (with_heap (list_set d (OMap (dict_set k l m)) (heap s)) s).
Proof.
  intros (Hlen & Hwf & m' & Hm' & Hkeys) Hm Hl.
  assert (Hd : nth_error (heap s) d = Some (OMap m)).
  { unfold map_at in Hm.
    destruct (nth_error (heap s) d) as [[| |]|]; congruence. }
  unfold dict_inv. st_simpl. split.
  { rewrite length_list_set. exact Hlen. }
  split.
  - intros d2 m2 k2 l2 Hb Hm2 Hin.
    apply (is_sensor_setitem d _ m s l2 Hm).
    unfold map_at in Hm2. st_simpl.
    destruct (Nat.eq_dec d d2) as [<-|Hne].
    + rewrite (nth_error_list_set_eq _ _ _ _ Hd) in Hm2.
      injection Hm2 as <-.
      destruct (dict_set_In _ _ _ _ _ Hin) as [(_ & ->)|Hold];
        [exact Hl|].
      apply (Hwf d m k2 l2 Hb Hm Hold).
    + rewrite (nth_error_list_set_neq _ _ _ _ Hne) in Hm2.
      apply (Hwf d2 m2 k2 l2 Hb); [|exact Hin]. exact Hm2.
  - unfold map_at. st_simpl.
    destruct (Nat.eq_dec d d') as [<-|Hne].
    + rewrite (nth_error_list_set_eq _ _ _ _ Hd).
      exists (dict_set k l m). split; [reflexivity|].
      intros k' Hk'. apply keys_dict_set.
      destruct Hk' as [Hk'|(_ & ->)]; [|left; reflexivity].
      right. rewrite Hm in Hm'. injection Hm' as <-. auto.
    + rewrite (nth_error_list_set_neq _ _ _ _ Hne).
      exists m'. split; [exact Hm'|].
      intros k' [Hk'|(He & _)]; [auto|contradiction].
Qed.

Lemma setitem_run (d : loc) (k : string) (l : loc) (m : dict loc) (s : St F) :
  map_at s d = Some m ->
  setitem d k l o s
  = (Ok tt, with_heap (list_set d (OMap (dict_set k l m)) (heap s)) s).
Proof.
  unfold map_at, setitem, load_map, load, store, bind, modify, ret, raise.
  destruct (nth_error (heap s) d) as [[| |]|]; try discriminate.
  intros [= ->]. reflexivity.
Qed.

Lemma setitem_fail (d : loc) (k : string) (l : loc) (s : St F) :
  map_at s d = None -> setitem d k l o s = (Raise, s).
Proof.
  unfold map_at, setitem, load_map, load, store, bind, modify, ret, raise.
  destruct (nth_error (heap s) d) as [[| |]|]; try discriminate; reflexivity.
Qed.

(** [sensors[key] = {...}] keeps the invariant of every dictionary, and
    gives the key to its own. *)
Lemma put_spec (d' : loc) (K : string -> Prop) (d : loc) (k : string)
    (r : Sensor F) (s : St F) :
  dict_inv b d' K s ->
  wp o (put d k r)
     (fun _ => dict_inv b d' (fun k' => K k' \/ (d = d' /\ k' = k)))
     (fun s' => dict_inv b d' K s' /\ d <> d') s.
Proof.
  intros HI. unfold put. apply wp_bind, wp_alloc.
  pose proof (dict_inv_alloc d' K (OSensor r) s
                ltac:(intros m0; discriminate) HI) as HI1.
  set (s1 := with_heap (heap s ++ [OSensor r]) s) in *.
  assert (Hl : is_sensor s1 (List.length (heap s))).
  { exists r. unfold sensor_at, s1. st_simpl.
    rewrite nth_error_app2 by lia. rewrite Nat.sub_diag. reflexivity. }
  unfold wp. destruct (map_at s1 d) as [m|] eqn:E.
  - rewrite (setitem_run _ _ _ _ _ E).
    apply dict_inv_setitem; assumption.
  - rewrite (setitem_fail _ _ _ _ E). split; [exact HI1|].
    intros ->. destruct HI1 as (_ & _ & m & Hm & _). congruence.
Qed.

Section Keeps.
Variable d : loc.
Variable K : string -> Prop.

Lemma keeps_ret {A} (a : A) : keeps d K (ret a).
Proof. intros s H. exact H. Qed.

Lemma keeps_raise {A} : keeps d K (raise : M F A).
Proof. intros s H. exact H. Qed.

Lemma keeps_bind {A B} (m : M F A) (k : A -> M F B) :
  keeps d K m -> (forall a, keeps d K (k a)) -> keeps d K (bind m k).
Proof.
  intros Hm Hk s H. apply wp_bind.
  eapply wp_mono; [apply (Hm s H)| |auto].
  intros a s' H'. apply (Hk a s' H').
Qed.

Lemma keeps_try {A} (m h : M F A) :
  keeps d K m -> keeps d K h -> keeps d K (try_ m h).
Proof.
  intros Hm Hh s H. apply wp_try.
  eapply wp_mono; [apply (Hm s H)|auto|].
  intros s' H'. apply (Hh s' H').
Qed.

Lemma keeps_ask {A} (f : Oracle F -> nat -> A) : keeps d K (ask f).
Proof.
  intros s H. apply wp_ask. revert H. apply dict_inv_env. reflexivity.
Qed.

Lemma keeps_lift {A} (x : option A) : keeps d K (lift x).
Proof. intros s H. destruct x; exact H. Qed.

Lemma keeps_import : keeps d K import_psutil.
Proof.
  intros s H. apply wp_import_psutil. destruct (o_psutil o); exact H.
Qed.

Lemma keeps_log (c : OsCall) :
  keeps d K (modify (fun s => with_os_calls (c :: os_calls s) s)).
Proof.
  intros s H. apply wp_modify. revert H. apply dict_inv_env. reflexivity.
Qed.

Lemma keeps_os_call {A} (c : OsCall) (f : Oracle F -> nat -> option A) :
  keeps d K (os_call c f).
Proof.
  unfold os_call. apply keeps_bind.
  - apply keeps_log.
  - intros _. apply keeps_bind; [apply keeps_ask|]. intros x. apply keeps_lift.
Qed.

Lemma keeps_uniform (x y : F) : keeps d K (uniform x y).
Proof.
  unfold uniform. apply keeps_bind; [apply keeps_ask|].
  intros r. apply keeps_ret.
Qed.

Lemma keeps_float_ (n : Z) : keeps d K (float_ n).
Proof. apply keeps_lift. Qed.

Lemma keeps_int_ (x : F) : keeps d K (int_ x).
Proof. apply keeps_lift. Qed.

Lemma keeps_truediv_int (x y : Z) : keeps d K (truediv_int x y).
Proof.
  unfold truediv_int. destruct (y =? 0)%Z; [apply keeps_raise|].
  apply keeps_bind; [apply keeps_float_|]. intros x'.
  apply keeps_bind; [apply keeps_float_|]. intros y'. apply keeps_ret.
Qed.

Lemma keeps_truediv (x y : F) : keeps d K (truediv x y).
Proof.
  unfold truediv. destruct (fzero y); [apply keeps_raise|apply keeps_ret].
Qed.

Lemma keeps_alloc_map : keeps d K (alloc (OMap [])).
Proof.
  intros s H. apply wp_alloc. apply dict_inv_alloc; [|exact H].
  intros m [= <-]. reflexivity.
Qed.

Lemma keeps_load_map (l : loc) : keeps d K (load_map l).
Proof.
  intros s H. unfold wp, load_map, load, bind, ret, raise.
  destruct (nth_error (heap s) l) as [[| |]|]; exact H.
Qed.

Lemma keeps_put (d1 : loc) (k : string) (r : Sensor F) : keeps d K (put d1 k r).
Proof.
  intros s H. eapply wp_mono; [apply (put_spec d K d1 k r s H)| |].
  - intros a s'. apply dict_inv_weaken. auto.
  - intros s' (H' & _). exact H'.
Qed.

Lemma keeps_forM_ {A} (xs : list A) (body : A -> M F unit) :
  (forall x, keeps d K (body x)) -> keeps d K (forM_ xs body).
Proof.
  intros Hbody s H.
  apply (wp_forM_ o xs body (dict_inv b d K) (dict_inv b d K)); [|exact H].
  intros x s' _ H'. apply (Hbody x s' H').
Qed.

End Keeps.

(** A program of queries, draws and [put], step by step. *)
Ltac keeps_go :=
  repeat first
    [ progress cbv beta zeta
    | match goal with
      | |- keeps _ _ (if ?c then _ else _) => destruct c
      | |- keeps _ _ (match ?x with _ => _ end) => destruct x
      | |- keeps _ _ (put _ _ _) => apply keeps_put
      | |- keeps _ _ (os_call _ _) => apply keeps_os_call
      | |- keeps _ _ (uniform _ _) => apply keeps_uniform
      | |- keeps _ _ (float_ _) => apply keeps_float_
      | |- keeps _ _ (int_ _) => apply keeps_int_
      | |- keeps _ _ (truediv_int _ _) => apply keeps_truediv_int
      | |- keeps _ _ (truediv _ _) => apply keeps_truediv
      | |- keeps _ _ (forM_ _ _) => apply keeps_forM_; intros
      | |- keeps _ _ (try_ _ _) => apply keeps_try
      | |- keeps _ _ (ret _) => apply keeps_ret
      | |- keeps _ _ raise => apply keeps_raise
      | |- keeps _ _ (ask _) => apply keeps_ask
      | |- keeps _ _ (modify _) => apply keeps_log
      | |- keeps _ _ (lift _) => apply keeps_lift
      | |- keeps _ _ import_psutil => apply keeps_import
      | |- keeps _ _ (bind _ _) => apply keeps_bind; [|intros]
      end ].

Lemma keeps_create_storage (d : loc) (K : string -> Prop) (sensors : loc)
    (ram_total_gb : F) :
  keeps d K (create_storage sensors ram_total_gb).
Proof. unfold create_storage. keeps_go. Qed.

Lemma keeps_create_sensors (d : loc) (K : string -> Prop) (sensors : loc) :
  keeps d K (create_sensors sensors).
Proof. unfold create_sensors. keeps_go. all: apply keeps_create_storage. Qed.

(** When the first queries answer, the generator stores [cpu_package]
    before anything can raise; what comes after keeps it. *)
Lemma create_sensors_spec (d : loc) (s : St F) :
  dict_inv b d (fun _ => False) s ->
  wp o (create_sensors d)
     (fun _ => dict_inv b d (fun k => answers o /\ k = "cpu_package"))
     (dict_inv b d (fun k => answers o /\ k = "cpu_package")) s.
Proof.
  intros HI. unfold create_sensors. wp_go.
  all: try (apply dict_inv_weaken with (K := fun _ : string => False);
            [ intros k0 ((Hp & Hc & Hv & Hf & Hn) & _);
              first [ congruence
                    | eapply Hc; eassumption | eapply Hv; eassumption
                    | eapply Hf; eassumption | eapply Hn; eassumption ]
            | eapply dict_inv_env; [|exact HI]; reflexivity ]).
  all: match goal with
       | |- wp _ (put ?d1 ?k ?r) _ _ ?st =>
           assert (HI1 : dict_inv b d (fun _ => False) st)
             by (eapply dict_inv_env; [|exact HI]; reflexivity);
           eapply wp_mono; [apply (put_spec d _ d1 k r st HI1)| |]
       end.
  all: cbv beta.
  - intros a s1 H1.
    eapply wp_mono.
    + match goal with
      | |- wp _ ?m _ _ _ =>
          assert (Hk : keeps d (fun k' => False \/ (d = d /\ k' = "cpu_package")) m)
            by (keeps_go; apply keeps_create_storage)
      end.
      exact (Hk s1 H1).
    + intros a' s2. apply dict_inv_weaken. intros k0 (_ & ->). auto.
    + intros s2. apply dict_inv_weaken. intros k0 (_ & ->). auto.
  - intros s1 (_ & Hne). congruence.
Qed.

Lemma load_map_run (l : loc) (m : dict loc) (s : St F) :
  map_at s l = Some m -> load_map l o s = (Ok m, s).
Proof.
  unfold map_at, load_map, load, bind, ret, raise.
  destruct (nth_error (heap s) l) as [[| |]|]; try discriminate.
  intros [= ->]. reflexivity.
Qed.

Lemma load_map_fail (l : loc) (s : St F) :
  map_at s l = None -> load_map l o s = (Raise, s).
Proof.
  unfold map_at, load_map, load, bind, ret, raise.
  destruct (nth_error (heap s) l) as [[| |]|]; try discriminate; reflexivity.
Qed.

(** The loop of [d.update(other)]: every key of the list is set in [d]. *)
Lemma setitem_loop (d' d : loc) (xs : dict loc) :
  forall (K : string -> Prop) (s : St F),
    dict_inv b d' K s ->
    (forall k l, In (k, l) xs -> is_sensor s l) ->
    wp o (forM_ xs (fun kv => setitem d (fst kv) (snd kv)))
       (fun _ => dict_inv b d' (fun k => K k \/ (d = d' /\ In k (keys xs))))
       (fun s' => dict_inv b d' K s' /\ d <> d') s.
Proof.
  induction xs as [|[k l] xs IH]; intros K s HI Hs.
  - simpl. apply wp_ret. revert HI. apply dict_inv_weaken.
    intros k [H|(_ & [])]. exact H.
  - simpl forM_. apply wp_bind. unfold wp at 1. simpl fst. simpl snd.
    destruct (map_at s d) as [m|] eqn:E.
    + rewrite (setitem_run _ _ _ _ _ E).
      pose proof (dict_inv_setitem d' K d k l m s HI E
                    (Hs k l (or_introl eq_refl))) as HI1.
      eapply wp_mono; [apply (IH _ _ HI1)| |].
      * intros k' l' Hin. apply is_sensor_setitem with (m := m); [exact E|].
        apply (Hs k' l'). right. exact Hin.
      * intros a s'. apply dict_inv_weaken.
        intros k0 [H|(Hd & [<-|Hin])].
        -- left. left. exact H.
        -- left. right. split; [exact Hd|reflexivity].
        -- right. split; assumption.
      * intros s' (H & Hne). split; [|exact Hne].
        revert H. apply dict_inv_weaken. auto.
    + rewrite (setitem_fail _ _ _ _ E). split; [exact HI|].
      intros ->. destruct HI as (_ & _ & m & Hm & _). congruence.
Qed.

Lemma update_spec (d' : loc) (K : string -> Prop) (d other : loc)
    (m : dict loc) (s : St F) :
  dict_inv b d' K s -> (b <= other)%nat -> map_at s other = Some m ->
  wp o (update d other)
     (fun _ => dict_inv b d' (fun k => K k \/ (d = d' /\ In k (keys m))))
     (fun s' => dict_inv b d' K s' /\ d <> d') s.
Proof.
  intros HI Hb Hm. unfold update. apply wp_bind. unfold wp at 1.
  rewrite (load_map_run _ _ _ Hm). apply setitem_loop; [exact HI|].
  intros k l Hin. destruct HI as (_ & Hwf & _).
  apply (Hwf other m k l Hb Hm Hin).
Qed.

Lemma keeps_update (d' : loc) (K : string -> Prop) (d other : loc) :
  (b <= other)%nat -> keeps d' K (update d other).
Proof.
  intros Hb s HI. destruct (map_at s other) as [m|] eqn:E.
  - eapply wp_mono; [apply (update_spec d' K d other m s HI Hb E)| |].
    + intros a s'. apply dict_inv_weaken. auto.
    + intros s' (H & _). exact H.
  - unfold update. apply wp_bind. unfold wp at 1.
    rewrite (load_map_fail _ _ E). exact HI.
Qed.

(** A detection method returns a new dictionary of new records. *)
Lemma call_spec (d' : loc) (K : string -> Prop) (method : Detector)
    (s : St F) :
  dict_inv b d' K s ->
  wp o (call method)
     (fun l s' => dict_inv b d' K s' /\ (b <= l)%nat) (dict_inv b d' K) s.
Proof.
  intros HI. unfold call. apply wp_bind, wp_ask. apply wp_bind, wp_lift.
  assert (HI1 : dict_inv b d' K (with_cursor (S (cursor s)) s)).
  { revert HI. apply dict_inv_env. reflexivity. }
  destruct (o_detect o method (cursor s)) as [records|]; [|exact HI1].
  apply wp_bind, wp_alloc. apply wp_bind.
  eapply wp_mono.
  - apply (keeps_forM_ d' K records); [intros; apply keeps_put|].
    apply dict_inv_alloc; [|exact HI1]. intros m [= <-]. reflexivity.
  - intros a s' H. apply wp_ret. split; [exact H|]. st_simpl.
    destruct HI as (Hlen & _). exact Hlen.
  - auto.
Qed.

(** One turn of the loop of the detection: it does not raise. *)
Lemma detect_one (d' : loc) (K : string -> Prop) (d0 : loc)
    (method : Detector) (s : St F) :
  dict_inv b d' K s ->
  wp o (try_ (bind (call method) (fun sensors =>
              bind (load_map sensors) (fun m =>
              match m with
              | [] => ret tt
              | _ => update d0 sensors
              end)))
             (ret tt))
     (fun _ => dict_inv b d' K) (fun _ => False) s.
Proof.
  intros HI. apply wp_try. apply wp_bind.
  eapply wp_mono; [apply (call_spec d' K method s HI)| |].
  - intros l s1 (HI1 & Hb). apply wp_bind.
    eapply wp_mono; [apply (keeps_load_map d' K l s1 HI1)| |].
    + intros m s2 HI2. destruct m as [|kv m].
      * exact HI2.
      * eapply wp_mono; [apply (keeps_update d' K d0 l Hb s2 HI2)| |].
        -- auto.
        -- intros s3 H. exact H.
    + intros s2 H. exact H.
  - intros s1 H. exact H.
Qed.

(** The synthetic generator returns a new dictionary; it holds
    [cpu_package] when the first queries answer. *)
Lemma create_simulated_spec (d' : loc) (K : string -> Prop) (s : St F) :
  dict_inv b d' K s ->
  wp o _create_simulated_sensors
     (fun l s' =>
        dict_inv b d' K s' /\ (b <= l)%nat
        /\ dict_inv b l (fun k => answers o /\ k = "cpu_package") s')
     (fun _ => False) s.
Proof.
  intros HI. unfold _create_simulated_sensors. apply wp_bind, wp_alloc.
  set (s1 := with_heap (heap s ++ [OMap []]) s).
  assert (HI1 : dict_inv b d' K s1).
  { apply dict_inv_alloc; [|exact HI]. intros m [= <-]. reflexivity. }
  assert (HI2 : dict_inv b (List.length (heap s)) (fun _ => False) s1).
  { destruct HI1 as (Hlen & Hwf & _). split; [exact Hlen|].
    split; [exact Hwf|]. exists []. split; [|intros k []].
    unfold map_at, s1. st_simpl.
    rewrite nth_error_app2 by lia. rewrite Nat.sub_diag. reflexivity. }
  apply wp_bind, wp_try.
  eapply wp_mono.
  - apply wp_conj.
    + apply (keeps_create_sensors d' K (List.length (heap s)) s1 HI1).
    + apply (create_sensors_spec (List.length (heap s)) s1 HI2).
  - intros a s2 (H1 & H2). apply wp_ret. split; [exact H1|].
    split; [|exact H2]. destruct HI as (Hlen & _). exact Hlen.
  - intros s2 (H1 & H2). apply wp_ret. apply wp_ret. split; [exact H1|].
    split; [|exact H2]. destruct HI as (Hlen & _). exact Hlen.
Qed.

End Detect.

Section DetectAll.
Context {F : Type} {PF : PyFloat F}.
Variable o : Oracle F.

(** [detect_all_sensors] returns: it stores and returns a new dictionary
    of sensor records, with five entries or more, or with [cpu_package]
    when the first queries of the generator answer. *)
Lemma detect_all_sensors_spec (s : St F) :
  exists r s' m,
    detect_all_sensors o s = (Ok r, s')
    /\ sensors s' = r /\ map_at s' r = Some m
    /\ sensors_ok s' = true
    /\ ((5 <= List.length m)%nat
        \/ (answers o -> In "cpu_package" (keys m))).
Proof.
  set (b := List.length (heap s)).
  set (K0 := fun _ : string => False).
  assert (H : wp o detect_all_sensors
                (fun r s' =>
                   exists m, sensors s' = r /\ map_at s' r = Some m
                             /\ sensors_ok s' = true
                             /\ ((5 <= List.length m)%nat
                                 \/ (answers o -> In "cpu_package" (keys m))))
                (fun _ => False) s).
  { unfold detect_all_sensors. apply wp_bind, wp_alloc. fold b.
    set (s1 := with_heap (heap s ++ [OMap []]) s).
    assert (HI1 : dict_inv b b K0 s1).
    { unfold dict_inv, s1, map_at. st_simpl. split.
      { rewrite length_app. unfold b. lia. }
      split.
      - intros d' m k l Hb. rewrite nth_error_app2 by exact Hb. fold b.
        destruct (d' - b)%nat as [|n]; simpl.
        + intros [= <-] [].
        + destruct n; discriminate.
      - exists []. split; [|intros k []].
        rewrite nth_error_app2 by (unfold b; lia).
        unfold b. rewrite Nat.sub_diag. reflexivity. }
    assert (Hend : forall (s4 : St F) (m4 : dict loc),
               dict_inv b b K0 s4 -> map_at s4 b = Some m4 ->
               ((5 <= List.length m4)%nat
                \/ (answers o -> In "cpu_package" (keys m4))) ->
               exists m, sensors (with_sensors b s4) = b
                         /\ map_at (with_sensors b s4) b = Some m
                         /\ sensors_ok (with_sensors b s4) = true
                         /\ ((5 <= List.length m)%nat
                             \/ (answers o -> In "cpu_package" (keys m)))).
    { intros s4 m4 (_ & Hwf & _) Hm4 Hkeys. exists m4.
      split; [reflexivity|]. split; [exact Hm4|]. split; [|exact Hkeys].
      apply sensors_ok_spec. exists m4. split; [exact Hm4|].
      intros k l Hin. apply (Hwf b m4 k l (le_n _) Hm4 Hin). }
    apply wp_bind.
    eapply wp_mono;
      [apply (wp_forM_ o detection_methods _ (dict_inv b b K0) (fun _ => False));
       [intros method s2 _ H2; apply detect_one; exact H2|exact HI1]
      | |auto].
    intros a s2 HI2. cbv beta. apply wp_bind.
    pose proof HI2 as (_ & _ & m0 & Hm0 & _).
    unfold wp at 1. rewrite (load_map_run o _ _ _ Hm0).
    apply wp_bind. destruct (List.length m0 <? 5)%nat eqn:E5.
    - apply wp_bind.
      eapply wp_mono; [apply (create_simulated_spec o b b K0 s2 HI2)| |auto].
      intros l s3 (H3 & Hbl & (_ & _ & m1 & Hm1 & Hk1)).
      eapply wp_mono; [apply (update_spec o b b K0 b l m1 s3 H3 Hbl Hm1)| |].
      + intros a' s4 H4. apply wp_bind, wp_modify, wp_ret.
        pose proof H4 as (_ & _ & m4 & Hm4 & Hk4).
        assert (H4' : dict_inv b b K0 s4).
        { revert H4. apply dict_inv_weaken. intros k []. }
        apply (Hend s4 m4 H4' Hm4). right. intros Hans.
        apply Hk4. right. split; [reflexivity|].
        apply Hk1. split; [exact Hans|reflexivity].
      + intros s4 (_ & Hne). apply Hne. reflexivity.
    - apply wp_ret. apply wp_bind, wp_modify, wp_ret.
      apply (Hend s2 m0 HI2 Hm0). left.
      apply Nat.ltb_ge in E5. exact E5. }
  destruct (wp_ok o _ _ _ H) as (r & s' & Hrun & m & H1 & H2 & H3 & H4).
  exists r, s', m. auto.
Qed.

(** C2, amended.  When [psutil] can be imported and the queries that open
    the synthetic generator answer (the CPU load, the memory, the frequency
    and the two counts of cores), [detect_all_sensors] returns, whatever the
    detection methods do (raise, find nothing or find sensors): it stores
    and returns a dictionary that is not empty, whose entries are sensor
    records, with five sensors or more, or with the synthetic
    [cpu_package]. *)
Theorem detect_all_sensors_nonempty (s : St F) :
  answers o ->
  exists r s' m,
    detect_all_sensors o s = (Ok r, s')
    /\ sensors s' = r /\ map_at s' r = Some m
    /\ m <> []
    /\ sensors_ok s' = true
    /\ ((5 <= List.length m)%nat \/ In "cpu_package" (keys m)).
Proof.
  intros Hans.
  destruct (detect_all_sensors_spec s)
    as (r & s' & m & Hrun & Hs & Hm & Hok & Hkeys).
  exists r, s', m. repeat (split; [assumption|]).
  assert (Hk : (5 <= List.length m)%nat \/ In "cpu_package" (keys m)).
  { destruct Hkeys as [H|H]; [left; exact H|right; exact (H Hans)]. }
  split; [|split; assumption].
  intros ->. destruct Hk as [H|H]; simpl in H; [lia|contradiction].
Qed.

End DetectAll.

Lemma steady_answers : answers steady64.
Proof. repeat split; intros c; discriminate. Qed.

Lemma detect_all_sensors_nonempty_witness :
  exists r s' m,
    detect_all_sensors steady64 blank64 = (Ok r, s')
    /\ sensors s' = r /\ map_at s' r = Some m
    /\ m <> []
    /\ sensors_ok s' = true
    /\ ((5 <= List.length m)%nat \/ In "cpu_package" (keys m)).
Proof.
  exact (detect_all_sensors_nonempty steady64 blank64 steady_answers).
Defined.


(** * More of the engine *)

(** ** Invariants of the detection

    [pres I m]: the program [m] keeps [I], whether it returns or raises. *)

Section Pres.
Context {F : Type} {PF : PyFloat F}.
Variable o : Oracle F.
Variable I : St F -> Prop.

Definition pres {A} (m : M F A) : Prop :=
  forall s, I s -> wp o m (fun _ => I) I s.

Lemma pres_ret {A} (a : A) : pres (ret a).
Proof. intros s H. exact H. Qed.

Lemma pres_raise {A} : pres (raise : M F A).
Proof. intros s H. exact H. Qed.

Lemma pres_bind {A B} (m : M F A) (k : A -> M F B) :
  pres m -> (forall a, pres (k a)) -> pres (bind m k).
Proof.
  intros Hm Hk s H. apply wp_bind.
  eapply wp_mono; [apply (Hm s H)| |auto].
  intros a s' H'. apply (Hk a s' H').
Qed.

Lemma pres_try {A} (m h : M F A) : pres m -> pres h -> pres (try_ m h).
Proof.
  intros Hm Hh s H. apply wp_try.
  eapply wp_mono; [apply (Hm s H)|auto|].
  intros s' H'. apply (Hh s' H').
Qed.

Lemma pres_lift {A} (x : option A) : pres (lift x).
Proof. intros s H. destruct x; exact H. Qed.

Lemma pres_import : pres import_psutil.
Proof.
  intros s H. apply wp_import_psutil. destruct (o_psutil o); exact H.
Qed.

Lemma pres_gets {A} (f : St F -> A) : pres (gets f).
Proof. intros s H. exact H. Qed.

Lemma pres_load (l : loc) : pres (load l).
Proof.
  intros s H. unfold wp, load. destruct (nth_error (heap s) l); exact H.
Qed.

Lemma pres_load_map (l : loc) : pres (load_map l).
Proof.
  unfold load_map. apply pres_bind; [apply pres_load|].
  intros [| |]; first [apply pres_ret|apply pres_raise].
Qed.

Lemma pres_load_fan (l : loc) : pres (load_fan l).
Proof.
  unfold load_fan. apply pres_bind; [apply pres_load|].
  intros [| |]; first [apply pres_ret|apply pres_raise].
Qed.

Lemma pres_load_sensor (l : loc) : pres (load_sensor l).
Proof.
  unfold load_sensor. apply pres_bind; [apply pres_load|].
  intros [| |]; first [apply pres_ret|apply pres_raise].
Qed.

Lemma pres_getitem (d : loc) (k : string) : pres (getitem d k).
Proof.
  unfold getitem. apply pres_bind; [apply pres_load_map|].
  intros m. apply pres_lift.
Qed.

Lemma pres_float_ (n : Z) : pres (float_ n).
Proof. apply pres_lift. Qed.

Lemma pres_int_ (x : F) : pres (int_ x).
Proof. apply pres_lift. Qed.

Lemma pres_truediv_int (x y : Z) : pres (truediv_int x y).
Proof.
  unfold truediv_int. destruct (y =? 0)%Z; [apply pres_raise|].
  apply pres_bind; [apply pres_float_|]. intros x'.
  apply pres_bind; [apply pres_float_|]. intros y'. apply pres_ret.
Qed.

Lemma pres_truediv (x y : F) : pres (truediv x y).
Proof.
  unfold truediv. destruct (fzero y); [apply pres_raise|apply pres_ret].
Qed.

Lemma pres_forM_ {A} (xs : list A) (body : A -> M F unit) :
  (forall x, pres (body x)) -> pres (forM_ xs body).
Proof.
  intros Hbody s H. apply (wp_forM_ o xs body I I); [|exact H].
  intros x s' _ H'. apply (Hbody x s' H').
Qed.

(** A loop of handled turns does not raise. *)
Lemma wp_forM_try {A} (xs : list A) (body : A -> M F unit) (s : St F) :
  (forall x, pres (body x)) -> I s ->
  wp o (forM_ xs (fun x => try_ (body x) (ret tt)))
     (fun _ => I) (fun _ => False) s.
Proof.
  intros Hbody H.
  apply (wp_forM_ o xs _ I (fun _ => False)); [|exact H].
  intros x s' _ H'. apply wp_try.
  eapply wp_mono; [apply (Hbody x s' H')|auto|].
  intros s2 H2. exact H2.
Qed.

(** What depends on the clock, the draws and the log only. *)
Hypothesis I_cursor : forall s c, I s -> I (with_cursor c s).
Hypothesis I_log : forall s c, I s -> I (with_os_calls c s).

Lemma pres_ask {A} (f : Oracle F -> nat -> A) : pres (ask f).
Proof. intros s H. apply wp_ask. apply I_cursor. exact H. Qed.

Lemma pres_log (c : OsCall) :
  pres (modify (fun s => with_os_calls (c :: os_calls s) s)).
Proof. intros s H. apply wp_modify. apply I_log. exact H. Qed.

Lemma pres_os_call {A} (c : OsCall) (f : Oracle F -> nat -> option A) :
  pres (os_call c f).
Proof.
  unfold os_call. apply pres_bind; [apply pres_log|].
  intros _. apply pres_bind; [apply pres_ask|]. intros x. apply pres_lift.
Qed.

Lemma pres_uniform (x y : F) : pres (uniform x y).
Proof.
  unfold uniform. apply pres_bind; [apply pres_ask|].
  intros r. apply pres_ret.
Qed.

(** The synthetic generator, on a dictionary from [n] on, for records that
    satisfy [C]. *)
Variable n : nat.
Variable C : Sensor F -> Prop.

Hypothesis I_put : forall d k r, (n <= d)%nat -> C r -> pres (put d k r).
Hypothesis C_simulated : forall name type current method,
  contains "Simulated" method = true -> C (simulated name type current method).

Ltac pres_go :=
  repeat first
    [ progress cbv beta zeta
    | match goal with
      | |- pres (if ?c then _ else _) => destruct c
      | |- pres (match ?x with _ => _ end) => destruct x
      | |- pres (put _ _ _) =>
          apply I_put; [assumption|apply C_simulated; reflexivity]
      | |- pres (os_call _ _) => apply pres_os_call
      | |- pres (uniform _ _) => apply pres_uniform
      | |- pres (float_ _) => apply pres_float_
      | |- pres (int_ _) => apply pres_int_
      | |- pres (truediv_int _ _) => apply pres_truediv_int
      | |- pres (truediv _ _) => apply pres_truediv
      | |- pres (forM_ _ _) => apply pres_forM_; intros
      | |- pres (try_ _ _) => apply pres_try
      | |- pres (ret _) => apply pres_ret
      | |- pres raise => apply pres_raise
      | |- pres (ask _) => apply pres_ask
      | |- pres (lift _) => apply pres_lift
      | |- pres import_psutil => apply pres_import
      | |- pres (bind _ _) => apply pres_bind; [|intros]
      end ].

Lemma pres_create_storage (d : loc) (ram_total_gb : F) :
  (n <= d)%nat -> pres (create_storage d ram_total_gb).
Proof. intros Hd. unfold create_storage. pres_go. Qed.

Lemma pres_create_sensors (d : loc) :
  (n <= d)%nat -> pres (create_sensors d).
Proof.
  intros Hd. unfold create_sensors. pres_go.
  all: apply pres_create_storage; assumption.
Qed.

Hypothesis I_len : forall s, I s -> (n <= List.length (heap s))%nat.
Hypothesis I_alloc_map :
  forall s, I s -> I (with_heap (heap s ++ [OMap []]) s).

(** [_create_simulated_sensors] does not raise. *)
Lemma pres_create_simulated (s : St F) :
  I s ->
  wp o _create_simulated_sensors
     (fun l s' => I s' /\ (n <= l)%nat) (fun _ => False) s.
Proof.
  intros H. unfold _create_simulated_sensors. apply wp_bind, wp_alloc.
  apply wp_bind, wp_try.
  eapply wp_mono.
  - apply pres_create_sensors; [apply (I_len s H)|apply I_alloc_map; exact H].
  - intros a s' H'. apply wp_ret. split; [exact H'|apply (I_len s H)].
  - intros s' H'. apply wp_ret. apply wp_ret.
    split; [exact H'|apply (I_len s H)].
Qed.

(** The detection chain, when the records of the detection methods
    satisfy [C]. *)
Hypothesis C_detected : forall method c records k r,
  o_detect o method c = Some records -> In (k, r) records -> C r.
Hypothesis I_update : forall d other,
  (n <= d)%nat -> (n <= other)%nat -> pres (update d other).
Hypothesis I_sensors : forall s d, I s -> I (with_sensors d s).

Lemma pres_call (method : Detector) (s : St F) :
  I s -> wp o (call method) (fun l s' => I s' /\ (n <= l)%nat) I s.
Proof.
  intros H. unfold call. apply wp_bind, wp_ask. apply wp_bind, wp_lift.
  destruct (o_detect o method (cursor s)) as [records|] eqn:E;
    [|apply I_cursor; exact H].
  apply wp_bind, wp_alloc. apply wp_bind.
  assert (Hn : (n <= List.length (heap s))%nat) by apply (I_len s H).
  eapply wp_mono.
  - apply (wp_forM_ o records _ I I).
    + intros [k r] s' Hin H'. apply I_put; [exact Hn| |exact H'].
      apply (C_detected method (cursor s) records k r E Hin).
    + apply I_alloc_map. apply I_cursor. exact H.
  - intros a s' H'. apply wp_ret. split; [exact H'|exact Hn].
  - auto.
Qed.

Lemma pres_detect_all_sensors (s : St F) :
  I s ->
  wp o detect_all_sensors
     (fun l s' => I s' /\ l = List.length (heap s) /\ sensors s' = l) I s.
Proof.
  intros H. unfold detect_all_sensors. apply wp_bind, wp_alloc.
  assert (Hn : (n <= List.length (heap s))%nat) by apply (I_len s H).
  apply wp_bind.
  eapply wp_mono;
    [apply (wp_forM_try detection_methods
              (fun method =>
                 bind (call method) (fun sensors =>
                 bind (load_map sensors) (fun m =>
                 match m with
                 | [] => ret tt
                 | _ => update (List.length (heap s)) sensors
                 end))))
    | |intros s1 []].
  - intros method s1 H1. apply wp_bind.
    eapply wp_mono; [apply (pres_call method s1 H1)| |auto].
    intros l s2 (H2 & Hl). apply wp_bind.
    eapply wp_mono; [apply (pres_load_map l s2 H2)| |auto].
    intros m s3 H3. destruct m as [|kv m]; [exact H3|].
    apply (I_update _ _ Hn Hl s3 H3).
  - apply I_alloc_map. exact H.
  - intros a s1 H1. cbv beta. apply wp_bind.
    eapply wp_mono; [apply (pres_load_map _ s1 H1)| |auto].
    intros m s2 H2. apply wp_bind.
    assert (Hend : forall s3, I s3 ->
              wp o (bind (modify (with_sensors (List.length (heap s))))
                         (fun _ => ret (List.length (heap s))))
                 (fun l s' => I s' /\ l = List.length (heap s)
                              /\ sensors s' = l) I s3).
    { intros s3 H3. apply wp_bind, wp_modify, wp_ret.
      split; [apply I_sensors; exact H3|]. split; reflexivity. }
    destruct (List.length m <? 5)%nat.
    + apply wp_bind.
      eapply wp_mono; [apply (pres_create_simulated s2 H2)| |intros s3 []].
      intros l s3 (H3 & Hl).
      eapply wp_mono; [apply (I_update _ _ Hn Hl s3 H3)| |auto].
      intros a' s4 H4. apply (Hend s4 H4).
    + apply wp_ret. apply (Hend s2 H2).
Qed.

End Pres.

(** ** What the detection leaves as it is *)

Section Frame.
Context {F : Type} {PF : PyFloat F}.
Variable o : Oracle F.
Variable s0 : St F.

Lemma frame_refl : frame_inv s0 s0.
Proof. unfold frame_inv. repeat split; auto. Qed.

Lemma frame_env (s s' : St F) :
  heap s' = heap s -> fan_status s' = fan_status s ->
  last_cpu_check s' = last_cpu_check s ->
  last_memory_check s' = last_memory_check s ->
  cached_cpu_percent s' = cached_cpu_percent s ->
  cached_memory_percent s' = cached_memory_percent s ->
  cache_duration s' = cache_duration s ->
  frame_inv s0 s -> frame_inv s0 s'.
Proof.
  unfold frame_inv. intros -> -> -> -> -> -> ->. auto.
Qed.

Lemma frame_alloc (x : Obj F) (s : St F) :
  frame_inv s0 s -> frame_inv s0 (with_heap (heap s ++ [x]) s).
Proof.
  unfold frame_inv. st_simpl. intros (Hpre & Hlen & Hrest).
  split; [|split; [|exact Hrest]].
  - intros l y Hl. apply nth_error_prefix. apply Hpre. exact Hl.
  - rewrite length_app. lia.
Qed.

Lemma frame_store (d : loc) (x : Obj F) (s : St F) :
  (List.length (heap s0) <= d)%nat ->
  frame_inv s0 s -> frame_inv s0 (with_heap (list_set d x (heap s)) s).
Proof.
  unfold frame_inv. st_simpl. intros Hd (Hpre & Hlen & Hrest).
  split; [|split; [|exact Hrest]].
  - intros l y Hl. rewrite nth_error_list_set_neq; [apply Hpre; exact Hl|].
    intros <-. apply (proj2 (nth_error_None (heap s0) d)) in Hd. congruence.
  - rewrite length_list_set. exact Hlen.
Qed.

Lemma frame_setitem (d : loc) (k : string) (l : loc) :
  (List.length (heap s0) <= d)%nat -> pres o (frame_inv s0) (setitem d k l).
Proof.
  intros Hd s H. unfold wp. destruct (map_at s d) as [m|] eqn:E.
  - rewrite (setitem_run o _ _ _ _ _ E). apply frame_store; assumption.
  - rewrite (setitem_fail o _ _ _ _ E). exact H.
Qed.

Lemma frame_put (d : loc) (k : string) (r : Sensor F) :
  (List.length (heap s0) <= d)%nat -> True -> pres o (frame_inv s0) (put d k r).
Proof.
  intros Hd _. unfold put. apply pres_bind.
  - intros s H. apply wp_alloc. apply frame_alloc. exact H.
  - intros l. apply frame_setitem. exact Hd.
Qed.

Lemma frame_update (d other : loc) :
  (List.length (heap s0) <= d)%nat -> (List.length (heap s0) <= other)%nat ->
  pres o (frame_inv s0) (update d other).
Proof.
  intros Hd _. unfold update. apply pres_bind; [apply pres_load_map|].
  intros m. apply pres_forM_. intros kv. apply frame_setitem. exact Hd.
Qed.

(** The detection: every object is as it was, and so are the fans and the
    cache; the dictionary it returns is a new object. *)
Lemma detect_frame (s : St F) :
  frame_inv s0 s ->
  wp o detect_all_sensors
     (fun l s' => frame_inv s0 s' /\ l = List.length (heap s) /\ sensors s' = l)
     (frame_inv s0) s.
Proof.
  apply (pres_detect_all_sensors o (frame_inv s0)) with
    (n := List.length (heap s0)) (C := fun _ => True).
  - intros s1 c. apply frame_env; reflexivity.
  - intros s1 c. apply frame_env; reflexivity.
  - intros d k r. apply frame_put.
  - auto.
  - intros s1 (_ & Hlen & _). exact Hlen.
  - intros s1. apply frame_alloc.
  - auto.
  - intros d other. apply frame_update.
  - intros s1 d. apply frame_env; reflexivity.
Qed.

End Frame.

Section DetectFrame.
Context {F : Type} {PF : PyFloat F}.
Variable o : Oracle F.

(** X2.  [detect_all_sensors] changes no object that was there: the dictionary
    it stores in [self.sensors] and returns is a new object, whatever the
    detection methods and the system do, so that a dictionary that an
    earlier detection returned is as it was; the fan dictionary and the
    cache are as they were. *)
Theorem detect_all_sensors_new_dictionary (s : St F) :
  exists r s',
    detect_all_sensors o s = (Ok r, s')
    /\ sensors s' = r
    /\ nth_error (heap s) r = None
    /\ (forall l x, nth_error (heap s) l = Some x ->
                    nth_error (heap s') l = Some x)
    /\ fan_status s' = fan_status s
    /\ last_cpu_check s' = last_cpu_check s
    /\ last_memory_check s' = last_memory_check s
    /\ cached_cpu_percent s' = cached_cpu_percent s
    /\ cached_memory_percent s' = cached_memory_percent s
    /\ cache_duration s' = cache_duration s.
Proof.
  destruct (detect_all_sensors_spec o s) as (r & s' & m & Hrun & _).
  pose proof (detect_frame o s s (frame_refl s)) as H.
  unfold wp in H. rewrite Hrun in H.
  destruct H as ((Hpre & _ & Hrest) & -> & Hs).
  exists (List.length (heap s)), s'. split; [exact Hrun|].
  split; [exact Hs|]. split; [apply nth_error_None; lia|].
  split; [exact Hpre|exact Hrest].
Qed.

End DetectFrame.

(** ** The constructor *)

Section Constructor.
Context {F : Type} {PF : PyFloat F}.
Variable o : Oracle F.

(** [_initialize_fan_status] allocates the five fans and their dictionary
    at the end of the heap. *)
Lemma initialize_fan_status_run (s : St F) :
  exists s',
    _initialize_fan_status o s = (Ok tt, s')
    /\ heap s'
       = (heap s ++ map (fun kf => OFan (snd kf)) default_fans
          ++ [OMap (combine (keys default_fans)
                            (seq (List.length (heap s)) 5))])%list
    /\ fan_status s' = (List.length (heap s) + 5)%nat
    /\ sensors s' = sensors s
    /\ last_cpu_check s' = last_cpu_check s
    /\ last_memory_check s' = last_memory_check s
    /\ cached_cpu_percent s' = cached_cpu_percent s
    /\ cached_memory_percent s' = cached_memory_percent s
    /\ cache_duration s' = cache_duration s.
Proof.
  eexists. split; [unfold _initialize_fan_status; cbv [bind alloc modify];
                   reflexivity|].
  st_simpl. rewrite !length_app. simpl List.length.
  rewrite <- !app_assoc. simpl.
  replace (List.length (heap s) + 1 + 1 + 1 + 1 + 1)%nat
    with (List.length (heap s) + 5)%nat by lia.
  replace (List.length (heap s) + 1 + 1 + 1 + 1)%nat
    with (S (S (S (S (List.length (heap s)))))) by lia.
  replace (List.length (heap s) + 1 + 1 + 1)%nat
    with (S (S (S (List.length (heap s))))) by lia.
  replace (List.length (heap s) + 1 + 1)%nat
    with (S (S (List.length (heap s)))) by lia.
  replace (List.length (heap s) + 1)%nat
    with (S (List.length (heap s))) by lia.
  repeat split.
Qed.

(** The fans that the dictionary of such a state gives. *)
Lemma initialized_fan_items (s s' : St F) :
  heap s'
  = (heap s ++ map (fun kf => OFan (snd kf)) default_fans
     ++ [OMap (combine (keys default_fans)
                       (seq (List.length (heap s)) 5))])%list ->
  fan_status s' = (List.length (heap s) + 5)%nat ->
  fan_items s' = Some (map (fun kf => (fst kf, Some (snd kf))) default_fans).
Proof.
  intros Hh Hf. unfold fan_items, map_at, fan_at. rewrite Hh, Hf.
  rewrite nth_error_app2 by lia.
  replace (List.length (heap s) + 5 - List.length (heap s))%nat with 5%nat
    by lia.
  simpl.
  assert (Hn : forall i, (i < 5)%nat ->
             nth_error (heap s ++ map (fun kf => OFan (snd kf)) default_fans
                        ++ [OMap (combine (keys default_fans)
                                     (seq (List.length (heap s)) 5))])
                       (i + List.length (heap s))
             = nth_error (map (fun kf => OFan (snd kf)) default_fans
                          ++ [OMap (combine (keys default_fans)
                                       (seq (List.length (heap s)) 5))]) i).
  { intros i Hi. rewrite nth_error_app2 by lia. f_equal. lia. }
  pose proof (Hn 0%nat ltac:(lia)) as H0. pose proof (Hn 1%nat ltac:(lia)) as H1.
  pose proof (Hn 2%nat ltac:(lia)) as H2. pose proof (Hn 3%nat ltac:(lia)) as H3.
  pose proof (Hn 4%nat ltac:(lia)) as H4.
  simpl in H0, H1, H2, H3, H4.
  rewrite H0, H1, H2, H3, H4. reflexivity.
Qed.

(** After the constructor the engine holds sensor records and the fans of
    the model. *)
Lemma init_ok (s : St F) :
  exists s',
    __init__ o s = (Ok tt, s')
    /\ sensors_ok s' = true
    /\ fan_items s'
       = Some (map (fun kf => (fst kf, Some (snd kf))) default_fans).
Proof.
  unfold __init__. cbv [bind alloc modify]. st_simpl.
  match goal with
  | |- context [detect_all_sensors o ?st] => set (s1 := st)
  end.
  destruct (detect_all_sensors_spec o s1)
    as (r & s2 & m & Hrun & Hs2 & Hm & Hok & _).
  rewrite Hrun.
  destruct (initialize_fan_status_run s2)
    as (s3 & Hrun3 & Hh3 & Hf3 & Hs3 & _).
  exists s3. split; [exact Hrun3|].
  split; [|apply (initialized_fan_items s2 s3 Hh3 Hf3)].
  apply (sensors_ok_kept s2 s3 Hok Hs3).
  intros l x Hl. rewrite Hh3. apply nth_error_prefix. exact Hl.
Qed.

(** X1.  The constructor returns, whatever the system and the detection methods
    do, and changes no object that was there; the engine it builds holds a
    dictionary of sensor records, the five fans of the model at their
    defaults, and an empty cache: both entries at 0, last checked at time 0,
    with a time to live of 2 seconds. *)
Theorem constructor_builds_engine (s : St F) :
  exists s',
    __init__ o s = (Ok tt, s')
    /\ sensors_ok s' = true
    /\ fan_items s'
       = Some (map (fun kf => (fst kf, Some (snd kf))) default_fans)
    /\ cached_cpu_percent s' = flit 0 /\ cached_memory_percent s' = flit 0
    /\ last_cpu_check s' = flit 0 /\ last_memory_check s' = flit 0
    /\ cache_duration s' = flit 2
    /\ (forall l x, nth_error (heap s) l = Some x ->
                    nth_error (heap s') l = Some x).
Proof.
  unfold __init__. cbv [bind alloc modify]. st_simpl.
  match goal with
  | |- context [detect_all_sensors o ?st] => set (s1 := st)
  end.
  destruct (detect_all_sensors_spec o s1)
    as (r & s2 & m & Hrun & Hs2 & Hm & Hok & _).
  pose proof (detect_frame o s1 s1 (frame_refl s1)) as Hfr.
  unfold wp in Hfr. rewrite Hrun in Hfr.
  destruct Hfr as ((Hpre & _ & _ & Hlc & Hlm & Hcc & Hcm & Hd) & _).
  rewrite Hrun.
  destruct (initialize_fan_status_run s2)
    as (s3 & Hrun3 & Hh3 & Hf3 & Hs3 & Hlc3 & Hlm3 & Hcc3 & Hcm3 & Hd3).
  exists s3. split; [exact Hrun3|].
  assert (Hpre3 : forall l x, nth_error (heap s2) l = Some x ->
                              nth_error (heap s3) l = Some x).
  { intros l x Hl. rewrite Hh3. apply nth_error_prefix. exact Hl. }
  split; [apply (sensors_ok_kept s2 s3 Hok Hs3 Hpre3)|].
  split; [apply (initialized_fan_items s2 s3 Hh3 Hf3)|].
  split; [rewrite Hcc3, Hcc; reflexivity|].
  split; [rewrite Hcm3, Hcm; reflexivity|].
  split; [rewrite Hlc3, Hlc; reflexivity|].
  split; [rewrite Hlm3, Hlm; reflexivity|].
  split; [rewrite Hd3, Hd; reflexivity|].
  intros l x Hl. apply Hpre3, Hpre. unfold s1. st_simpl.
  apply nth_error_prefix, nth_error_prefix. exact Hl.
Qed.

End Constructor.

(** ** The synthetic generator *)

Section Generator.
Context {F : Type} {PF : PyFloat F}.
Variable o : Oracle F.
Variable b : nat.

Lemma tag_env (s s' : St F) : heap s' = heap s -> tag_inv b s -> tag_inv b s'.
Proof.
  unfold tag_inv, map_at, sensor_at. intros ->. auto.
Qed.

Lemma tag_alloc (x : Obj F) (s : St F) :
  (forall m, x = OMap m -> m = []) ->
  tag_inv b s -> tag_inv b (with_heap (heap s ++ [x]) s).
Proof.
  intros Hx (Hlen & Hwf). unfold tag_inv. st_simpl. split.
  { rewrite length_app. lia. }
  intros d m k l Hb Hm Hin. unfold map_at in Hm. st_simpl.
  destruct (Nat.lt_ge_cases d (List.length (heap s))) as [Hlt|Hge].
  - rewrite nth_error_app1 in Hm by exact Hlt.
    destruct (Hwf d m k l Hb Hm Hin) as (Hl & r & Hr & Ht).
    split; [exact Hl|]. exists r. split; [|exact Ht].
    unfold sensor_at in *. st_simpl.
    destruct (nth_error (heap s) l) as [y|] eqn:E; [|discriminate].
    rewrite (nth_error_prefix _ _ _ _ E). exact Hr.
  - rewrite nth_error_app2 in Hm by exact Hge.
    destruct (d - List.length (heap s))%nat as [|n]; simpl in Hm.
    + destruct x as [m0| |]; try discriminate.
      injection Hm as <-. rewrite (Hx m0 eq_refl) in Hin. destruct Hin.
    + destruct n; discriminate.
Qed.

Lemma tag_setitem (d : loc) (k : string) (l : loc) (m : dict loc) (r : Sensor F)
    (s : St F) :
  tag_inv b s -> map_at s d = Some m ->
  (b <= l)%nat -> sensor_at s l = Some r -> tagged r ->
  tag_inv b (with_heap (list_set d (OMap (dict_set k l m)) (heap s)) s).
Proof.
  intros (Hlen & Hwf) Hm Hl Hr Ht.
  assert (Hd : nth_error (heap s) d = Some (OMap m)).
  { unfold map_at in Hm.
    destruct (nth_error (heap s) d) as [[| |]|]; congruence. }
  assert (Hkept : forall l' r', sensor_at s l' = Some r' ->
            sensor_at (with_heap (list_set d (OMap (dict_set k l m)) (heap s)) s) l'
            = Some r').
  { intros l' r' H'. unfold sensor_at in *. st_simpl.
    rewrite nth_error_list_set_neq; [exact H'|].
    intros <-. rewrite Hd in H'. discriminate. }
  unfold tag_inv. st_simpl. split.
  { rewrite length_list_set. exact Hlen. }
  intros d2 m2 k2 l2 Hb Hm2 Hin. unfold map_at in Hm2. st_simpl.
  assert (Hold : forall m', map_at s d2 = Some m' -> In (k2, l2) m' ->
            (b <= l2)%nat
            /\ exists r', sensor_at
                 (with_heap (list_set d (OMap (dict_set k l m)) (heap s)) s) l2
                 = Some r' /\ tagged r').
  { intros m' Hm' Hin'.
    destruct (Hwf d2 m' k2 l2 Hb Hm' Hin') as (Hl2 & r' & Hr' & Ht').
    split; [exact Hl2|]. exists r'. split; [apply Hkept; exact Hr'|exact Ht']. }
  destruct (Nat.eq_dec d d2) as [<-|Hne].
  - rewrite (nth_error_list_set_eq _ _ _ _ Hd) in Hm2. injection Hm2 as <-.
    destruct (dict_set_In _ _ _ _ _ Hin) as [(_ & ->)|Hin'].
    + split; [exact Hl|]. exists r. split; [apply Hkept; exact Hr|exact Ht].
    + apply (Hold m Hm Hin').
  - rewrite (nth_error_list_set_neq _ _ _ _ Hne) in Hm2.
    apply (Hold m2); [exact Hm2|exact Hin].
Qed.

Lemma tag_put (d : loc) (k : string) (r : Sensor F) :
  (b <= d)%nat -> tagged r -> pres o (tag_inv b) (put d k r).
Proof.
  intros Hd Ht s H. unfold put. apply wp_bind, wp_alloc.
  pose proof (tag_alloc (OSensor r) s ltac:(intros m0; discriminate) H) as H1.
  set (s1 := with_heap (heap s ++ [OSensor r]) s) in *.
  unfold wp. destruct (map_at s1 d) as [m|] eqn:E.
  - rewrite (setitem_run o _ _ _ _ _ E).
    apply (tag_setitem d k _ m r s1 H1 E).
    + destruct H as (Hlen & _). exact Hlen.
    + unfold sensor_at, s1. st_simpl.
      rewrite nth_error_app2 by lia. rewrite Nat.sub_diag. reflexivity.
    + exact Ht.
  - rewrite (setitem_fail o _ _ _ _ E). exact H1.
Qed.

Lemma tag_create_sensors (d : loc) :
  (b <= d)%nat -> pres o (tag_inv b) (create_sensors d).
Proof.
  apply (pres_create_sensors o (tag_inv b)) with (C := tagged).
  - intros s c. apply tag_env. reflexivity.
  - intros s c. apply tag_env. reflexivity.
  - intros d' k r. apply tag_put.
  - intros name type current method H. repeat split. exact H.
Qed.

End Generator.

Section GeneratorRun.
Context {F : Type} {PF : PyFloat F}.
Variable o : Oracle F.

(** X3.  [_create_simulated_sensors] returns, whatever the system does: a new
    dictionary, whose every entry is a new record that is tagged as
    simulated (its ['method'] contains ["Simulated"], which is how the
    refresh tells a synthetic sensor from a detected one), in degrees
    Celsius, with no other key than the five of the generator; no object
    that was there is changed, nor the fans or the cache. *)
Theorem create_simulated_sensors_tagged (s : St F) :
  exists r s' m,
    _create_simulated_sensors o s = (Ok r, s')
    /\ r = List.length (heap s) /\ map_at s' r = Some m
    /\ (forall k l, In (k, l) m ->
          (List.length (heap s) < l)%nat
          /\ exists rec, sensor_at s' l = Some rec
                         /\ contains "Simulated" (s_method rec) = true
                         /\ s_unit rec = "°C" /\ s_other rec = [])
    /\ frame_inv s s'.
Proof.
  set (b := List.length (heap s)).
  set (s1 := with_heap (heap s ++ [OMap []]) s).
  assert (HD : dict_inv b b (fun _ => False) s1).
  { unfold dict_inv, s1, map_at. st_simpl. split.
    { rewrite length_app. unfold b. lia. }
    split.
    - intros d' m k l Hb. rewrite nth_error_app2 by exact Hb. fold b.
      destruct (d' - b)%nat as [|n]; simpl.
      + intros [= <-] [].
      + destruct n; discriminate.
    - exists []. split; [|intros k []].
      rewrite nth_error_app2 by (unfold b; lia).
      unfold b. rewrite Nat.sub_diag. reflexivity. }
  assert (HT : tag_inv b s1).
  { apply tag_alloc; [intros m [= <-]; reflexivity|].
    split; [unfold b; lia|].
    intros d m k l Hb Hm. unfold map_at in Hm.
    apply (proj2 (nth_error_None (heap s) d)) in Hb. rewrite Hb in Hm.
    discriminate. }
  assert (HF : frame_inv s s1) by (apply frame_alloc, frame_refl).
  assert (H : wp o _create_simulated_sensors
                (fun r s' => r = b /\ dict_inv b b (fun _ => False) s'
                             /\ tag_inv b s' /\ frame_inv s s')
                (fun _ => False) s).
  { unfold _create_simulated_sensors. apply wp_bind, wp_alloc. fold b s1.
    apply wp_bind, wp_try.
    eapply wp_mono.
    - apply wp_conj; [apply (keeps_create_sensors o b b _ b s1 HD)|].
      apply wp_conj; [apply (tag_create_sensors o b b (le_n _) s1 HT)|].
      apply (pres_create_sensors o (frame_inv s)) with
        (n := b) (C := fun _ => True) (d := b) (s := s1);
        [intros s2 c; apply frame_env; reflexivity
        |intros s2 c; apply frame_env; reflexivity
        |intros d k r; apply frame_put
        |auto|apply le_n|exact HF].
    - intros a s2 (H1 & H2 & H3). apply wp_ret. auto.
    - intros s2 (H1 & H2 & H3). apply wp_ret. apply wp_ret. auto. }
  destruct (wp_ok o _ _ _ H)
    as (r & s' & Hrun & -> & (_ & _ & m & Hm & _) & (_ & Htag) & Hfr).
  exists b, s', m. split; [exact Hrun|]. split; [reflexivity|].
  split; [exact Hm|]. split; [|exact Hfr].
  intros k l Hin.
  destruct (Htag b m k l (le_n _) Hm Hin) as (Hl & rec & Hrec & Ht1 & Ht2 & Ht3).
  split.
  - destruct (Nat.eq_dec l b) as [->|Hne]; [|unfold b in *; lia].
    unfold map_at, sensor_at in *.
    destruct (nth_error (heap s') b) as [[| |]|]; discriminate.
  - exists rec. auto.
Qed.

End GeneratorRun.


(** ** The refresh of the fans *)

Section FanRefresh.
Context {F : Type} {PF : PyFloat F}.
Variable o : Oracle F.

Lemma dict_get_NoDup {V} (k : string) (v : V) (m : dict V) :
  NoDup (keys m) -> In (k, v) m -> dict_get k m = Some v.
Proof.
  induction m as [|[k0 v0] m IH]; simpl; intros Hnd Hin; [destruct Hin|].
  inversion Hnd as [|? ? Hnotin Hnd']; subst.
  destruct Hin as [[= -> ->]|Hin].
  - rewrite String.eqb_refl. reflexivity.
  - destruct (String.eqb k k0) eqn:E.
    + apply String.eqb_eq in E. subst k0. exfalso. apply Hnotin.
      eapply In_keys. exact Hin.
    + apply IH; assumption.
Qed.

Lemma load_fan_run (l : loc) (f : Fan) (s : St F) :
  fan_at s l = Some f -> load_fan l o s = (Ok f, s).
Proof.
  unfold fan_at, load_fan, load, bind, ret, raise.
  destruct (nth_error (heap s) l) as [[| |]|]; try discriminate.
  intros [= ->]. reflexivity.
Qed.

(** The three assignments that end a turn of the loop. *)
Lemma update_fan_store (k : string) (l : loc) (m : dict loc) (f : Fan)
    (rpm speed : Z) (s : St F) :
  map_at s (fan_status s) = Some m -> dict_get k m = Some l ->
  fan_at s l = Some f ->
  bind (set_fan k (with_current_rpm rpm)) (fun _ =>
  bind (set_fan k (with_current_speed speed)) (fun _ =>
    if (80 <? speed)%Z then set_fan k (with_status "High")
    else if (60 <? speed)%Z then set_fan k (with_status "Medium")
    else set_fan k (with_status "Normal"))) o s
  = (Ok tt,
     with_heap
       (list_set l
          (OFan {| current_rpm := rpm; current_speed := speed;
                   max_rpm := max_rpm f;
                   status := status_of_speed speed |})
          (heap s)) s).
Proof.
  intros Hm Hk Hf.
  destruct (set_fan_kept s m l f (with_current_rpm rpm f) Hm Hf) as (Hm1 & Hf1).
  set (s1 := with_heap (list_set l (OFan (with_current_rpm rpm f)) (heap s)) s)
    in *.
  destruct (set_fan_kept s1 m l _
              (with_current_speed speed (with_current_rpm rpm f)) Hm1 Hf1)
    as (Hm2 & Hf2).
  set (s2 := with_heap (list_set l (OFan (with_current_speed speed
                                           (with_current_rpm rpm f)))
                          (heap s1)) s1) in *.
  unfold bind at 1. rewrite (set_fan_run o k _ s m l f Hm Hk Hf). fold s1.
  unfold bind at 1. rewrite (set_fan_run o k _ s1 m l _ Hm1 Hk Hf1). fold s2.
  assert (Hlast : forall st,
            set_fan k (with_status st) o s2
            = (Ok tt,
               with_heap
                 (list_set l
                    (OFan {| current_rpm := rpm; current_speed := speed;
                             max_rpm := max_rpm f; status := st |})
                    (heap s)) s)).
  { intros st. rewrite (set_fan_run o k _ s2 m l _ Hm2 Hk Hf2).
    unfold s2, s1. st_simpl. rewrite !list_set_twice. reflexivity. }
  unfold status_of_speed.
  destruct (80 <? speed)%Z; [apply Hlast|].
  destruct (60 <? speed)%Z; apply Hlast.
Qed.

(** What the loop keeps, from the engine [s0] with the fans [m]: the
    dictionary, every object that is not a fan of the dictionary, and for
    each fan its maximum; a fan is as it was or as a refresh leaves it. *)
Definition fans_inv (s0 : St F) (m : dict loc) (s : St F) : Prop :=
  fan_status s = fan_status s0 /\ sensors s = sensors s0
  /\ List.length (heap s) = List.length (heap s0)
  /\ map_at s (fan_status s) = Some m
  /\ (forall l x, nth_error (heap s0) l = Some x ->
                  ~ In l (map snd m) -> nth_error (heap s) l = Some x)
  /\ (forall l f0, fan_at s0 l = Some f0 ->
        exists f, fan_at s l = Some f /\ max_rpm f = max_rpm f0
                  /\ (f = f0 \/ fan_consistent f = true)).

Lemma fans_inv_env (s0 : St F) (m : dict loc) (s s' : St F) :
  heap s' = heap s -> fan_status s' = fan_status s -> sensors s' = sensors s ->
  fans_inv s0 m s -> fans_inv s0 m s'.
Proof.
  unfold fans_inv, map_at, fan_at. intros -> -> ->. auto.
Qed.

Lemma clamped_fan_consistent (rpm speed mx : Z) :
  fan_consistent
    {| current_rpm := Z.max 200 (Z.min mx rpm);
       current_speed := Z.max 10 (Z.min 100 speed);
       max_rpm := mx;
       status := status_of_speed (Z.max 10 (Z.min 100 speed)) |} = true.
Proof.
  unfold fan_consistent. simpl. rewrite String.eqb_refl.
  repeat (apply andb_true_intro; split); try reflexivity;
    apply Z.leb_le; lia.
Qed.

Lemma fans_inv_store (s0 : St F) (m : dict loc) (s : St F) (l : loc)
    (f : Fan) (rpm speed : Z) :
  fans_inv s0 m s -> fan_at s l = Some f -> In l (map snd m) ->
  fans_inv s0 m
    (with_heap
       (list_set l
          (OFan {| current_rpm := Z.max 200 (Z.min (max_rpm f) rpm);
                   current_speed := Z.max 10 (Z.min 100 speed);
                   max_rpm := max_rpm f;
                   status := status_of_speed (Z.max 10 (Z.min 100 speed)) |})
          (heap s)) s).
Proof.
  intros (Hfs & Hss & Hlen & Hm & Hkeep & Hfans) Hf Hl_in.
  assert (Hl : nth_error (heap s) l = Some (OFan f)).
  { unfold fan_at in Hf.
    destruct (nth_error (heap s) l) as [[| |]|]; congruence. }
  unfold fans_inv. st_simpl.
  split; [exact Hfs|]. split; [exact Hss|].
  split; [rewrite length_list_set; exact Hlen|].
  split.
  { unfold map_at in *. st_simpl. rewrite nth_error_list_set_neq; [exact Hm|].
    intros ->. rewrite Hl in Hm. discriminate. }
  split.
  - intros l' x Hx Hnf. rewrite nth_error_list_set_neq; [apply Hkeep; assumption|].
    intros <-. apply Hnf. exact Hl_in.
  - intros l' f0 Hf0. unfold fan_at. st_simpl.
    destruct (Nat.eq_dec l l') as [<-|Hne].
    + rewrite (nth_error_list_set_eq _ _ _ _ Hl). eexists.
      split; [reflexivity|]. simpl.
      destruct (Hfans l f0 Hf0) as (f1 & Hf1 & Hmx & _).
      rewrite Hf in Hf1. injection Hf1 as <-.
      split; [exact Hmx|]. right. apply clamped_fan_consistent.
    + rewrite (nth_error_list_set_neq _ _ _ _ Hne). apply (Hfans l' f0 Hf0).
Qed.

(** One turn of the loop. *)
Lemma update_fan_spec (s0 : St F) (m : dict loc) (k : string) (l : loc)
    (s : St F) :
  NoDup (keys m) -> In (k, l) m ->
  (forall k' l', In (k', l') m -> exists f, fan_at s0 l' = Some f) ->
  fans_inv s0 m s ->
  wp o (update_fan k l) (fun _ => fans_inv s0 m) (fans_inv s0 m) s.
Proof.
  intros Hnd Hin Hfan HI.
  pose proof (dict_get_NoDup k l m Hnd Hin) as Hk.
  destruct (Hfan k l Hin) as (f0 & Hf0).
  pose proof HI as (_ & _ & _ & Hm & _ & Hfans).
  destruct (Hfans l f0 Hf0) as (f & Hf & _).
  unfold update_fan. apply wp_bind. unfold wp at 1.
  rewrite (load_fan_run l f s Hf).
  repeat (lazymatch goal with
          | |- wp _ (bind (set_fan _ _) _) _ _ _ => fail
          | _ => idtac
          end;
          first
            [ wp_prim
            | lazymatch goal with
              | |- wp _ (lift ?x) _ _ _ => apply wp_lift; destruct x eqn:?
              | |- wp _ (if ?c then _ else _) _ _ _ => destruct c eqn:?
              | |- wp _ (let _ := _ in _) _ _ _ => cbv zeta
              | |- if ?c then _ else _ => destruct c eqn:?
              end ]).
  all: cbn [fst snd].
  all: try (eapply fans_inv_env; [| | |exact HI]; reflexivity).
  all: match goal with
       | |- wp _ _ _ _ ?st =>
           unfold wp;
           rewrite (update_fan_store k l m f _ _ st Hm Hk Hf);
           apply fans_inv_store;
           [eapply fans_inv_env; [| | |exact HI]; reflexivity|exact Hf
           |apply (in_map snd _ _ Hin)]
       end.
Qed.

(** The refresh returns; it keeps the dictionary, the maxima and every
    object that is not a fan. *)
Lemma fan_refresh_run (s : St F) (m : dict loc) :
  map_at s (fan_status s) = Some m -> NoDup (keys m) ->
  (forall k l, In (k, l) m -> exists f, fan_at s l = Some f) ->
  exists s',
    _update_fan_status_real_time o s = (Ok tt, s')
    /\ fan_status s' = fan_status s /\ sensors s' = sensors s
    /\ List.length (heap s') = List.length (heap s)
    /\ map_at s' (fan_status s') = Some m
    /\ (forall l x, nth_error (heap s) l = Some x ->
                    ~ In l (map snd m) -> nth_error (heap s') l = Some x)
    /\ (forall l f0, fan_at s l = Some f0 ->
          exists f, fan_at s' l = Some f /\ max_rpm f = max_rpm f0
                    /\ (f = f0 \/ fan_consistent f = true)).
Proof.
  intros Hm Hnd Hfan.
  assert (HI : fans_inv s m s).
  { unfold fans_inv. repeat split; auto.
    intros l f0 Hf0. exists f0. auto. }
  assert (H : wp o _update_fan_status_real_time
                (fun _ => fans_inv s m) (fun _ => False) s).
  { unfold _update_fan_status_real_time. apply wp_try.
    apply wp_bind, wp_ask. cbv zeta. apply wp_bind, wp_gets. st_simpl.
    apply wp_bind. unfold wp at 1.
    rewrite (load_map_run o (fan_status s) m (with_cursor (S (cursor s)) s) Hm).
    eapply wp_mono.
    - apply (wp_forM_ o m _ (fans_inv s m) (fans_inv s m)).
      + intros [k l] s1 Hin H1. apply (update_fan_spec s m k l s1 Hnd Hin Hfan H1).
      + revert HI. apply fans_inv_env; reflexivity.
    - auto.
    - intros s1 H1. exact H1. }
  destruct (wp_ok o _ _ _ H) as ([] & s' & Hrun & HI').
  exists s'. split; [exact Hrun|exact HI'].
Qed.

(** X4.  [_update_fan_status_real_time] returns, whatever the clock and the
    draws are: the fan dictionary has the same fans, each with its maximum;
    a fan is as it was (when the refresh stopped before it) or as a refresh
    leaves it: speed within 10 and 100, RPM from 200 up to its maximum,
    and the status of its speed.  So when every fan was consistent, every
    fan is.  No object changes but the fans of the dictionary. *)
Theorem fan_refresh_keeps_fans_consistent (s : St F) (m : dict loc) :
  map_at s (fan_status s) = Some m -> NoDup (keys m) ->
  (forall k l, In (k, l) m -> exists f, fan_at s l = Some f) ->
  exists s',
    _update_fan_status_real_time o s = (Ok tt, s')
    /\ fan_status s' = fan_status s /\ sensors s' = sensors s
    /\ map_at s' (fan_status s') = Some m
    /\ (forall l x, nth_error (heap s) l = Some x ->
                    ~ In l (map snd m) -> nth_error (heap s') l = Some x)
    /\ (forall k l f0, In (k, l) m -> fan_at s l = Some f0 ->
          exists f, fan_at s' l = Some f /\ max_rpm f = max_rpm f0
                    /\ (f = f0 \/ fan_consistent f = true))
    /\ ((forall k l f0, In (k, l) m -> fan_at s l = Some f0 ->
                        fan_consistent f0 = true) ->
        forall k l f, In (k, l) m -> fan_at s' l = Some f ->
                      fan_consistent f = true).
Proof.
  intros Hm Hnd Hfan.
  destruct (fan_refresh_run s m Hm Hnd Hfan)
    as (s' & Hrun & Hfs & Hss & _ & Hm' & Hkeep & Hfans).
  exists s'. split; [exact Hrun|]. split; [exact Hfs|]. split; [exact Hss|].
  split; [exact Hm'|]. split; [exact Hkeep|]. split.
  - intros k l f0 _ Hf0. apply (Hfans l f0 Hf0).
  - intros Hall k l f Hin Hf.
    destruct (Hfan k l Hin) as (f0 & Hf0).
    destruct (Hfans l f0 Hf0) as (f1 & Hf1 & _ & [->|Hc]).
    + rewrite Hf in Hf1. injection Hf1 as ->. apply (Hall k l f0 Hin Hf0).
    + rewrite Hf in Hf1. injection Hf1 as ->. exact Hc.
Qed.

(** The state that [_initialize_fan_status] builds: the dictionary and its
    fans. *)
Lemma initialized_fans (s s' : St F) :
  heap s'
  = (heap s ++ map (fun kf => OFan (snd kf)) default_fans
     ++ [OMap (combine (keys default_fans)
                       (seq (List.length (heap s)) 5))])%list ->
  fan_status s' = (List.length (heap s) + 5)%nat ->
  map_at s' (fan_status s')
  = Some (combine (keys default_fans) (seq (List.length (heap s)) 5))
  /\ forall k l,
       In (k, l) (combine (keys default_fans) (seq (List.length (heap s)) 5)) ->
       exists f, In (k, f) default_fans /\ fan_at s' l = Some f
                 /\ fan_consistent f = true.
Proof.
  intros Hh Hf. unfold map_at, fan_at. rewrite Hh, Hf. split.
  - rewrite nth_error_app2 by lia.
    replace (List.length (heap s) + 5 - List.length (heap s))%nat with 5%nat
      by lia.
    reflexivity.
  - assert (Hn : forall A (xs ys : list A) i,
               nth_error (xs ++ ys) (List.length xs + i) = nth_error ys i).
    { intros A xs ys i. rewrite nth_error_app2 by lia. f_equal. lia. }
    intros k l Hin. cbn [keys default_fans map fst combine seq] in Hin.
    rewrite <- (Nat.add_0_r (List.length (heap s))) in Hin at 1.
    replace (S (List.length (heap s))) with (List.length (heap s) + 1)%nat
      in Hin by lia.
    replace (S (List.length (heap s) + 1)) with (List.length (heap s) + 2)%nat
      in Hin by lia.
    replace (S (List.length (heap s) + 2)) with (List.length (heap s) + 3)%nat
      in Hin by lia.
    replace (S (List.length (heap s) + 3)) with (List.length (heap s) + 4)%nat
      in Hin by lia.
    destruct Hin
      as [[= <- <-]|[[= <- <-]|[[= <- <-]|[[= <- <-]|[[= <- <-]|[]]]]]];
      rewrite Hn; eexists; (split; [|split; reflexivity]); simpl; auto 6.
Qed.

(** X5.  [get_fan_status] on an engine that holds a dictionary of fans returns
    the dictionary the engine holds after it.  With fans, it is the one it
    held, refreshed: the same fans, each as it was or consistent.  With no
    fan, it is a new dictionary of the five fans of the model, each with
    the maximum of the model and consistent, and the empty dictionary and
    every other object are as they were. *)
Theorem get_fan_status_initializes_once (s : St F) (m : dict loc) :
  map_at s (fan_status s) = Some m -> NoDup (keys m) ->
  (forall k l, In (k, l) m -> exists f, fan_at s l = Some f) ->
  exists s',
    get_fan_status o s = (Ok (fan_status s'), s')
    /\ (m <> [] ->
        fan_status s' = fan_status s
        /\ map_at s' (fan_status s') = Some m
        /\ forall k l f0, In (k, l) m -> fan_at s l = Some f0 ->
             exists f, fan_at s' l = Some f /\ max_rpm f = max_rpm f0
                       /\ (f = f0 \/ fan_consistent f = true))
    /\ (m = [] ->
        fan_status s' = (List.length (heap s) + 5)%nat
        /\ (forall l x, nth_error (heap s) l = Some x ->
                        nth_error (heap s') l = Some x)
        /\ exists m',
             map_at s' (fan_status s') = Some m'
             /\ keys m' = keys default_fans
             /\ forall k l, In (k, l) m' ->
                  exists f0 f, In (k, f0) default_fans
                               /\ fan_at s' l = Some f
                               /\ max_rpm f = max_rpm f0
                               /\ fan_consistent f = true).
Proof.
  intros Hm Hnd Hfan. unfold get_fan_status.
  unfold bind at 1. unfold gets at 1. unfold bind at 1.
  rewrite (load_map_run o _ _ _ Hm). unfold bind at 1.
  destruct m as [|kv m].
  - destruct (initialize_fan_status_run o s)
      as (s1 & Hrun1 & Hh1 & Hf1 & Hs1 & _).
    rewrite Hrun1.
    destruct (initialized_fans s s1 Hh1 Hf1) as (Hm1 & Hfans1).
    assert (Hnd1 : NoDup (keys (combine (keys default_fans)
                                   (seq (List.length (heap s)) 5)))).
    { simpl. repeat constructor; simpl; intuition discriminate. }
    destruct (fan_refresh_run s1 _ Hm1 Hnd1) as
      (s2 & Hrun2 & Hf2 & _ & _ & Hm2 & Hkeep2 & Hfans2).
    { intros k l Hin. destruct (Hfans1 k l Hin) as (f & _ & Hf & _).
      exists f. exact Hf. }
    unfold bind at 1. rewrite Hrun2. exists s2.
    split; [reflexivity|]. split; [intros H; contradiction|]. intros _.
    split; [congruence|]. split.
    + intros l x Hl. apply Hkeep2.
      * rewrite Hh1. apply nth_error_prefix. exact Hl.
      * assert (Hlt : (l < List.length (heap s))%nat).
        { apply nth_error_Some. congruence. }
        cbn [keys default_fans map fst snd combine seq].
        intros [<-|[<-|[<-|[<-|[<-|[]]]]]]; lia.
    + eexists. split; [exact Hm2|]. split; [reflexivity|].
      intros k l Hin. destruct (Hfans1 k l Hin) as (f0 & Hin0 & Hf0 & Hc0).
      destruct (Hfans2 l f0 Hf0) as (f & Hf & Hmx & [->|Hc]).
      * exists f0, f0. auto.
      * exists f0, f. auto.
  - cbv [ret]. 
    destruct (fan_refresh_run s _ Hm Hnd Hfan) as
      (s2 & Hrun2 & Hf2 & _ & _ & Hm2 & _ & Hfans2).
    unfold bind at 1. rewrite Hrun2. exists s2.
    split; [reflexivity|]. split; [|intros H; discriminate]. intros _.
    split; [exact Hf2|]. split; [exact Hm2|].
    intros k l f0 _ Hf0. apply (Hfans2 l f0 Hf0).
Qed.

End FanRefresh.

(** The fans of [engine64]. *)
Lemma steady_fan_map_ok :
  map_at engine64 (fan_status engine64) = Some steady_fan_map
  /\ NoDup (keys steady_fan_map)
  /\ forall k l, In (k, l) steady_fan_map ->
                 exists f, fan_at engine64 l = Some f.
Proof.
  split; [vm_compute; reflexivity|]. split.
  - simpl. repeat constructor; simpl; intuition discriminate.
  - intros k l [[= <- <-]|[[= <- <-]|[[= <- <-]|[[= <- <-]|[[= <- <-]|[]]]]]];
      eexists; vm_compute; reflexivity.
Qed.

Lemma fan_refresh_keeps_fans_consistent_witness :
  exists s',
    _update_fan_status_real_time steady64 engine64 = (Ok tt, s')
    /\ fan_status s' = fan_status engine64 /\ sensors s' = sensors engine64
    /\ map_at s' (fan_status s') = Some steady_fan_map
    /\ (forall l x, nth_error (heap engine64) l = Some x ->
                    ~ In l (map snd steady_fan_map) ->
                    nth_error (heap s') l = Some x)
    /\ (forall k l f0, In (k, l) steady_fan_map ->
          fan_at engine64 l = Some f0 ->
          exists f, fan_at s' l = Some f /\ max_rpm f = max_rpm f0
                    /\ (f = f0 \/ fan_consistent f = true))
    /\ ((forall k l f0, In (k, l) steady_fan_map ->
                        fan_at engine64 l = Some f0 ->
                        fan_consistent f0 = true) ->
        forall k l f, In (k, l) steady_fan_map -> fan_at s' l = Some f ->
                      fan_consistent f = true).
Proof.
  exact (fan_refresh_keeps_fans_consistent steady64 engine64 steady_fan_map
           (proj1 steady_fan_map_ok) (proj1 (proj2 steady_fan_map_ok))
           (proj2 (proj2 steady_fan_map_ok))).
Defined.

Lemma get_fan_status_initializes_once_witness :
  exists s',
    get_fan_status steady64 fanless64 = (Ok (fan_status s'), s')
    /\ (@nil (string * loc) <> [] ->
        fan_status s' = fan_status fanless64
        /\ map_at s' (fan_status s') = Some []
        /\ forall k l f0, In (k, l) (@nil (string * loc)) ->
             fan_at fanless64 l = Some f0 ->
             exists f, fan_at s' l = Some f /\ max_rpm f = max_rpm f0
                       /\ (f = f0 \/ fan_consistent f = true))
    /\ (@nil (string * loc) = [] ->
        fan_status s' = (List.length (heap fanless64) + 5)%nat
        /\ (forall l x, nth_error (heap fanless64) l = Some x ->
                        nth_error (heap s') l = Some x)
        /\ exists m',
             map_at s' (fan_status s') = Some m'
             /\ keys m' = keys default_fans
             /\ forall k l, In (k, l) m' ->
                  exists f0 f, In (k, f0) default_fans
                               /\ fan_at s' l = Some f
                               /\ max_rpm f = max_rpm f0
                               /\ fan_consistent f = true).
Proof.
  apply (get_fan_status_initializes_once steady64 fanless64 []).
  - reflexivity.
  - constructor.
  - intros k l [].
Defined.


(** ** Setting the speed of the fans *)

Section FanSpeeds.
Context {F : Type} {PF : PyFloat F}.
Variable o : Oracle F.

(** [set_fan_speed] on a fan that is there. *)
Lemma set_fan_speed_run (fan_id : string) (percent : Z) (s : St F)
    (m : dict loc) (l : loc) (f : Fan) :
  map_at s (fan_status s) = Some m -> dict_get fan_id m = Some l ->
  fan_at s l = Some f ->
  set_fan_speed fan_id percent o s
  = (Ok (snd (set_speed percent f)),
     with_heap (list_set l (OFan (fst (set_speed percent f))) (heap s)) s).
Proof.
  intros Hm Hk Hf.
  destruct (set_fan_kept s m l f (with_current_speed percent f) Hm Hf)
    as (Hm1 & Hf1).
  set (s1 := with_heap (list_set l (OFan (with_current_speed percent f))
                          (heap s)) s) in *.
  unfold set_fan_speed, try_. unfold bind at 1. unfold gets at 1.
  unfold bind at 1. rewrite (load_map_run o _ _ _ Hm), Hk.
  unfold bind at 1. rewrite (set_fan_run o fan_id _ s m l f Hm Hk Hf). fold s1.
  unfold set_speed, speed_rpm.
  unfold bind at 1. unfold float_ at 1.
  destruct (fof_int percent) as [p|]; [|reflexivity]. cbv [lift ret].
  unfold bind at 1. unfold getitem, bind at 1.
  change (fan_status s) with (fan_status s1).
  rewrite (load_map_run o _ _ _ Hm1), Hk. cbv [lift ret].
  unfold bind at 1. rewrite (load_fan_run o l _ s1 Hf1).
  unfold bind at 1. unfold float_ at 1. cbn [max_rpm with_current_speed].
  destruct (fof_int (max_rpm f)) as [mx|]; [|reflexivity]. cbv [lift ret].
  unfold bind at 1. unfold int_.
  destruct (fto_int (fmul (fdiv p (flit 100)) mx)) as [rpm|]; [|reflexivity].
  cbv [lift ret]. unfold bind at 1.
  rewrite (set_fan_run o fan_id _ s1 m l _ Hm1 Hk Hf1).
  cbv [ret]. unfold s1. st_simpl. rewrite list_set_twice. reflexivity.
Qed.

(** X6.  A failure of [set_fan_speed] is not without effect.  On a fan that is
    there, when the RPM cannot be computed (the percentage or the maximum
    is too large for a float, or the product is not a number an int can
    hold), the call returns false, and the fan has the percentage as its
    speed already: only the RPM and the status are as they were. *)
Theorem set_fan_speed_failure_keeps_speed (fan_id : string) (percent : Z)
    (s : St F) (m : dict loc) (l : loc) (f : Fan) :
  map_at s (fan_status s) = Some m -> dict_get fan_id m = Some l ->
  fan_at s l = Some f ->
  speed_rpm percent (max_rpm f) = None ->
  exists s',
    set_fan_speed fan_id percent o s = (Ok false, s')
    /\ fan_at s' l
       = Some {| current_rpm := current_rpm f; current_speed := percent;
                 max_rpm := max_rpm f; status := status f |}
    /\ map_at s' (fan_status s') = Some m
    /\ forall l' x, l' <> l -> nth_error (heap s) l' = Some x ->
                    nth_error (heap s') l' = Some x.
Proof.
  intros Hm Hk Hf Hnone.
  rewrite (set_fan_speed_run fan_id percent s m l f Hm Hk Hf).
  unfold set_speed. rewrite Hnone. cbn [fst snd].
  eexists. split; [reflexivity|].
  destruct (set_fan_kept s m l f (with_current_speed percent f) Hm Hf)
    as (Hm1 & Hf1).
  split; [exact Hf1|]. split; [exact Hm1|].
  intros l' x Hne Hx. st_simpl.
  rewrite nth_error_list_set_neq; [exact Hx|congruence].
Qed.

End FanSpeeds.

Lemma set_fan_speed_failure_keeps_speed_witness :
  exists s',
    set_fan_speed "cpu_fan" huge_percent steady64 engine64 = (Ok false, s')
    /\ fan_at s' 33%nat
       = Some {| current_rpm := 1200%Z; current_speed := huge_percent;
                 max_rpm := 3000%Z; status := "Normal" |}
    /\ map_at s' (fan_status s') = Some steady_fan_map
    /\ forall l' x, l' <> 33%nat -> nth_error (heap engine64) l' = Some x ->
                    nth_error (heap s') l' = Some x.
Proof.
  apply (set_fan_speed_failure_keeps_speed steady64 "cpu_fan" huge_percent
           engine64 steady_fan_map 33%nat
           {| current_rpm := 1200%Z; current_speed := 60%Z;
              max_rpm := 3000%Z; status := "Normal" |}).
  - vm_compute. reflexivity.
  - reflexivity.
  - vm_compute. reflexivity.
  - vm_compute. reflexivity.
Defined.

Section AllFans.
Context {F : Type} {PF : PyFloat F}.
Variable o : Oracle F.
Variable percent : Z.

Lemma set_speed_again (f : Fan) :
  set_speed percent (fst (set_speed percent f)) = set_speed percent f.
Proof.
  unfold set_speed.
  destruct (speed_rpm percent (max_rpm f)) as [rpm|] eqn:E; cbn [fst max_rpm];
    [|cbn [with_current_speed max_rpm]]; rewrite E; reflexivity.
Qed.

Lemma set_speed_fields (f : Fan) :
  current_speed (fst (set_speed percent f)) = percent
  /\ max_rpm (fst (set_speed percent f)) = max_rpm f
  /\ status (fst (set_speed percent f)) = status f.
Proof.
  unfold set_speed. destruct (speed_rpm percent (max_rpm f));
    repeat split.
Qed.

Lemma dict_set_fresh {V} (k : string) (v : V) (d : dict V) :
  ~ In k (keys d) -> dict_set k v d = (d ++ [(k, v)])%list.
Proof.
  induction d as [|[k0 v0] d IH]; simpl; intros Hk; [reflexivity|].
  destruct (String.eqb k k0) eqn:E.
  - apply String.eqb_eq in E. subst k0. exfalso. apply Hk. left. reflexivity.
  - rewrite IH; [reflexivity|]. intros H. apply Hk. right. exact H.
Qed.

Lemma dict_set_all {V} (g : string -> V) (ids : list string) :
  forall acc : dict V,
    NoDup ids -> (forall k, In k ids -> ~ In k (keys acc)) ->
    fold_left (fun a k => dict_set k (g k) a) ids acc
    = (acc ++ map (fun k => (k, g k)) ids)%list.
Proof.
  induction ids as [|k ids IH]; intros acc Hnd Hfresh; simpl.
  - rewrite app_nil_r. reflexivity.
  - inversion Hnd as [|? ? Hk Hnd']; subst.
    rewrite (dict_set_fresh k (g k) acc) by (apply Hfresh; left; reflexivity).
    rewrite IH; [rewrite <- app_assoc; reflexivity|exact Hnd'|].
    intros k' Hin. unfold keys. rewrite map_app, in_app_iff. simpl.
    intros [H|[->|[]]].
    + apply (Hfresh k'); [right; exact Hin|exact H].
    + exact (Hk Hin).
Qed.

Lemma dict_get_of_key {V} (k : string) (m : dict V) :
  In k (keys m) -> exists v, dict_get k m = Some v.
Proof.
  induction m as [|[k0 v0] m IH]; simpl; [intros []|].
  destruct (String.eqb k k0) eqn:E; [eexists; reflexivity|].
  intros [->|H]; [rewrite String.eqb_refl in E; discriminate|apply IH, H].
Qed.

Variable s0 : St F.
Variable m : dict loc.
Hypothesis Hm0 : map_at s0 (fan_status s0) = Some m.
Hypothesis Hfan : forall k l, In (k, l) m -> exists f, fan_at s0 l = Some f.

(** What [set_fan_speed] returns for a fan of the dictionary. *)
Definition speed_set (k : string) : bool :=
  match dict_get k m with
  | Some l =>
      match fan_at s0 l with
      | Some f => snd (set_speed percent f)
      | None => false
      end
  | None => false
  end.

(** The loop of [set_all_fans_speed] when the fans [done] are set. *)
Definition speeds_inv (done : list string) (s : St F) : Prop :=
  fan_status s = fan_status s0 /\ sensors s = sensors s0
  /\ cursor s = cursor s0
  /\ map_at s (fan_status s) = Some m
  /\ (forall l x, nth_error (heap s0) l = Some x ->
                  ~ In l (map snd m) -> nth_error (heap s) l = Some x)
  /\ (forall l f0, fan_at s0 l = Some f0 ->
        fan_at s l = Some f0 \/ fan_at s l = Some (fst (set_speed percent f0)))
  /\ (forall k l f0, In k done -> dict_get k m = Some l ->
        fan_at s0 l = Some f0 ->
        fan_at s l = Some (fst (set_speed percent f0))).

Lemma set_fans_speed_run (ids : list string) :
  forall (done : list string) (results : dict bool) (s : St F),
    (forall k, In k ids -> In k (keys m)) -> speeds_inv done s ->
    exists s',
      set_fans_speed ids percent results o s
      = (Ok (fold_left (fun a k => dict_set k (speed_set k) a) ids results), s')
      /\ speeds_inv (done ++ ids) s'.
Proof.
  induction ids as [|k ids IH]; intros done results s Hids HI.
  - exists s. split; [reflexivity|]. rewrite app_nil_r. exact HI.
  - destruct HI as (Hfs & Hss & Hc & Hm & Hkeep & Hfans & Hdone).
    destruct (dict_get_of_key k m (Hids k (or_introl eq_refl))) as (l & Hk).
    pose proof (dict_get_In _ _ _ Hk) as Hin.
    destruct (Hfan k l Hin) as (f0 & Hf0).
    assert (Hf1 : exists f1, fan_at s l = Some f1
                             /\ set_speed percent f1 = set_speed percent f0).
    { destruct (Hfans l f0 Hf0) as [H|H]; eexists; (split; [exact H|]);
        [reflexivity|apply set_speed_again]. }
    destruct Hf1 as (f1 & Hf1 & Heq).
    simpl set_fans_speed. unfold bind at 1.
    rewrite (set_fan_speed_run o k percent s m l f1 Hm Hk Hf1), Heq.
    assert (Hres : snd (set_speed percent f0) = speed_set k).
    { unfold speed_set. rewrite Hk, Hf0. reflexivity. }
    rewrite Hres.
    set (s1 := with_heap (list_set l (OFan (fst (set_speed percent f0)))
                            (heap s)) s).
    destruct (set_fan_kept s m l f1 (fst (set_speed percent f0)) Hm Hf1)
      as (Hm1 & Hl1). fold s1 in Hm1, Hl1.
    assert (Hother : forall l', l' <> l ->
              nth_error (heap s1) l' = nth_error (heap s) l').
    { intros l' Hne. unfold s1. st_simpl.
      apply nth_error_list_set_neq. congruence. }
    destruct (IH (done ++ [k]) (dict_set k (speed_set k) results) s1)
      as (s' & Hrun & HI').
    + intros k' Hk'. apply Hids. right. exact Hk'.
    + unfold speeds_inv. split; [exact Hfs|]. split; [exact Hss|].
      split; [exact Hc|]. split; [exact Hm1|]. split; [|split].
      * intros l' x Hx Hnot. rewrite Hother; [apply Hkeep; assumption|].
        intros ->. apply Hnot. apply (in_map snd _ _ Hin).
      * intros l' f' Hf'. destruct (Nat.eq_dec l' l) as [->|Hne].
        -- right. rewrite Hf0 in Hf'. injection Hf' as <-. exact Hl1.
        -- unfold fan_at in *. rewrite (Hother l' Hne). apply Hfans. exact Hf'.
      * intros k' l' f' Hin' Hk' Hf'. destruct (Nat.eq_dec l' l) as [->|Hne].
        -- rewrite Hf0 in Hf'. injection Hf' as <-. exact Hl1.
        -- apply in_app_iff in Hin'. destruct Hin' as [Hin'|[<-|[]]].
           ++ unfold fan_at in *. rewrite (Hother l' Hne).
              apply (Hdone k' l' f' Hin' Hk' Hf').
           ++ congruence.
    + exists s'. split; [exact Hrun|].
      rewrite <- app_assoc in HI'. exact HI'.
Qed.

(** X7.  [set_all_fans_speed] on an engine that holds a dictionary of fans
    returns a result for every fan, in the order of the dictionary: true
    when the RPM of the fan could be computed, false when not.  Every fan
    has the percentage as its speed, also a fan whose result is false; a
    fan whose result is true has the RPM computed; the maximum and the
    status of a fan are as they were.  The dictionary and every other
    object are as they were. *)
Theorem set_all_fans_speed_sets_every_fan :
  NoDup (keys m) ->
  exists s',
    set_all_fans_speed percent o s0
    = (Ok (map (fun k => (k, speed_set k)) (keys m)), s')
    /\ fan_status s' = fan_status s0
    /\ map_at s' (fan_status s') = Some m
    /\ (forall l x, nth_error (heap s0) l = Some x ->
                    ~ In l (map snd m) -> nth_error (heap s') l = Some x)
    /\ (forall k l f0, In (k, l) m -> fan_at s0 l = Some f0 ->
          fan_at s' l = Some (fst (set_speed percent f0))
          /\ speed_set k = snd (set_speed percent f0)
          /\ current_speed (fst (set_speed percent f0)) = percent
          /\ max_rpm (fst (set_speed percent f0)) = max_rpm f0
          /\ status (fst (set_speed percent f0)) = status f0).
Proof.
  intros Hnd. unfold set_all_fans_speed.
  unfold bind at 1. unfold gets at 1. unfold bind at 1.
  rewrite (load_map_run o _ _ _ Hm0).
  destruct (set_fans_speed_run (keys m) [] [] s0) as (s' & Hrun & HI).
  - auto.
  - unfold speeds_inv. repeat split; auto.
    intros k l f0 [].
  - rewrite Hrun.
    rewrite (dict_set_all speed_set (keys m) [] Hnd) by (intros k _ []).
    exists s'. split; [reflexivity|].
    destruct HI as (Hfs & _ & _ & Hm & Hkeep & _ & Hdone).
    split; [exact Hfs|]. split; [exact Hm|]. split; [exact Hkeep|].
    intros k l f0 Hin Hf0.
    pose proof (dict_get_NoDup k l m Hnd Hin) as Hk.
    split; [apply (Hdone k l f0); [eapply In_keys; exact Hin|exact Hk|exact Hf0]|].
    split; [unfold speed_set; rewrite Hk, Hf0; reflexivity|].
    apply set_speed_fields.
Qed.

End AllFans.

Lemma set_all_fans_speed_sets_every_fan_witness :
  exists s',
    set_all_fans_speed 75 steady64 engine64
    = (Ok (map (fun k => (k, speed_set 75 engine64 steady_fan_map k))
               (keys steady_fan_map)), s')
    /\ fan_status s' = fan_status engine64
    /\ map_at s' (fan_status s') = Some steady_fan_map
    /\ (forall l x, nth_error (heap engine64) l = Some x ->
                    ~ In l (map snd steady_fan_map) ->
                    nth_error (heap s') l = Some x)
    /\ (forall k l f0, In (k, l) steady_fan_map ->
          fan_at engine64 l = Some f0 ->
          fan_at s' l = Some (fst (set_speed (F:=float) 75 f0))
          /\ speed_set 75 engine64 steady_fan_map k
             = snd (set_speed (F:=float) 75 f0)
          /\ current_speed (fst (set_speed (F:=float) 75 f0)) = 75%Z
          /\ max_rpm (fst (set_speed (F:=float) 75 f0)) = max_rpm f0
          /\ status (fst (set_speed (F:=float) 75 f0)) = status f0).
Proof.
  exact (set_all_fans_speed_sets_every_fan steady64 75 engine64 steady_fan_map
           (proj1 steady_fan_map_ok) (proj2 (proj2 steady_fan_map_ok))
           (proj1 (proj2 steady_fan_map_ok))).
Defined.

(** On [engine64], 75% is set on the five fans. *)
Lemma steady_all_fans_at_75 :
  fst (set_all_fans_speed 75 steady64 engine64)
  = Ok [("cpu_fan", true); ("gpu_fan", true); ("case_fan_1", true);
        ("case_fan_2", true); ("case_fan_3", true)]
  /\ fan_items (snd (set_all_fans_speed 75 steady64 engine64))
     = Some [("cpu_fan", Some {| current_rpm := 2250; current_speed := 75;
                                 max_rpm := 3000; status := "Normal" |});
             ("gpu_fan", Some {| current_rpm := 2625; current_speed := 75;
                                 max_rpm := 3500; status := "Normal" |});
             ("case_fan_1", Some {| current_rpm := 1500; current_speed := 75;
                                    max_rpm := 2000; status := "Normal" |});
             ("case_fan_2", Some {| current_rpm := 1500; current_speed := 75;
                                    max_rpm := 2000; status := "Normal" |});
             ("case_fan_3", Some {| current_rpm := 1500; current_speed := 75;
                                    max_rpm := 2000; status := "Normal" |})]%Z.
Proof. split; vm_compute; reflexivity. Qed.


(** ** The cache, again *)

Section MemoryCache.
Context {F : Type} {PF : PyFloat F}.
Variable o : Oracle F.

Lemma cached_memory_fresh (s : St F) :
  memory_expired o s = false ->
  _get_cached_memory_percent o s
  = (Ok (cached_memory_percent s), with_cursor (S (cursor s)) s).
Proof.
  unfold memory_expired, _get_cached_memory_percent. run_prims.
  intros ->. reflexivity.
Qed.

Lemma cached_memory_stale (s : St F) (vm : svmem F) :
  memory_expired o s = true -> o_psutil o = true ->
  o_virtual_memory o (S (cursor s)) = Some vm ->
  _get_cached_memory_percent o s
  = (Ok (vm_percent vm),
     with_last_memory_check (o_time o (cursor s))
       (with_cached_memory_percent (vm_percent vm)
          (with_cursor (S (S (cursor s)))
             (with_os_calls (VirtualMemory :: os_calls s)
                (with_cursor (S (cursor s)) s))))).
Proof.
  unfold memory_expired, _get_cached_memory_percent. run_prims.
  intros -> -> HV. st_simpl. rewrite HV. reflexivity.
Qed.

Lemma cached_memory_failed (s : St F) :
  memory_expired o s = true ->
  o_psutil o = false \/ o_virtual_memory o (S (cursor s)) = None ->
  exists s', _get_cached_memory_percent o s = (Ok (cached_memory_percent s), s')
             /\ cached_memory_percent s' = cached_memory_percent s
             /\ last_memory_check s' = last_memory_check s
             /\ heap s' = heap s.
Proof.
  unfold memory_expired, _get_cached_memory_percent. run_prims.
  intros -> [HP|HV].
  - rewrite HP. eexists. split; [reflexivity|]. repeat split.
  - destruct (o_psutil o); st_simpl; [rewrite HV|];
      (eexists; split; [reflexivity|]; repeat split).
Qed.

(** X8.  The cached memory percentage.  While the age of the entry does not
    exceed the time to live, a call returns the cached value, queries
    nothing and stores nothing.  Past it, a call whose query answers
    records the query, stores the percentage of the answer with the time it
    read, and returns it; a call whose query raises (or with no [psutil])
    does not raise: it returns the old value, and keeps it and the old time,
    so that the next call queries again. *)
Theorem cached_memory_percent_ttl (s : St F) :
  (memory_expired o s = false ->
   exists s', _get_cached_memory_percent o s = (Ok (cached_memory_percent s), s')
     /\ os_calls s' = os_calls s
     /\ cached_memory_percent s' = cached_memory_percent s
     /\ last_memory_check s' = last_memory_check s)
  /\ (forall vm,
        memory_expired o s = true -> o_psutil o = true ->
        o_virtual_memory o (S (cursor s)) = Some vm ->
        exists s', _get_cached_memory_percent o s = (Ok (vm_percent vm), s')
          /\ os_calls s' = VirtualMemory :: os_calls s
          /\ cached_memory_percent s' = vm_percent vm
          /\ last_memory_check s' = o_time o (cursor s))
  /\ (memory_expired o s = true ->
      o_psutil o = false \/ o_virtual_memory o (S (cursor s)) = None ->
      exists s', _get_cached_memory_percent o s
                 = (Ok (cached_memory_percent s), s')
        /\ cached_memory_percent s' = cached_memory_percent s
        /\ last_memory_check s' = last_memory_check s).
Proof.
  split; [|split].
  - intros He. eexists. rewrite (cached_memory_fresh s He).
    repeat split; reflexivity.
  - intros vm He HP HV. eexists. rewrite (cached_memory_stale s vm He HP HV).
    repeat split; reflexivity.
  - intros He Hf.
    destruct (cached_memory_failed s He Hf) as (s' & Hrun & Hc & Hl & _).
    exists s'. auto.
Qed.

(** X9.  A query of the CPU load that raises is tried again.  Past the time to
    live, when [psutil.cpu_percent] raises (or [psutil] is not there), the
    accessor does not raise: it returns the value it held and keeps the
    time of the last good query; so the next call, still past the time to
    live, queries again, and returns the answer when there is one. *)
Theorem cached_cpu_retries_after_failure (s : St F) :
  cpu_expired o s = true ->
  o_psutil o = false \/ o_cpu_percent o (S (cursor s)) = None ->
  exists s1,
    _get_cached_cpu_percent o s = (Ok (cached_cpu_percent s), s1)
    /\ cached_cpu_percent s1 = cached_cpu_percent s
    /\ last_cpu_check s1 = last_cpu_check s
    /\ forall v,
         cpu_expired o s1 = true -> o_psutil o = true ->
         o_cpu_percent o (S (cursor s1)) = Some v ->
         exists s2,
           _get_cached_cpu_percent o s1 = (Ok v, s2)
           /\ cached_cpu_percent s2 = v
           /\ last_cpu_check s2 = o_time o (cursor s1).
Proof.
  intros He Hf.
  destruct (cached_cpu_failed o s He Hf) as (s1 & Hrun & Hc & Hl).
  exists s1. split; [exact Hrun|]. split; [exact Hc|]. split; [exact Hl|].
  intros v He1 HP HV. eexists.
  rewrite (cached_cpu_stale o s1 v He1 HP HV). repeat split.
Qed.

End MemoryCache.

(** On the engine of the [steady] machine: the entry of the constructor is
    older than 2 seconds, so the first call queries and stores 50. *)
Lemma cached_memory_percent_ttl_witness :
  exists s',
    _get_cached_memory_percent steady64 engine64 = (Ok (flit 50), s')
    /\ os_calls s' = VirtualMemory :: os_calls engine64
    /\ cached_memory_percent s' = flit 50
    /\ last_memory_check s' = flit 1700000003.25.
Proof.
  pose proof (cached_memory_percent_ttl steady64 engine64) as (_ & Hstale & _).
  apply (Hstale {| vm_percent := flit 50; vm_total := 17179869184;
                   vm_used := 8589934592 |}); vm_compute; reflexivity.
Defined.

(** On the [flaky] machine the first call returns the 0 of the
    constructor, and the second one 42. *)
Lemma cached_cpu_retries_after_failure_witness :
  exists s1,
    _get_cached_cpu_percent flaky64 engine64 = (Ok (flit 0), s1)
    /\ exists s2,
         _get_cached_cpu_percent flaky64 s1 = (Ok (flit 42), s2)
         /\ cached_cpu_percent s2 = flit 42.
Proof.
  destruct (cached_cpu_retries_after_failure flaky64 engine64)
    as (s1 & Hrun & Hc & Hl & Hnext).
  - vm_compute. reflexivity.
  - right. vm_compute. reflexivity.
  - exists s1. split; [exact Hrun|].
    destruct (Hnext (flit 42)) as (s2 & Hrun2 & Hc2 & _).
    + unfold cpu_expired.
      replace (cache_duration s1) with (cache_duration engine64).
      * rewrite Hl. vm_compute. reflexivity.
      * revert Hrun. vm_compute. intros [= <-]. reflexivity.
    + reflexivity.
    + replace (cursor s1) with 48%nat; [reflexivity|].
      revert Hrun. vm_compute. intros [= <-]. reflexivity.
    + exists s2. split; [exact Hrun2|exact Hc2].
Defined.


(** ** Detected sensors are not measured again *)

Section Detected.
Variable o : Oracle Q.
Hypothesis draws : forall c, (0 <= o_random o c <= 1)%Q.




End Detected.



(** The thermal zone of that engine is a detected sensor. *)
Lemma warm_thermal_zone :
  exists r0,
    sensor_of warm_engineQ (sensors warm_engineQ) "thermal_2_CurrentTemperature"
    = Some r0
    /\ contains "Simulated" (s_method r0) = false
    /\ s_current r0 = 45.5%Q.
Proof. eexists. split; [vm_compute; reflexivity|]. split; reflexivity. Qed.

(** ** Strings *)

Section StringFacts.
Local Open Scope string_scope.

Lemma contains_cons (k : string) (x : ascii) (a : string) :
  contains k (String x a) = prefix k (String x a) || contains k a.
Proof.
  unfold contains. cbn [String.index].
  destruct (prefix k (String x a)); [reflexivity|].
  destruct (String.index 0 k a); reflexivity.
Qed.

Lemma contains_empty (k : string) : contains k "" = true -> k = "".
Proof. destruct k; [reflexivity|discriminate]. Qed.

Lemma contains_nil (b : string) : contains "" b = true.
Proof. destruct b; reflexivity. Qed.

Lemma prefix_nil (s : string) : prefix "" s = true.
Proof. destruct s; reflexivity. Qed.

Lemma prefix_app (k a b : string) :
  prefix k a = true -> prefix k (a ++ b) = true.
Proof.
  revert a. induction k as [|c k IH]; intros a; [intros _; apply prefix_nil|].
  destruct a as [|x a]; simpl; [discriminate|].
  destruct (ascii_dec c x); [apply IH|discriminate].
Qed.

Lemma contains_app_l (k a b : string) :
  contains k a = true -> contains k (a ++ b) = true.
Proof.
  induction a as [|x a IH].
  - intros H. rewrite (contains_empty k H). apply contains_nil.
  - change (String x a ++ b) with (String x (a ++ b)).
    rewrite !contains_cons, !orb_true_iff. intros [H|H].
    + left. apply (prefix_app k (String x a) b H).
    + right. apply IH, H.
Qed.

Lemma contains_app_r (k a b : string) :
  contains k b = true -> contains k (a ++ b) = true.
Proof.
  intros H. induction a as [|x a IH]; [exact H|].
  change (String x a ++ b) with (String x (a ++ b)).
  rewrite contains_cons, IH. apply orb_true_r.
Qed.

Lemma contains_char (c : ascii) (s : string) :
  contains (String c "") s = true <-> In c (list_ascii_of_string s).
Proof.
  induction s as [|x s IH].
  - split; [discriminate|intros []].
  - rewrite contains_cons, orb_true_iff, IH. simpl.
    rewrite prefix_nil.
    destruct (ascii_dec c x) as [->|N].
    + split; intros _; left; reflexivity.
    + split; (intros [H|H]; [|right; exact H]); [discriminate|congruence].
Qed.

Lemma lower_app (a b : string) : lower (a ++ b) = lower a ++ lower b.
Proof. induction a as [|x a IH]; simpl; [|rewrite IH]; reflexivity. Qed.

Lemma replace_none (a b : ascii) (s : string) :
  a <> b -> ~ In a (list_ascii_of_string (replace a b s)).
Proof.
  intros N. induction s as [|x s IH]; simpl; [tauto|].
  intros [H|H]; [|exact (IH H)].
  destruct (Ascii.eqb x a) eqn:E; [congruence|].
  apply Ascii.eqb_neq in E. congruence.
Qed.

End StringFacts.

(** ** The kind of a sensor *)

(** X11.  The keywords of the CPU come first.  A sensor whose name or whose label
    has, in any case of its letters, one of [cpu], [processor], [core] and
    [package] is a CPU sensor, whatever else the name and the label say:
    a sensor named [GPU Core] is one. *)
Theorem classify_cpu_keywords_first (sensor_name label keyword : string) :
  In keyword ["cpu"; "processor"; "core"; "package"] ->
  contains keyword (lower sensor_name) = true
  \/ contains keyword (lower label) = true ->
  _classify_sensor_type sensor_name label = "CPU".
Proof.
  intros Hk Hc. unfold _classify_sensor_type.
  replace (any_in ["cpu"; "processor"; "core"; "package"]
                  (lower (sensor_name ++ " " ++ label))) with true;
    [reflexivity|].
  symmetry. apply existsb_exists. exists keyword. split; [exact Hk|].
  rewrite !lower_app. destruct Hc as [H|H].
  - apply contains_app_l, H.
  - apply contains_app_r, contains_app_r, H.
Qed.

Lemma classify_cpu_keywords_first_witness :
  contains "core" (lower "GPU Core") = true
  /\ _classify_sensor_type "GPU Core" "" = "CPU".
Proof.
  split; [reflexivity|].
  apply (classify_cpu_keywords_first "GPU Core" "" "core").
  - simpl. tauto.
  - left. reflexivity.
Defined.

(** ** The thermal zones *)

Section ThermalFacts.
Context {F : Type} {PF : PyFloat F} {PD : PyDecimal F}.
Local Open Scope string_scope.
Local Open Scope py_scope.

(** A record as [_parse_thermal_output] builds it for the method
    [method_id], under the key [k]. *)
Definition thermal_entry (method_id k : string) (r : Sensor F) : Prop :=
  ('0 <? s_current r) = true /\ (s_current r <? '150) = true
  /\ s_method r = "Windows Thermal Sensor"
  /\ s_unit r = "°C" /\ s_other r = []
  /\ exists name,
       k = replace " " "_" (method_id ++ "_" ++ name)
       /\ s_name r = "Thermal Sensor " ++ name
       /\ s_type r = _classify_sensor_type name "".

Lemma parse_thermal_line_entries (method_id line : string)
    (sensors : dict (Sensor F)) :
  (forall k r, In (k, r) sensors -> thermal_entry method_id k r) ->
  forall k r, In (k, r) (parse_thermal_line method_id line sensors) ->
              thermal_entry method_id k r.
Proof.
  intros IH k r. unfold parse_thermal_line.
  destruct (contains ":" line); [|apply IH].
  destruct (split1 ":" line) as [[part0 part1]|]; [|apply IH].
  destruct (search_number (strip part1)) as [[ip fp]|]; [|apply IH].
  destruct ('0 <? to_celsius (float_of_match ip fp)) eqn:E0; [|apply IH].
  destruct (to_celsius (float_of_match ip fp) <? '150) eqn:E1; [|apply IH].
  cbn [andb]. intros H. apply dict_set_In in H. destruct H as [[-> ->]|H].
  - unfold thermal_entry. cbn [s_current s_method s_unit s_other s_name s_type].
    repeat (split; [first [exact E0|exact E1|reflexivity]|]).
    exists (strip part0). repeat split.
  - apply IH, H.
Qed.

Lemma parse_thermal_entries (output method_id k : string) (r : Sensor F) :
  In (k, r) (_parse_thermal_output output method_id) ->
  thermal_entry method_id k r.
Proof.
  unfold _parse_thermal_output.
  enough (G : forall lines sensors,
             (forall k r, In (k, r) sensors -> thermal_entry method_id k r) ->
             forall k r,
               In (k, r) (fold_left
                            (fun sensors line =>
                               parse_thermal_line method_id line sensors)
                            lines sensors) ->
               thermal_entry method_id k r).
  { apply G. intros ? ? []. }
  induction lines as [|line lines IH]; intros sensors Hs; [exact Hs|].
  simpl. apply IH. apply parse_thermal_line_entries, Hs.
Qed.

Lemma thermal_key_no_space (method_id name : string) :
  contains " " (replace " " "_" (method_id ++ "_" ++ name)) = false.
Proof.
  destruct (contains " " _) eqn:E; [|reflexivity].
  apply contains_char in E. apply replace_none in E; [destruct E|].
  intros H. discriminate H.
Qed.

(** X12.  What [_parse_thermal_output] reports is a reasonable temperature.  Every
    record of its result has a value above 0 and under 150, the method
    ["Windows Thermal Sensor"] (so the refresh does not take it for a
    simulated sensor), the unit of degrees Celsius and no other key; its key
    is the method and the name read from the line, with [_] for every
    space. *)
Theorem parse_thermal_output_reasonable (output method_id k : string)
    (r : Sensor F) :
  In (k, r) (_parse_thermal_output output method_id) ->
  ('0 <? s_current r) = true /\ (s_current r <? '150) = true
  /\ s_method r = "Windows Thermal Sensor"
  /\ contains "Simulated" (s_method r) = false
  /\ s_unit r = "°C" /\ s_other r = []
  /\ contains " " k = false
  /\ exists name,
       k = replace " " "_" (method_id ++ "_" ++ name)
       /\ s_name r = "Thermal Sensor " ++ name
       /\ s_type r = _classify_sensor_type name "".
Proof.
  intros H. apply parse_thermal_entries in H.
  destruct H as (H0 & H1 & Hm & Hu & Ho & name & Hk & Hn & Ht).
  repeat (split; [assumption|]).
  split; [rewrite Hm; reflexivity|].
  repeat (split; [assumption|]).
  split; [rewrite Hk; apply thermal_key_no_space|].
  exists name. repeat split; assumption.
Qed.

(** X13.  The thermal zones come from the commands that succeeded.  A sensor of
    [_detect_thermal_sensors] is there only on Windows, and it is a record
    that [_parse_thermal_output] read in the output of one of the three
    commands, which returned with code 0: its value is above 0 and under
    150 and its method does not say ["Simulated"]. *)
Theorem detect_thermal_sensors_from_commands (system : string)
    (run : nat -> option CompletedProcess) (k : string) (r : Sensor F) :
  In (k, r) (Thermal._detect_thermal_sensors system run) ->
  system = "Windows"
  /\ ('0 <? s_current r) = true /\ (s_current r <? '150) = true
  /\ contains "Simulated" (s_method r) = false
  /\ exists i result,
       (i < 3)%nat /\ run i = Some result /\ returncode result = 0%Z
       /\ In (k, r) (_parse_thermal_output (stdout result)
                                           ("thermal_" ++ str i)).
Proof.
  unfold Thermal._detect_thermal_sensors.
  destruct (system =? "Windows") eqn:Es; cbn [negb]; [|intros []].
  apply String.eqb_eq in Es. intros H. split; [exact Es|].
  set (P := fun (kr : string * Sensor F) =>
              exists i result,
                (i < 3)%nat /\ run i = Some result
                /\ returncode result = 0%Z
                /\ In kr (_parse_thermal_output (stdout result)
                                                ("thermal_" ++ str i))).
  assert (Hup : forall other d,
             (forall kr, In kr other -> P kr) ->
             (forall kr, In kr d -> P kr) ->
             forall kr, In kr (dict_update d other) -> P kr).
  { unfold dict_update. induction other as [|[k0 r0] other IH];
      intros d Ho Hd kr; [apply Hd|]. simpl. apply IH.
    - intros kr' Hin. apply Ho. right. exact Hin.
    - intros [k' r'] Hin. apply dict_set_In in Hin.
      destruct Hin as [[-> ->]|Hin]; [apply Ho; left; reflexivity|].
      apply Hd, Hin. }
  assert (Hstep : forall i sensors,
             (i < 3)%nat -> (forall kr, In kr sensors -> P kr) ->
             forall kr,
               In kr (match run i with
                      | Some result =>
                          if (returncode result =? 0)%Z
                             && negb (strip (stdout result) =? "")
                          then dict_update sensors
                                 (_parse_thermal_output (stdout result)
                                    ("thermal_" ++ str i))
                          else sensors
                      | None => sensors
                      end) -> P kr).
  { intros i sensors Hi Hs kr.
    destruct (run i) as [result|] eqn:Er; [|apply Hs].
    destruct (returncode result =? 0)%Z eqn:Ec; [|apply Hs].
    destruct (negb (strip (stdout result) =? "")); [|apply Hs].
    cbn [andb]. apply Hup; [|exact Hs].
    intros kr' Hin. exists i, result. apply Z.eqb_eq in Ec. auto. }
  assert (HP : P (k, r)).
  { revert H. cbn [fold_left].
    apply Hstep; [lia|]. apply Hstep; [lia|]. apply Hstep; [lia|].
    intros kr []. }
  destruct HP as (i & result & Hi & Hr & Hc & Hin).
  destruct (parse_thermal_entries _ _ _ _ Hin) as (H0 & H1 & Hm & _).
  split; [exact H0|]. split; [exact H1|]. split; [rewrite Hm; reflexivity|].
  exists i, result. auto.
Qed.

End ThermalFacts.

(** A thermal zone that reports tenths of a kelvin: 3186 is read as
    45.450000000000045 degrees. *)
Lemma parse_thermal_output_reasonable_witness :
  exists r : Sensor float,
    _parse_thermal_output "CurrentTemperature : 3186" "thermal_2"
    = [("thermal_2_CurrentTemperature", r)]
    /\ s_current r = 0x1.6b999999999ap+5%float
    /\ ('0 <? s_current r)%py = true /\ (s_current r <? '150)%py = true.
Proof.
  eexists. split; [vm_compute; reflexivity|].
  split; [reflexivity|].
  destruct (parse_thermal_output_reasonable (F:=float)
              "CurrentTemperature : 3186" "thermal_2"
              "thermal_2_CurrentTemperature"
              {| s_name := "Thermal Sensor CurrentTemperature";
                 s_type := "Other";
                 s_current := 0x1.6b999999999ap+5%float;
                 s_method := "Windows Thermal Sensor";
                 s_unit := "°C"; s_other := [] |})
    as (H0 & H1 & _).
  - vm_compute. left. reflexivity.
  - split; [exact H0|exact H1].
Defined.

(** Of the three commands of [zone_commands], the third gives the sensor. *)
Lemma detect_thermal_sensors_from_commands_witness :
  exists r : Sensor float,
    Thermal._detect_thermal_sensors "Windows" zone_commands
    = [("thermal_2_CurrentTemperature", r)]
    /\ ('0 <? s_current r)%py = true /\ (s_current r <? '150)%py = true
    /\ exists i result,
         zone_commands i = Some result /\ returncode result = 0%Z.
Proof.
  eexists. split; [vm_compute; reflexivity|].
  destruct (detect_thermal_sensors_from_commands (F:=float)
              "Windows" zone_commands "thermal_2_CurrentTemperature"
              {| s_name := "Thermal Sensor CurrentTemperature";
                 s_type := "Other";
                 s_current := 0x1.6b999999999ap+5%float;
                 s_method := "Windows Thermal Sensor";
                 s_unit := "°C"; s_other := [] |})
    as (_ & H0 & H1 & _ & i & result & _ & Hr & Hc & _).
  - vm_compute. left. reflexivity.
  - split; [exact H0|]. split; [exact H1|]. exists i, result. auto.
Defined.

(** ** The detection with psutil *)

Section RecordsFacts.
Context {F : Type} {PF : PyFloat F}.
Variable o : Oracle F.
Variable C : string -> Sensor F -> Prop.
Variable b : nat.
Variable d0 : loc.

Lemma records_env (s s' : St F) :
  heap s' = heap s -> records_inv C b d0 s -> records_inv C b d0 s'.
Proof.
  unfold records_inv, map_at, sensor_at. intros ->. auto.
Qed.

Lemma records_alloc (x : Obj F) (s : St F) :
  (forall m, x = OMap m -> m = []) ->
  records_inv C b d0 s -> records_inv C b d0 (with_heap (heap s ++ [x]) s).
Proof.
  intros Hx (Hlen & Hwf & m0 & Hm0). unfold records_inv. st_simpl. split.
  { rewrite length_app. lia. }
  split.
  - intros d m k l Hb Hm Hin. unfold map_at in Hm. st_simpl.
    destruct (Nat.lt_ge_cases d (List.length (heap s))) as [Hlt|Hge].
    + rewrite nth_error_app1 in Hm by exact Hlt.
      destruct (Hwf d m k l Hb Hm Hin) as (Hl & r & Hr & Ht).
      split; [exact Hl|]. exists r. split; [|exact Ht].
      unfold sensor_at in *. st_simpl.
      destruct (nth_error (heap s) l) as [y|] eqn:E; [|discriminate].
      rewrite (nth_error_prefix _ _ _ _ E). exact Hr.
    + rewrite nth_error_app2 in Hm by exact Hge.
      destruct (d - List.length (heap s))%nat as [|n]; simpl in Hm.
      * destruct x as [m1| |]; try discriminate.
        injection Hm as <-. rewrite (Hx m1 eq_refl) in Hin. destruct Hin.
      * destruct n; discriminate.
  - exists m0. unfold map_at in *. st_simpl.
    destruct (nth_error (heap s) d0) as [y|] eqn:E; [|discriminate].
    rewrite (nth_error_prefix _ _ _ _ E). exact Hm0.
Qed.

Lemma records_setitem (d : loc) (k : string) (l : loc) (m : dict loc)
    (r : Sensor F) (s : St F) :
  records_inv C b d0 s -> map_at s d = Some m ->
  (b <= l)%nat -> sensor_at s l = Some r -> C k r ->
  records_inv C b d0
    (with_heap (list_set d (OMap (dict_set k l m)) (heap s)) s).
Proof.
  intros (Hlen & Hwf & m0 & Hm0) Hm Hl Hr Ht.
  assert (Hd : nth_error (heap s) d = Some (OMap m)).
  { unfold map_at in Hm.
    destruct (nth_error (heap s) d) as [[| |]|]; congruence. }
  assert (Hkept : forall l' r', sensor_at s l' = Some r' ->
            sensor_at (with_heap (list_set d (OMap (dict_set k l m)) (heap s)) s) l'
            = Some r').
  { intros l' r' H'. unfold sensor_at in *. st_simpl.
    rewrite nth_error_list_set_neq; [exact H'|].
    intros <-. rewrite Hd in H'. discriminate. }
  unfold records_inv. st_simpl. split.
  { rewrite length_list_set. exact Hlen. }
  split.
  - intros d2 m2 k2 l2 Hb Hm2 Hin. unfold map_at in Hm2. st_simpl.
    assert (Hold : forall m', map_at s d2 = Some m' -> In (k2, l2) m' ->
              (b <= l2)%nat
              /\ exists r', sensor_at
                   (with_heap (list_set d (OMap (dict_set k l m)) (heap s)) s) l2
                   = Some r' /\ C k2 r').
    { intros m' Hm' Hin'.
      destruct (Hwf d2 m' k2 l2 Hb Hm' Hin') as (Hl2 & r' & Hr' & Ht').
      split; [exact Hl2|]. exists r'. split; [apply Hkept; exact Hr'|exact Ht']. }
    destruct (Nat.eq_dec d d2) as [<-|Hne].
    + rewrite (nth_error_list_set_eq _ _ _ _ Hd) in Hm2. injection Hm2 as <-.
      destruct (dict_set_In _ _ _ _ _ Hin) as [(-> & ->)|Hin'].
      * split; [exact Hl|]. exists r. split; [apply Hkept; exact Hr|exact Ht].
      * apply (Hold m Hm Hin').
    + rewrite (nth_error_list_set_neq _ _ _ _ Hne) in Hm2.
      apply (Hold m2); [exact Hm2|exact Hin].
  - unfold map_at. st_simpl. destruct (Nat.eq_dec d d0) as [<-|Hne].
    + rewrite (nth_error_list_set_eq _ _ _ _ Hd). eexists. reflexivity.
    + rewrite (nth_error_list_set_neq _ _ _ _ Hne). exists m0. exact Hm0.
Qed.

Lemma records_put (d : loc) (k : string) (r : Sensor F) :
  (b <= d)%nat -> C k r -> pres o (records_inv C b d0) (put d k r).
Proof.
  intros Hd Ht s H. unfold put. apply wp_bind, wp_alloc.
  pose proof (records_alloc (OSensor r) s ltac:(intros m1; discriminate) H)
    as H1.
  set (s1 := with_heap (heap s ++ [OSensor r]) s) in *.
  unfold wp. destruct (map_at s1 d) as [m|] eqn:E.
  - rewrite (setitem_run o _ _ _ _ _ E).
    apply (records_setitem d k _ m r s1 H1 E).
    + destruct H as (Hlen & _). exact Hlen.
    + unfold sensor_at, s1. st_simpl.
      rewrite nth_error_app2 by lia. rewrite Nat.sub_diag. reflexivity.
    + exact Ht.
  - rewrite (setitem_fail o _ _ _ _ E). exact H1.
Qed.

End RecordsFacts.

Section PsutilPres.
Context {F : Type} {PF : PyFloat F}.
Local Open Scope string_scope.
Local Open Scope py_scope.
Variable o : Oracle F.
Variable p : Psutil.Probes F.
Variable I : St F -> Prop.
Variable C : string -> Sensor F -> Prop.
Variable n : nat.

Hypothesis I_cursor : forall s c, I s -> I (with_cursor c s).
Hypothesis I_log : forall s c, I s -> I (with_os_calls c s).
Hypothesis I_put : forall d k r, (n <= d)%nat -> C k r -> pres o I (put d k r).

Hypothesis C_temperature : forall name i entry,
  ('0 <? Psutil.current entry) = true ->
  C ("psutil_" ++ name ++ "_" ++ str i) (Psutil.temperature_record name i entry).
Hypothesis C_package : forall x,
  C "cpu_package_real"
    (Psutil.estimated "CPU Package (Real)" "CPU" (clamp '30 '85 x) '85
                      "psutil (Load+Freq-based)").

Ltac psutil_go :=
  repeat first
    [ progress cbv beta zeta
    | match goal with
      | |- pres _ _ (if ?c then _ else _) => destruct c eqn:?
      | |- pres _ _ (match ?x with _ => _ end) => destruct x eqn:?
      | |- pres _ _ (put _ _ _) => apply I_put; [assumption|]
      | |- pres _ _ (os_call _ _) =>
          apply pres_os_call; [exact I_cursor|exact I_log]
      | |- pres _ _ (uniform _ _) => apply pres_uniform; exact I_cursor
      | |- pres _ _ (float_ _) => apply pres_float_
      | |- pres _ _ (int_ _) => apply pres_int_
      | |- pres _ _ (truediv_int _ _) => apply pres_truediv_int
      | |- pres _ _ (truediv _ _) => apply pres_truediv
      | |- pres _ _ (load_map _) => apply pres_load_map
      | |- pres _ _ (forM_ _ _) => apply pres_forM_; intros
      | |- pres _ _ (try_ _ _) => apply pres_try
      | |- pres _ _ (ret _) => apply pres_ret
      | |- pres _ _ raise => apply pres_raise
      | |- pres _ _ (ask _) => apply pres_ask; exact I_cursor
      | |- pres _ _ (lift _) => apply pres_lift
      | |- pres _ _ import_psutil => apply pres_import
      | |- pres _ _ (bind _ _) => apply pres_bind; [|intros]
      end ].

Lemma pres_detect_temperatures (d : loc) :
  (n <= d)%nat -> pres o I (Psutil.detect_temperatures p d).
Proof.
  intros Hd. unfold Psutil.detect_temperatures. psutil_go.
  all: apply C_temperature; assumption.
Qed.

Lemma pres_detect_package (d : loc) (cpu_percent : F) (cpu_freq : option F) :
  (n <= d)%nat -> pres o I (Psutil.detect_package d cpu_percent cpu_freq).
Proof.
  intros Hd. unfold Psutil.detect_package. psutil_go. apply C_package.
Qed.

(** Without the number of the cores, the detection stops before the
    loop. *)
Lemma pres_detect_coreless (d : loc) :
  (forall c x, o_cpu_count o c = Some x -> x = None) ->
  (n <= d)%nat -> pres o I (Psutil.detect_sensors p d).
Proof.
  intros Hcount Hd. unfold Psutil.detect_sensors.
  apply pres_bind; [apply pres_import|]. intros _.
  apply pres_bind; [apply pres_detect_temperatures; exact Hd|]. intros _.
  apply pres_bind; [apply pres_os_call; assumption|]. intros cpu_percent.
  apply pres_bind; [apply pres_os_call; assumption|]. intros cpu_freq.
  intros s H. apply wp_bind. unfold os_call.
  apply wp_bind, wp_modify, wp_bind, wp_ask. st_simpl.
  destruct (o_cpu_count o (cursor s)) as [x|] eqn:E; apply wp_lift;
    [|apply I_cursor, I_log, H].
  rewrite (Hcount _ _ E).
  apply wp_bind.
  eapply wp_mono;
    [apply (pres_detect_package d cpu_percent cpu_freq Hd);
     apply I_cursor, I_log, H| |auto].
  intros cpu_temp s' H'. apply wp_bind. unfold Psutil.detect_cores.
  apply wp_bind, wp_lift. exact H'.
Qed.

Hypothesis C_core : forall i x,
  C ("cpu_core_" ++ str_int i ++ "_real")
    (Psutil.estimated ("CPU Core " ++ str_int (i + 1) ++ " (Real)") "CPU"
                      (clamp '28 '90 x) '90 "psutil (Core-specific)").
Hypothesis C_ram : forall x,
  C "ram_real"
    (Psutil.estimated "RAM (Real)" "Memory" (clamp '20 '60 x) '60
                      "psutil (Usage-based)").
Hypothesis C_disk : forall x,
  C "disk_real"
    (Psutil.estimated "Primary Disk (Real)" "Storage" (clamp '25 '55 x) '55
                      "psutil (IO-based)").

Lemma pres_detect_sensors (d : loc) :
  (n <= d)%nat -> pres o I (Psutil.detect_sensors p d).
Proof.
  intros Hd. unfold Psutil.detect_sensors.
  apply pres_bind; [apply pres_import|]. intros _.
  apply pres_bind; [apply pres_detect_temperatures; exact Hd|]. intros _.
  apply pres_bind; [apply pres_os_call; assumption|]. intros cpu_percent.
  apply pres_bind; [apply pres_os_call; assumption|]. intros cpu_freq.
  apply pres_bind; [apply pres_os_call; assumption|]. intros cpu_count.
  apply pres_bind; [apply pres_detect_package; exact Hd|]. intros cpu_temp.
  apply pres_bind.
  { unfold Psutil.detect_cores. psutil_go. all: apply C_core. }
  intros _. apply pres_bind.
  { unfold Psutil.detect_memory. psutil_go. apply C_ram. }
  intros _. unfold Psutil.detect_disk. psutil_go. apply C_disk.
Qed.

End PsutilPres.

Section PsutilRun.
Context {F : Type} {PF : PyFloat F}.
Local Open Scope string_scope.
Local Open Scope py_scope.
Variable o : Oracle F.
Variable p : Psutil.Probes F.

Lemma psutil_frame (s0 : St F) (d : loc) :
  (List.length (heap s0) <= d)%nat ->
  pres o (frame_inv s0) (Psutil.detect_sensors p d).
Proof.
  apply (pres_detect_sensors o p (frame_inv s0) (fun _ _ => True)
                             (List.length (heap s0))).
  - intros s c. apply frame_env; reflexivity.
  - intros s c. apply frame_env; reflexivity.
  - intros d' k r Hd _. apply frame_put; [exact Hd|exact Logic.I].
  - auto.
  - auto.
  - auto.
  - auto.
  - auto.
Qed.

(** [_detect_psutil_sensors] does not raise: it returns a new dictionary,
    with what its body has put there. *)
Lemma detect_psutil_run (C : string -> Sensor F -> Prop) (s : St F) :
  pres o (records_inv C (List.length (heap s)) (List.length (heap s)))
       (Psutil.detect_sensors p (List.length (heap s))) ->
  exists s' m,
    Psutil._detect_psutil_sensors p o s = (Ok (List.length (heap s)), s')
    /\ map_at s' (List.length (heap s)) = Some m
    /\ (forall k l, In (k, l) m ->
          exists r, sensor_at s' l = Some r /\ C k r)
    /\ frame_inv s s'.
Proof.
  set (b := List.length (heap s)). intros Hbody.
  set (s1 := with_heap (heap s ++ [OMap []]) s).
  assert (HR : records_inv C b b s1).
  { unfold records_inv, s1, map_at. st_simpl. split.
    { rewrite length_app. unfold b. lia. }
    split.
    - intros d' m k l Hb. rewrite nth_error_app2 by exact Hb. fold b.
      destruct (d' - b)%nat as [|n]; simpl.
      + intros [= <-] [].
      + destruct n; discriminate.
    - exists []. rewrite nth_error_app2 by (unfold b; lia).
      unfold b. rewrite Nat.sub_diag. reflexivity. }
  assert (HF : frame_inv s s1) by (apply frame_alloc, frame_refl).
  assert (H : wp o (Psutil._detect_psutil_sensors p)
                (fun r s' => r = b /\ records_inv C b b s' /\ frame_inv s s')
                (fun _ => False) s).
  { unfold Psutil._detect_psutil_sensors. apply wp_bind, wp_alloc.
    fold b s1. apply wp_bind, wp_try.
    eapply wp_mono.
    - apply wp_conj; [apply (Hbody s1 HR)|].
      apply (psutil_frame s b (le_n _) s1 HF).
    - intros a s2 (H1 & H2). apply wp_ret. auto.
    - intros s2 (H1 & H2). apply wp_ret. apply wp_ret. auto. }
  destruct (wp_ok o _ _ _ H) as (r & s' & Hrun & -> & (_ & Hrec & m & Hm) & Hfr).
  exists s', m. split; [exact Hrun|]. split; [exact Hm|].
  split; [|exact Hfr].
  intros k l Hin. destruct (Hrec b m k l (le_n _) Hm Hin) as (_ & r & Hr & Hc).
  exists r. auto.
Qed.

Lemma early_key_temperature (name rest : string) :
  early_key ("psutil_" ++ name ++ rest) = true.
Proof.
  unfold early_key. apply orb_true_iff. right. simpl.
  repeat (destruct (ascii_dec _ _) as [_|N]; [|exfalso; apply N; reflexivity]).
  apply prefix_nil.
Qed.

(** X15.  When the number of the cores is not known.  When
    [psutil.cpu_count(logical=False)] gives [None] (or raises),
    [_detect_psutil_sensors] does not raise, and it returns what it found
    before the cores: the temperatures that [psutil] read and the package
    of the CPU; the sensors of the cores, of the memory and of the disk
    are not there.  No object that was there is changed. *)
Theorem detect_psutil_sensors_without_core_count (s : St F) :
  (forall c x, o_cpu_count o c = Some x -> x = None) ->
  exists r s' m,
    Psutil._detect_psutil_sensors p o s = (Ok r, s')
    /\ map_at s' r = Some m
    /\ (forall k, In k (keys m) -> early_key k = true)
    /\ dict_get "ram_real" m = None /\ dict_get "disk_real" m = None
    /\ frame_inv s s'.
Proof.
  intros Hcount.
  destruct (detect_psutil_run (fun k _ => early_key k = true) s)
    as (s' & m & Hrun & Hm & Hrec & Hfr).
  { apply (pres_detect_coreless o p _ (fun k _ => early_key k = true)
                                (List.length (heap s))).
    - intros s1 c. apply records_env. reflexivity.
    - intros s1 c. apply records_env. reflexivity.
    - intros d k r Hd Hc.
      apply (records_put o (fun k _ => early_key k = true) _ _ d k r Hd Hc).
    - intros name i entry _. apply early_key_temperature.
    - intros x. reflexivity.
    - exact Hcount.
    - apply le_n. }
  assert (Hkeys : forall k, In k (keys m) -> early_key k = true).
  { intros k Hk. apply in_map_iff in Hk. destruct Hk as ([k' l] & <- & Hin).
    destruct (Hrec k' l Hin) as (r & _ & Hc). exact Hc. }
  assert (Hnone : forall k, early_key k = false -> dict_get k m = None).
  { intros k Hk. destruct (dict_get k m) as [l|] eqn:E; [|reflexivity].
    apply dict_get_In, In_keys, Hkeys in E. congruence. }
  exists (List.length (heap s)), s', m.
  split; [exact Hrun|]. split; [exact Hm|]. split; [exact Hkeys|].
  split; [apply Hnone; reflexivity|]. split; [apply Hnone; reflexivity|].
  exact Hfr.
Qed.

End PsutilRun.

Section PsutilEstimates.
Local Open Scope string_scope.
Local Open Scope py_scope.
Variable o : Oracle float.
Variable p : Psutil.Probes float.

Lemma estimated_record (name type : string) (lo hi x : float)
    (method : string) :
  contains "Simulated" method = false ->
  estimate_range method = Some (lo, hi) ->
  fle lo hi = true -> ffinite lo = true -> ffinite hi = true ->
  psutil_record (Psutil.estimated name type (clamp lo hi x) hi method).
Proof.
  intros Hs Hr Hle Hlo Hhi. unfold psutil_record, Psutil.estimated.
  cbn [s_method s_unit s_current s_other]. rewrite Hr.
  split; [exact Hs|]. split; [reflexivity|]. split; [|reflexivity].
  apply Binary64Facts.clamp_in_range; assumption.
Qed.

Lemma temperature_record_ok (name : string) (i : nat)
    (entry : Psutil.shwtemp float) :
  ('0 <? Psutil.current entry) = true ->
  psutil_record (Psutil.temperature_record name i entry).
Proof.
  intros H. unfold psutil_record, Psutil.temperature_record.
  cbn [s_method s_unit s_current s_other].
  split; [reflexivity|]. split; [reflexivity|].
  change (estimate_range "psutil.sensors_temperatures")
    with (@None (float * float)).
  split; [reflexivity|]. split; [exact H|].
  eexists. split; [reflexivity|].
  destruct (Psutil.high entry) as [h|]; [|vm_compute; reflexivity].
  destruct (fzero h) eqn:E; [vm_compute; reflexivity|exact E].
Qed.

(** X14.  What [_detect_psutil_sensors] estimates is in its range.  The detection
    does not raise, whatever [psutil] answers, and returns a new
    dictionary.  No record of it is tagged as simulated.  A record that it
    estimates from the load (the package and the cores of the CPU, the
    memory, the disk) has a finite value within the range of its method,
    which ends at its own ['max'], also when [psutil] reports a load that
    is not a number; a temperature that [psutil] read is above 0.  No
    object that was there is changed. *)
Theorem detect_psutil_sensors_estimates (s : St float) :
  exists r s' m,
    Psutil._detect_psutil_sensors p o s = (Ok r, s')
    /\ r = List.length (heap s) /\ map_at s' r = Some m
    /\ (forall k l, In (k, l) m ->
          exists rec, sensor_at s' l = Some rec /\ psutil_record rec)
    /\ frame_inv s s'.
Proof.
  destruct (detect_psutil_run o p (fun _ r => psutil_record r) s)
    as (s' & m & Hrun & Hm & Hrec & Hfr).
  { apply (pres_detect_sensors o p _ (fun _ r => psutil_record r)
                               (List.length (heap s))); [..|apply le_n].
    - intros s1 c. apply records_env. reflexivity.
    - intros s1 c. apply records_env. reflexivity.
    - intros d k r Hd Hc.
      apply (records_put o (fun _ r => psutil_record r) _ _ d k r Hd Hc).
    - intros name i entry. apply temperature_record_ok.
    - intros x. apply estimated_record; vm_compute; reflexivity.
    - intros i x. apply estimated_record; vm_compute; reflexivity.
    - intros x. apply estimated_record; vm_compute; reflexivity.
    - intros x. apply estimated_record; vm_compute; reflexivity. }
  exists (List.length (heap s)), s', m. auto.
Qed.

End PsutilEstimates.

(** On [coreless64], with the probes of a Linux machine: three temperatures
    and the package. *)
Lemma detect_psutil_sensors_without_core_count_witness :
  exists r s' m,
    Psutil._detect_psutil_sensors linux_probes coreless64 blank64 = (Ok r, s')
    /\ map_at s' r = Some m
    /\ keys m = ["psutil_coretemp_0"; "psutil_coretemp_2"; "psutil_nvme_0";
                 "cpu_package_real"]%string
    /\ dict_get "ram_real" m = None.
Proof.
  destruct (detect_psutil_sensors_without_core_count
              coreless64 linux_probes blank64)
    as (r & s' & m & Hrun & Hm & _ & Hram & _).
  { intros c x [= <-]. reflexivity. }
  exists r, s', m. split; [exact Hrun|]. split; [exact Hm|].
  split; [|exact Hram].
  revert Hrun Hm. vm_compute. intros [= <- <-] [= <-]. reflexivity.
Defined.

(** ** The monitor page *)

Section SessionFacts.
Context {F : Type} {PF : PyFloat F}.
Variable o : Oracle F.

Lemma model_fans_kept (s s' : St F) :
  fan_status s' = fan_status s ->
  (forall l x, nth_error (heap s) l = Some x -> nth_error (heap s') l = Some x) ->
  model_fans s -> model_fans s'.
Proof.
  intros Hf Hpre (m & Hm & Hk & Hfans). exists m.
  split.
  { unfold map_at in *. rewrite Hf.
    destruct (nth_error (heap s) (fan_status s)) as [x|] eqn:E; [|discriminate].
    rewrite (Hpre _ _ E). exact Hm. }
  split; [exact Hk|].
  intros k l Hin. destruct (Hfans k l Hin) as (f0 & f & Hin0 & Hfl & Hmx & Hc).
  exists f0, f. split; [exact Hin0|]. split; [|auto].
  unfold fan_at in *.
  destruct (nth_error (heap s) l) as [x|] eqn:E; [|discriminate].
  rewrite (Hpre _ _ E). exact Hfl.
Qed.

Lemma update_sensors_keeps (s : St F) :
  sensors_ok s = true -> model_fans s ->
  exists d s',
    get_updated_sensors o s = (Ok d, s')
    /\ sensors_ok s' = true /\ model_fans s'.
Proof.
  intros Hok Hfans.
  destruct (get_updated_sensors_new o s Hok)
    as (m & s' & m' & _ & Hrun & Hs & Hf & Hpre & _).
  exists (List.length (heap s)), s'. split; [exact Hrun|].
  split; [apply (sensors_ok_kept s s' Hok Hs Hpre)|].
  apply (model_fans_kept s s' Hf Hpre Hfans).
Qed.

Lemma update_fans_keeps (s : St F) :
  sensors_ok s = true -> model_fans s ->
  exists d s',
    get_fan_status o s = (Ok d, s')
    /\ sensors_ok s' = true /\ model_fans s'.
Proof.
  intros Hok (m & Hm & Hk & Hfans).
  assert (Hnd : NoDup (keys m)).
  { rewrite Hk. simpl. repeat constructor; simpl; intuition discriminate. }
  assert (Hfan : forall k l, In (k, l) m -> exists f, fan_at s l = Some f).
  { intros k l Hin. destruct (Hfans k l Hin) as (_ & f & _ & Hf & _).
    exists f. exact Hf. }
  destruct (fan_refresh_run o s m Hm Hnd Hfan)
    as (s' & Hrun & Hf & Hs & _ & Hm' & Hkeep & Hnew).
  exists (fan_status s'), s'. split.
  { unfold get_fan_status. cbv [bind gets].
    rewrite (load_map_run o (fan_status s) m s Hm).
    destruct m as [|kv m']; [discriminate Hk|].
    cbv [ret]. rewrite Hrun. reflexivity. }
  assert (Hobj : forall l x, nth_error (heap s) l = Some x ->
                             (forall f, x <> OFan f) ->
                             nth_error (heap s') l = Some x).
  { intros l x Hl Hx. apply Hkeep; [exact Hl|].
    intros Hin. apply in_map_iff in Hin. destruct Hin as ([k l'] & Hl' & Hin).
    simpl in Hl'. subst l'. destruct (Hfan k l Hin) as (f & Hfl).
    unfold fan_at in Hfl. rewrite Hl in Hfl.
    destruct x as [| |f']; try discriminate. apply (Hx f'). reflexivity. }
  split.
  - apply sensors_ok_spec in Hok. destruct Hok as (m0 & Hm0 & Hrec).
    apply sensors_ok_spec. exists m0. split.
    + unfold map_at in *. rewrite Hs.
      destruct (nth_error (heap s) (sensors s)) as [[m1| |]|] eqn:E;
        try discriminate.
      rewrite (Hobj _ _ E); [exact Hm0|]. intros f. discriminate.
    + intros k l Hin. destruct (Hrec k l Hin) as (r & Hr). exists r.
      unfold sensor_at in *.
      destruct (nth_error (heap s) l) as [[|r1|]|] eqn:E; try discriminate.
      rewrite (Hobj _ _ E); [exact Hr|]. intros f. discriminate.
  - exists m. split; [exact Hm'|]. split; [exact Hk|].
    intros k l Hin. destruct (Hfans k l Hin) as (f0 & f & Hin0 & Hfl & Hmx & Hc).
    destruct (Hnew l f Hfl) as (f' & Hf' & Hmx' & [->|Hc']).
    + exists f0, f. auto.
    + exists f0, f'. split; [exact Hin0|]. split; [exact Hf'|].
      split; [congruence|exact Hc'].
Qed.

Lemma updates_keep (gui : list bool) :
  forall s, sensors_ok s = true -> model_fans s ->
  exists s',
    hardware_updates gui o s = (Ok tt, s')
    /\ sensors_ok s' = true /\ model_fans s'.
Proof.
  induction gui as [|labels gui IH]; intros s Hok Hfans.
  - exists s. auto.
  - destruct (update_sensors_keeps s Hok Hfans) as (d & s1 & Hrun1 & Hok1 & Hf1).
    assert (H2 : exists s2, _schedule_hardware_update labels o s = (Ok tt, s2)
                            /\ sensors_ok s2 = true /\ model_fans s2).
    { unfold _schedule_hardware_update, try_. unfold bind at 1. rewrite Hrun1.
      destruct labels; [|exists s1; auto].
      destruct (update_fans_keeps s1 Hok1 Hf1) as (d2 & s2 & Hrun2 & Hok2 & Hf2).
      exists s2. cbv [bind ret]. rewrite Hrun2. auto. }
    destruct H2 as (s2 & Hrun2 & Hok2 & Hf2).
    destruct (IH s2 Hok2 Hf2) as (s3 & Hrun3 & Hok3 & Hf3).
    exists s3. cbn [hardware_updates]. unfold bind at 1. rewrite Hrun2.
    auto.
Qed.

Lemma model_fans_of_items (s : St F) :
  fan_items s = Some (map (fun kf => (fst kf, Some (snd kf))) default_fans) ->
  model_fans s.
Proof.
  unfold fan_items, model_fans.
  destruct (map_at s (fan_status s)) as [m|]; [|discriminate].
  cbn [option_map]. intros [= H]. exists m. split; [reflexivity|].
  split.
  { unfold keys. apply (f_equal (map fst)) in H.
    rewrite !map_map in H. cbn [fst] in H. exact H. }
  intros k l Hin.
  apply (in_map (fun kv => (fst kv, fan_at s (snd kv)))) in Hin.
  rewrite H in Hin. simpl in Hin.
  destruct Hin as [[= <- Hf]|[[= <- Hf]|[[= <- Hf]|[[= <- Hf]|[[= <- Hf]|[]]]]]];
    (eexists; eexists; split;
     [|split; [symmetry; exact Hf|split; reflexivity]]);
    simpl; tauto.
Qed.

(** X16.  The monitor page does not fail.  On every machine, whatever the system
    and the detection methods answer and whatever runs of the page fail to
    draw their labels: the constructor, the detection that follows it and
    every run of the update return; after them the engine holds a dictionary
    of sensor records and the five fans of the model, each with the maximum
    of the model, its speed within 10 and 100, its RPM from 200 up to the
    maximum and the status of its speed. *)
Theorem monitor_page_never_fails (gui : list bool) (s : St F) :
  exists s',
    start_hardware_updates gui o s = (Ok tt, s')
    /\ sensors_ok s' = true
    /\ exists m,
         map_at s' (fan_status s') = Some m
         /\ keys m = keys default_fans
         /\ forall k l, In (k, l) m ->
              exists f0 f, In (k, f0) default_fans /\ fan_at s' l = Some f
                           /\ max_rpm f = max_rpm f0
                           /\ fan_consistent f = true.
Proof.
  destruct (init_ok o s) as (s1 & Hrun1 & Hok1 & Hitems).
  pose proof (model_fans_of_items s1 Hitems) as Hf1.
  destruct (detect_all_sensors_spec o s1)
    as (r & s2 & m2 & Hrun2 & _ & _ & Hok2 & _).
  pose proof (detect_frame o s1 s1 (frame_refl s1)) as Hfr.
  unfold wp in Hfr. rewrite Hrun2 in Hfr.
  destruct Hfr as ((Hpre & _ & Hfs & _) & _).
  pose proof (model_fans_kept s1 s2 Hfs Hpre Hf1) as Hf2.
  destruct (updates_keep gui s2 Hok2 Hf2) as (s3 & Hrun3 & Hok3 & Hf3).
  exists s3. split; [|split; [exact Hok3|exact Hf3]].
  unfold start_hardware_updates. unfold bind at 1. rewrite Hrun1.
  unfold bind at 1. rewrite Hrun2. exact Hrun3.
Qed.

End SessionFacts.

(** ** A speed that was set, and the next refresh *)

Section SetThenRefresh.
Context {F : Type} {PF : PyFloat F}.
Local Open Scope py_scope.
Variable o : Oracle F.

Lemma with_heap_same (s : St F) : with_heap (heap s) s = s.
Proof. destruct s. reflexivity. Qed.

(** A turn reads the maximum of the fan, then computes, then stores. *)
Lemma update_fan_split (k : string) (l : loc) (s : St F) (f : Fan) :
  fan_at s l = Some f ->
  update_fan k l o s
  = bind (fan_turn k (max_rpm f)) (fun rs =>
      bind (set_fan k (with_current_rpm (Z.max 200 (Z.min (max_rpm f) (fst rs)))))
        (fun _ =>
      bind (set_fan k (with_current_speed (Z.max 10 (Z.min 100 (snd rs)))))
        (fun _ =>
      if (80 <? Z.max 10 (Z.min 100 (snd rs)))%Z
      then set_fan k (with_status "High")
      else if (60 <? Z.max 10 (Z.min 100 (snd rs)))%Z
           then set_fan k (with_status "Medium")
           else set_fan k (with_status "Normal")))) o s.
Proof.
  intros Hf. unfold update_fan. unfold bind at 1.
  rewrite (load_fan_run o l f s Hf). unfold fan_turn.
  unfold bind at 1. symmetry. unfold bind at 1. unfold bind at 1.
  destruct (float_ (max_rpm f) o s) as [[m|] s1]; [|reflexivity].
  cbv zeta.
  destruct (k =? "cpu_fan")%string; [|destruct (k =? "gpu_fan")%string].
  all: repeat (unfold bind at 1;
               match goal with
               | |- context [uniform ?a ?b o ?st] =>
                   destruct (uniform a b o st) as [[?|] ?]; [|reflexivity]
               | |- context [int_ ?a o ?st] =>
                   destruct (int_ a o st) as [[?|] ?]; [|reflexivity]
               | |- context [truediv_int ?a ?b o ?st] =>
                   destruct (truediv_int a b o st) as [[?|] ?]; [|reflexivity]
               end).
  all: reflexivity.
Qed.

(** What a turn computes does not depend on the objects, and it changes
    none: it only reads the clock of the draws. *)
Lemma fan_turn_heap (k : string) (mx : Z) (s : St F) (h : list (Obj F)) :
  fan_turn k mx o (with_heap h s)
  = (fst (fan_turn k mx o s), with_heap h (snd (fan_turn k mx o s))).
Proof.
  unfold fan_turn.
  cbv [bind float_ int_ truediv_int uniform ask lift ret raise].
  change (cursor (with_heap h s)) with (cursor s).
  repeat (cbv beta iota; cbn [cursor with_cursor with_heap fst snd];
          match goal with
          | |- context [fof_int ?x] => destruct (fof_int x)
          | |- context [fto_int ?x] => destruct (fto_int x)
          | |- context [(?x =? ?y)%string] => destruct (x =? y)%string
          | |- context [(?x =? ?y)%Z] => destruct (x =? y)%Z
          end).
  all: reflexivity.
Qed.

Lemma fan_turn_keeps (k : string) (mx : Z) (s : St F) :
  pres o (fun s' => heap s' = heap s /\ fan_status s' = fan_status s)
       (fan_turn k mx).
Proof.
  assert (Hc : forall (s1 : St F) (c : nat),
             heap s1 = heap s /\ fan_status s1 = fan_status s ->
             heap (with_cursor c s1) = heap s
             /\ fan_status (with_cursor c s1) = fan_status s).
  { intros s1 c H. exact H. }
  unfold fan_turn.
  repeat first
    [ progress cbv beta zeta
    | match goal with
      | |- pres _ _ (if ?c then _ else _) => destruct c
      | |- pres _ _ (uniform _ _) => apply pres_uniform; exact Hc
      | |- pres _ _ (float_ _) => apply pres_float_
      | |- pres _ _ (int_ _) => apply pres_int_
      | |- pres _ _ (truediv_int _ _) => apply pres_truediv_int
      | |- pres _ _ (ret _) => apply pres_ret
      | |- pres _ _ (bind _ _) => apply pres_bind; [|intros]
      end ].
Qed.

Lemma list_set_same {A} (xs : list A) (i : nat) (x : A) :
  nth_error xs i = Some x -> list_set i x xs = xs.
Proof.
  revert i. induction xs as [|y xs IH]; intros [|i]; simpl; try discriminate.
  - intros [= ->]. reflexivity.
  - intros H. rewrite (IH i H). reflexivity.
Qed.

Lemma list_set_comm {A} (xs : list A) (i j : nat) (x y : A) :
  i <> j -> list_set i x (list_set j y xs) = list_set j y (list_set i x xs).
Proof.
  revert i j. induction xs as [|z xs IH]; intros [|i] [|j] H; simpl;
    try reflexivity; try congruence.
  rewrite IH by congruence. reflexivity.
Qed.

(** A turn, run: what it stores is the fan that [fan_turn] gives for the
    maximum; when [fan_turn] raises, nothing is stored. *)
Lemma update_fan_run (k : string) (l : loc) (m : dict loc) (f : Fan)
    (s : St F) :
  map_at s (fan_status s) = Some m -> dict_get k m = Some l ->
  fan_at s l = Some f ->
  update_fan k l o s
  = match fan_turn k (max_rpm f) o s with
    | (Ok rs, s') =>
        (Ok tt,
         with_heap (list_set l (OFan (refreshed_fan (max_rpm f) rs)) (heap s'))
                   s')
    | (Raise, s') => (Raise, s')
    end.
Proof.
  intros Hm Hk Hf. rewrite (update_fan_split k l s f Hf).
  pose proof (fan_turn_keeps k (max_rpm f) s s (conj eq_refl eq_refl)) as Hkeep.
  unfold wp in Hkeep. unfold bind at 1.
  destruct (fan_turn k (max_rpm f) o s) as [[rs|] s'] eqn:E; [|reflexivity].
  destruct Hkeep as (Hh & Hfs).
  assert (Hm' : map_at s' (fan_status s') = Some m).
  { unfold map_at. rewrite Hh, Hfs. exact Hm. }
  assert (Hf' : fan_at s' l = Some f).
  { unfold fan_at. rewrite Hh. exact Hf. }
  rewrite (update_fan_store o k l m f _ _ s' Hm' Hk Hf'). reflexivity.
Qed.

Variable m : dict loc.
Variable l0 : loc.
Variables f0 f1 : Fan.

(** Two runs of the refresh, one from an engine whose fan at [l0] was set:
    [s1] is [s] but for this fan, and either the two are one engine by now,
    or the fan is still as it was in each. *)
Definition set_apart (s s1 : St F) : Prop :=
  map_at s (fan_status s) = Some m
  /\ (forall k l, In (k, l) m -> exists f, fan_at s l = Some f)
  /\ exists g g1,
       fan_at s l0 = Some g /\ max_rpm g1 = max_rpm g
       /\ s1 = with_heap (list_set l0 (OFan g1) (heap s)) s
       /\ (g1 = g \/ (g = f0 /\ g1 = f1)).

Lemma set_apart_env (s s1 s' : St F) :
  heap s' = heap s -> fan_status s' = fan_status s ->
  set_apart s s1 ->
  set_apart s' (with_heap (heap s1) s').
Proof.
  intros Hh Hfs (Hm & Hfans & g & g1 & Hg & Hmx & -> & Hor).
  unfold set_apart, map_at, fan_at. rewrite Hh, Hfs.
  split; [exact Hm|]. split; [exact Hfans|].
  exists g, g1. split; [exact Hg|]. split; [exact Hmx|].
  split; [|exact Hor]. st_simpl. reflexivity.
Qed.

Lemma set_apart_turn (k : string) (l : loc) (s s1 : St F) :
  dict_get k m = Some l -> set_apart s s1 ->
  exists r s' s1',
    update_fan k l o s = (r, s') /\ update_fan k l o s1 = (r, s1')
    /\ set_apart s' s1'.
Proof.
  intros Hk Hap. pose proof Hap as (Hm & Hfans & g & g1 & Hg & Hmx & Hs1 & Hor).
  destruct (Hfans k l (dict_get_In _ _ _ Hk)) as (f & Hf).
  destruct (set_fan_kept s m l0 g g1 Hm Hg) as (Hm1 & Hg1).
  rewrite <- Hs1 in Hm1, Hg1.
  assert (Hf1 : exists f', fan_at s1 l = Some f' /\ max_rpm f' = max_rpm f).
  { destruct (Nat.eq_dec l l0) as [->|Hne].
    - exists g1. split; [exact Hg1|]. congruence.
    - exists f. split; [|reflexivity]. rewrite Hs1. unfold fan_at in *.
      st_simpl. rewrite nth_error_list_set_neq by congruence. exact Hf. }
  destruct Hf1 as (f' & Hf' & Hmx').
  rewrite (update_fan_run k l m f s Hm Hk Hf).
  rewrite (update_fan_run k l m f' s1 Hm1 Hk Hf'). rewrite Hmx'.
  pose proof (fan_turn_keeps k (max_rpm f) s s (conj eq_refl eq_refl)) as Hkeep.
  unfold wp in Hkeep.
  rewrite Hs1. rewrite (fan_turn_heap k (max_rpm f) s).
  destruct (fan_turn k (max_rpm f) o s) as [[rs|] sc] eqn:E; cbn [fst snd].
  - destruct Hkeep as (Hh & Hfs).
    eexists; eexists; eexists. split; [reflexivity|]. split; [reflexivity|].
    st_simpl.
    set (new := refreshed_fan (max_rpm f) rs).
    assert (Hmc : map_at sc (fan_status sc) = Some m).
    { unfold map_at. rewrite Hh, Hfs. exact Hm. }
    assert (Hfc : fan_at sc l = Some f).
    { unfold fan_at. rewrite Hh. exact Hf. }
    destruct (set_fan_kept sc m l f new Hmc Hfc) as (Hm' & Hnew).
    cbv zeta in Hm', Hnew.
    split; [exact Hm'|]. split.
    { intros k' l' Hin. destruct (Hfans k' l' Hin) as (f2 & Hf2).
      destruct (Nat.eq_dec l l') as [<-|Hne].
      - exists new. exact Hnew.
      - exists f2. unfold fan_at in *. st_simpl.
        rewrite nth_error_list_set_neq by exact Hne. rewrite Hh. exact Hf2. }
    destruct (Nat.eq_dec l l0) as [->|Hne].
    + exists new, new. split; [exact Hnew|]. split; [reflexivity|].
      split; [|left; reflexivity].
      st_simpl. rewrite <- Hh, !list_set_twice. reflexivity.
    + exists g, g1. split.
      { unfold fan_at in *. st_simpl.
        rewrite nth_error_list_set_neq by exact Hne. rewrite Hh. exact Hg. }
      split; [exact Hmx|]. split; [|exact Hor].
      st_simpl. rewrite Hh. rewrite (list_set_comm _ l l0) by exact Hne.
      reflexivity.
  - destruct Hkeep as (Hh & Hfs).
    eexists; eexists; eexists. split; [reflexivity|]. split; [reflexivity|].
    pose proof (set_apart_env s s1 sc Hh Hfs Hap) as H.
    rewrite Hs1 in H. st_simpl. exact H.
Qed.

Hypothesis m_keys : NoDup (keys m).

Lemma set_apart_loop (items : dict loc) :
  (forall kv, In kv items -> In kv m) ->
  forall s s1, set_apart s s1 ->
  exists r s' s1',
    forM_ items (fun kv => update_fan (fst kv) (snd kv)) o s = (r, s')
    /\ forM_ items (fun kv => update_fan (fst kv) (snd kv)) o s1 = (r, s1')
    /\ set_apart s' s1'.
Proof.
  induction items as [|[k l] items IH]; intros Hsub s s1 Hap.
  - exists (Ok tt), s, s1. auto.
  - assert (Hk : dict_get k m = Some l).
    { apply dict_get_NoDup; [exact m_keys|]. apply Hsub. left. reflexivity. }
    destruct (set_apart_turn k l s s1 Hk Hap) as (r & s' & s1' & H & H1 & Hap').
    cbn [forM_ fst snd]. unfold bind. rewrite H, H1.
    destruct r as [[]|].
    + apply IH; [|exact Hap']. intros kv Hin. apply Hsub. right. exact Hin.
    + exists Raise, s', s1'. auto.
Qed.

Lemma set_apart_refresh (s s1 : St F) :
  set_apart s s1 ->
  exists s' s1',
    _update_fan_status_real_time o s = (Ok tt, s')
    /\ _update_fan_status_real_time o s1 = (Ok tt, s1')
    /\ fan_status s' = fan_status s
    /\ set_apart s' s1'.
Proof.
  intros Hap. pose proof Hap as (Hm & Hfans & g & g1 & Hg & Hmx & Hs1 & Hor).
  destruct (set_fan_kept s m l0 g g1 Hm Hg) as (Hm1 & _).
  rewrite <- Hs1 in Hm1.
  set (c := S (cursor s)).
  assert (Hap0 : set_apart (with_cursor c s) (with_cursor c s1)).
  { pose proof (set_apart_env s s1 (with_cursor c s) eq_refl eq_refl Hap) as H.
    rewrite Hs1 in *. exact H. }
  destruct (set_apart_loop m (fun kv H => H) _ _ Hap0)
    as (r & s' & s1' & H & H1 & Hap').
  assert (Hfs : fan_status s' = fan_status s).
  { pose proof (fan_refresh_run o s m Hm m_keys Hfans) as (s2 & Hrun & Hf2 & _).
    revert Hrun. unfold _update_fan_status_real_time, try_.
    cbv [bind ask gets]. st_simpl. fold c.
    rewrite (load_map_run o (fan_status s) m (with_cursor c s) Hm).
    rewrite H. destruct r as [[]|]; cbv [ret]; intros [= <-]; exact Hf2. }
  exists s', s1'. split; [|split; [|split; [exact Hfs|exact Hap']]].
  - unfold _update_fan_status_real_time, try_. cbv [bind ask gets]. st_simpl.
    fold c. rewrite (load_map_run o (fan_status s) m (with_cursor c s) Hm).
    rewrite H. destruct r as [[]|]; reflexivity.
  - unfold _update_fan_status_real_time, try_. cbv [bind ask gets]. st_simpl.
    assert (Hc : cursor s1 = cursor s) by (rewrite Hs1; reflexivity).
    rewrite Hc. fold c.
    rewrite (load_map_run o (fan_status s1) m (with_cursor c s1) Hm1).
    rewrite H1. destruct r as [[]|]; reflexivity.
Qed.

Lemma set_apart_end (s s1 : St F) :
  set_apart s s1 ->
  s1 = s \/ (fan_at s l0 = Some f0 /\ fan_at s1 l0 = Some f1).
Proof.
  intros (Hm & Hfans & g & g1 & Hg & Hmx & Hs1 & [->|(-> & ->)]).
  - left. rewrite Hs1.
    rewrite (list_set_same (heap s) l0 (OFan g)); [apply with_heap_same|].
    unfold fan_at in Hg.
    destruct (nth_error (heap s) l0) as [[| |x]|]; try discriminate.
    injection Hg as ->. reflexivity.
  - right. split; [exact Hg|].
    destruct (set_fan_kept s m l0 f0 f1 Hm Hg) as (_ & H1).
    rewrite Hs1. exact H1.
Qed.

End SetThenRefresh.

Section SetThenRefreshRun.
Context {F : Type} {PF : PyFloat F}.
Variable o : Oracle F.

(** X17.  The next refresh forgets the speed that was set.  On an engine that
    holds a dictionary of fans, take a fan that is there.  [get_fan_status]
    after [set_fan_speed] on this fan leaves the engine that
    [get_fan_status] alone would have left, whatever the percentage and
    whatever [set_fan_speed] returned: nothing of the speed that was set is
    left.  The only exception is a refresh that fails before it comes to
    the fan: the fan is then as it was, in each of the two runs. *)
Theorem refresh_forgets_set_speed (fan_id : string) (percent : Z)
    (s : St F) (m : dict loc) (l0 : loc) (f0 : Fan) :
  map_at s (fan_status s) = Some m -> NoDup (keys m) ->
  (forall k l, In (k, l) m -> exists f, fan_at s l = Some f) ->
  dict_get fan_id m = Some l0 -> fan_at s l0 = Some f0 ->
  exists b s1 d t t1,
    set_fan_speed fan_id percent o s = (Ok b, s1)
    /\ get_fan_status o s = (Ok d, t)
    /\ get_fan_status o s1 = (Ok d, t1)
    /\ (t1 = t
        \/ (fan_at t l0 = Some f0 /\ fan_at t1 l0 = fan_at s1 l0)).
Proof.
  intros Hm Hnd Hfans Hk Hf0.
  set (f1 := fst (set_speed percent f0)).
  set (s1 := with_heap (list_set l0 (OFan f1) (heap s)) s).
  assert (Hmx : max_rpm f1 = max_rpm f0).
  { unfold f1, set_speed.
    destruct (speed_rpm percent (max_rpm f0)); reflexivity. }
  destruct (set_fan_kept s m l0 f0 f1 Hm Hf0) as (Hm1 & Hf1). fold s1 in Hm1, Hf1.
  assert (Hap : set_apart m l0 f0 f1 s s1).
  { split; [exact Hm|]. split; [exact Hfans|].
    exists f0, f1. split; [exact Hf0|]. split; [exact Hmx|].
    split; [reflexivity|]. right. split; reflexivity. }
  destruct (set_apart_refresh o m l0 f0 f1 Hnd s s1 Hap)
    as (t & t1 & Hrun & Hrun1 & Hfs & Hap').
  assert (Hfs1 : fan_status t1 = fan_status t).
  { destruct Hap' as (_ & _ & g & g1 & _ & _ & -> & _). reflexivity. }
  assert (Hne : m <> []) by (intros ->; discriminate Hk).
  exists (snd (set_speed percent f0)), s1, (fan_status t), t, t1.
  split; [apply (set_fan_speed_run o fan_id percent s m l0 f0 Hm Hk Hf0)|].
  split.
  { unfold get_fan_status. cbv [bind gets].
    rewrite (load_map_run o (fan_status s) m s Hm).
    destruct m as [|kv m']; [contradiction|].
    cbv [ret]. rewrite Hrun. reflexivity. }
  split.
  { unfold get_fan_status. cbv [bind gets].
    rewrite (load_map_run o (fan_status s1) m s1 Hm1).
    destruct m as [|kv m']; [contradiction|].
    cbv [ret]. rewrite Hrun1. rewrite Hfs1. reflexivity. }
  destruct (set_apart_end m l0 f0 f1 t t1 Hap') as [->|(H & H1)].
  - left. reflexivity.
  - right. split; [exact H|]. rewrite H1, Hf1. reflexivity.
Qed.

End SetThenRefreshRun.

(** On [engine64], after [set_fan_speed("cpu_fan", 90)]: the refresh
    leaves the same engine. *)
Lemma refresh_forgets_set_speed_witness :
  exists b s1 d t,
    set_fan_speed "cpu_fan" 90 steady64 engine64 = (Ok b, s1)
    /\ get_fan_status steady64 engine64 = (Ok d, t)
    /\ get_fan_status steady64 s1 = (Ok d, t).
Proof.
  destruct steady_fan_map_ok as (Hm & Hnd & Hfans).
  destruct (refresh_forgets_set_speed steady64 "cpu_fan" 90 engine64
              steady_fan_map 33%nat
              {| current_rpm := 1200; current_speed := 60;
                 max_rpm := 3000; status := "Normal" |} Hm Hnd Hfans)
    as (b & s1 & d & t & t1 & H1 & H2 & H3 & H4).
  - reflexivity.
  - vm_compute. reflexivity.
  - exists b, s1, d, t. split; [exact H1|]. split; [exact H2|].
    destruct H4 as [->|(H4 & _)]; [exact H3|].
    exfalso. revert H2 H4. vm_compute. intros [= _ <-]. discriminate.
Defined.

(** ** The detection with cpuinfo *)

Section UpperFacts.
Local Open Scope string_scope.

Lemma upper_ascii_not_lower (c : ascii) :
  upper_ascii c <> "n"%char.
Proof.
  destruct c as [[] [] [] [] [] [] [] []]; vm_compute; discriminate.
Qed.

(** No string in capitals has ["Intel"] in it. *)
Lemma upper_no_Intel (s : string) : contains "Intel" (upper s) = false.
Proof.
  induction s as [|c s IH]; [reflexivity|].
  cbn [upper]. rewrite contains_cons, IH, orb_false_r.
  cbn [prefix]. destruct (ascii_dec "I" (upper_ascii c)); [|reflexivity].
  destruct s as [|c' s]; [reflexivity|].
  cbn [upper prefix].
  destruct (ascii_dec "n" (upper_ascii c')) as [E|]; [|reflexivity].
  exfalso. apply (upper_ascii_not_lower c'). symmetry. exact E.
Qed.

End UpperFacts.

Section CpuInfoFacts.
Context {F : Type} {PF : PyFloat F}.
Local Open Scope string_scope.
Local Open Scope py_scope.
Variable o : Oracle F.
Variable has_cpuinfo : bool.
Variable cpu_info : option (option string).

Lemma base_temp_of_brand (cpu_brand : string) :
  CpuInfo.base_temp_of cpu_brand
  = if contains "AMD" (upper cpu_brand) && contains "Ryzen" cpu_brand
    then '42 else ('40 : F).
Proof.
  unfold CpuInfo.base_temp_of. rewrite upper_no_Intel.
  destruct (contains "AMD" (upper cpu_brand)); [|reflexivity].
  destruct (contains "Ryzen" cpu_brand); reflexivity.
Qed.

Lemma pres_detect_cpu (I : St F -> Prop) (C : string -> Sensor F -> Prop)
    (n : nat) (d : loc) :
  (forall s c, I s -> I (with_cursor c s)) ->
  (forall s c, I s -> I (with_os_calls c s)) ->
  (forall d k r, (n <= d)%nat -> C k r -> pres o I (put d k r)) ->
  (forall cpu_brand r,
     cpu_info = Some (Some cpu_brand) -> cpuinfo_record cpu_brand r ->
     C "cpuinfo_temp" r) ->
  (n <= d)%nat ->
  pres o I (CpuInfo.detect_cpu has_cpuinfo cpu_info d).
Proof.
  intros I_cursor I_log I_put HC Hd s H. unfold CpuInfo.detect_cpu.
  apply wp_bind. destruct has_cpuinfo; [apply wp_ret|apply wp_raise; exact H].
  apply wp_bind, wp_import_psutil. destruct (o_psutil o); [|exact H].
  apply wp_bind, wp_lift.
  destruct cpu_info as [[cpu_brand|]|] eqn:E; [|exact H|exact H].
  cbv zeta. apply wp_bind.
  eapply wp_mono; [apply (pres_os_call o I I_cursor I_log); exact H| |auto].
  intros cpu_percent s' H'. apply (I_put d); [exact Hd| |exact H'].
  apply (HC cpu_brand); [reflexivity|].
  unfold cpuinfo_record. cbn [s_name s_type s_method s_unit s_other s_current].
  repeat (split; [reflexivity|]).
  exists cpu_percent. rewrite base_temp_of_brand. reflexivity.
Qed.

(** X18.  The Intel branch is never taken.  [_detect_cpu_specific] does not
    raise and returns a new dictionary, empty or with the one key
    [cpuinfo_temp]; no object that was there is changed.  The record is
    there only when [cpuinfo] gave a brand, and its value is the base
    temperature and a quarter of a degree for each percent of load, up to
    80: the base is 42 for a brand with [AMD] in any case and [Ryzen], and
    40 for every other brand.  The base of 38 degrees meant for Intel is
    never used, since the test looks for ["Intel"] in the brand in
    capitals. *)
Theorem detect_cpu_specific_base_temperature (s : St F) :
  exists r s' m,
    CpuInfo._detect_cpu_specific has_cpuinfo cpu_info o s = (Ok r, s')
    /\ r = List.length (heap s) /\ map_at s' r = Some m
    /\ (forall k l, In (k, l) m ->
          k = "cpuinfo_temp"
          /\ exists cpu_brand rec,
               cpu_info = Some (Some cpu_brand)
               /\ sensor_at s' l = Some rec
               /\ cpuinfo_record cpu_brand rec)
    /\ frame_inv s s'.
Proof.
  set (b := List.length (heap s)).
  set (C := fun (k : string) (r : Sensor F) =>
              k = "cpuinfo_temp"
              /\ exists cpu_brand,
                   cpu_info = Some (Some cpu_brand)
                   /\ cpuinfo_record cpu_brand r).
  set (s1 := with_heap (heap s ++ [OMap []]) s).
  assert (HR : records_inv C b b s1).
  { unfold records_inv, s1, map_at. st_simpl. split.
    { rewrite length_app. unfold b. lia. }
    split.
    - intros d' m k l Hb. rewrite nth_error_app2 by exact Hb. fold b.
      destruct (d' - b)%nat as [|n]; simpl.
      + intros [= <-] [].
      + destruct n; discriminate.
    - exists []. rewrite nth_error_app2 by (unfold b; lia).
      unfold b. rewrite Nat.sub_diag. reflexivity. }
  assert (HF : frame_inv s s1) by (apply frame_alloc, frame_refl).
  assert (H : wp o (CpuInfo._detect_cpu_specific has_cpuinfo cpu_info)
                (fun r s' => r = b /\ records_inv C b b s' /\ frame_inv s s')
                (fun _ => False) s).
  { unfold CpuInfo._detect_cpu_specific. apply wp_bind, wp_alloc.
    fold b s1. apply wp_bind, wp_try, wp_try.
    eapply wp_mono.
    - apply wp_conj.
      + apply (pres_detect_cpu (records_inv C b b) C b b).
        * intros s2 c. apply records_env. reflexivity.
        * intros s2 c. apply records_env. reflexivity.
        * intros d k r Hd Hc. apply (records_put o C b b d k r Hd Hc).
        * intros cpu_brand r E Hr. split; [reflexivity|].
          exists cpu_brand. split; [exact E|exact Hr].
        * apply le_n.
        * exact HR.
      + apply (pres_detect_cpu (frame_inv s) (fun _ _ => True) b b).
        * intros s2 c. apply frame_env; reflexivity.
        * intros s2 c. apply frame_env; reflexivity.
        * intros d k r Hd _. apply frame_put; [exact Hd|exact Logic.I].
        * intros cpu_brand r _ _. exact Logic.I.
        * apply le_n.
        * exact HF.
    - intros a s2 (H1 & H2). apply wp_ret. auto.
    - intros s2 (H1 & H2). apply wp_ret. apply wp_ret. auto. }
  destruct (wp_ok o _ _ _ H) as (r & s' & Hrun & -> & (_ & Hrec & m & Hm) & Hfr).
  exists b, s', m. split; [exact Hrun|]. split; [reflexivity|].
  split; [exact Hm|]. split; [|exact Hfr].
  intros k l Hin.
  destruct (Hrec b m k l (le_n _) Hm Hin) as (_ & rec & Hr & -> & brand & E & Hc).
  split; [reflexivity|]. exists brand, rec. auto.
Qed.

End CpuInfoFacts.

(** An Intel CPU at 37% of load: 40 degrees and 9.25, not 38 and 9.25. *)
Lemma intel_brand_at_40 :
  exists s',
    CpuInfo._detect_cpu_specific true (Some (Some "Intel(R) Core(TM) i7-9700K"))
                                 steady64 blank64
    = (Ok 0%nat, s')
    /\ option_map s_current (sensor_of s' 0%nat "cpuinfo_temp")
       = Some 49.25%float.
Proof. eexists. split; vm_compute; reflexivity. Qed.
